(** * Ntando Computer: the deployment API server, embedded in Rocq

    The development follows the Express server of the repository (the file
    that requires express, mongoose, axios ... and defines the routes, called
    the _full_ server below) and the second, shorter server whose source
    follows the Dockerfile and the README in one file (the _simplified_
    variant, which has no availability check, no provider calls and a
    15 second timer).

    - The two MongoDB collections are lists of documents in insertion order.
    - Code that can throw runs in a state-and-exception monad [M]; a
      [try { ... } catch] is [tryCatch].
    - Everything outside the process (database faults, the clock, the hosting
      provider, the file system, bcrypt, jsonwebtoken) is an oracle of the
      environment [Env], indexed by the number of external calls made so far.
    - Calls that cannot succeed as they are written are embedded as they
      behave: [path.join] given an ObjectId and [fs.createReadStream] taken
      from [require('fs').promises] throw every time, and [upload.array]
      does not pass on a request that has a file part.
    - Work that the handlers start without awaiting it ([processDeployment],
      the [setTimeout] callbacks) is a [Task]; a [System] is a world together
      with its pending tasks, and [step] serves a request or runs a task.

    Routes embedded: POST /api/auth/register, POST /api/auth/login,
    POST /api/deploy, GET /api/deployments, GET /api/deployments/:id and
    DELETE /api/deployments/:id.  The analytics and health routes only read
    and answer with random or wall-clock numbers; they are left out. *)

From Stdlib Require Import List String Ascii ZArith Arith Bool Lia Sorted Permutation.
Import ListNotations.
Local Open Scope string_scope.

(** ** JavaScript string operations used by the server *)

Module Js.

(** [s.split(sep)] for a one-character separator. *)
Fixpoint split (sep : ascii) (s : string) : list string :=
  match s with
  | EmptyString => [EmptyString]
  | String c rest =>
      if Ascii.eqb c sep then EmptyString :: split sep rest
      else match split sep rest with
           | hd :: tl => String c hd :: tl
           | [] => [String c EmptyString]
           end
  end.

(** [s.includes(sub)] *)
Fixpoint includes (s sub : string) : bool :=
  String.prefix sub s ||
  match s with
  | EmptyString => false
  | String _ rest => includes rest sub
  end.

(** [s.endsWith(suffix)] *)
Fixpoint endsWith (s suffix : string) : bool :=
  String.eqb s suffix ||
  match s with
  | EmptyString => false
  | String _ rest => endsWith rest suffix
  end.

(** Truthiness of a value that is a string or [undefined]. *)
Definition truthy (v : option string) : bool :=
  match v with
  | Some s => negb (String.eqb s "")
  | None => false
  end.

(** A string-or-undefined inside a template literal. *)
Definition interpolate (v : option string) : string :=
  match v with
  | Some s => s
  | None => "undefined"
  end.

(** [a === b] on values that are strings or [undefined]. *)
Definition same (a b : option string) : bool :=
  match a, b with
  | Some x, Some y => String.eqb x y
  | None, None => true
  | _, _ => false
  end.

End Js.

(** ** Data model: the two Mongoose schemas *)

Definition ObjectId := nat.

(** The [:id] of a request path, a string.  Mongoose casts it when a query
    that names it is run: a string that spells an ObjectId gives that id, any
    other string makes the query reject with a CastError, before the
    database is asked.  An ObjectId is read as the parameter that spells
    it. *)
Inductive Param :=
| ObjectIdParam (i : nat)
| NotAnObjectId.

Coercion ObjectIdParam : nat >-> Param.

Inductive Status := building | deploying | live | error.

Definition Status_eqb (a b : Status) : bool :=
  match a, b with
  | building, building | deploying, deploying | live, live | error, error => true
  | _, _ => false
  end.

Record Metrics := {
  visitors : Z;
  bandwidth : Z;
  uptime : Z
}.

(** [deploymentSchema].  A field that the code can leave [undefined] is an
    [option]; [branch], [outputDir], [status], [sslEnabled], the two dates and
    the metrics have schema defaults. *)
Record Deployment := {
  _id : ObjectId;
  userId : ObjectId;
  projectName : option string;
  domain : option string;
  repositoryUrl : option string;
  branch : string;
  buildCommand : option string;
  outputDir : string;
  status : Status;
  renderServiceId : option string;
  deploymentUrl : option string;
  sslEnabled : bool;
  customDomain : option string;
  createdAt : Z;
  updatedAt : Z;
  metrics : Metrics
}.

(** [userSchema] *)
Record User := {
  user_id : ObjectId;
  email : string;
  password : string;
  plan : string;
  deployments : list ObjectId;
  user_createdAt : Z
}.

(** Assignments to a document held in memory. *)
Definition set_status (s : Status) (d : Deployment) : Deployment :=
  {| _id := _id d; userId := userId d; projectName := projectName d;
     domain := domain d; repositoryUrl := repositoryUrl d; branch := branch d;
     buildCommand := buildCommand d; outputDir := outputDir d;
     status := s;
     renderServiceId := renderServiceId d; deploymentUrl := deploymentUrl d;
     sslEnabled := sslEnabled d; customDomain := customDomain d;
     createdAt := createdAt d; updatedAt := updatedAt d; metrics := metrics d |}.

Definition set_renderServiceId (v : option string) (d : Deployment) : Deployment :=
  {| _id := _id d; userId := userId d; projectName := projectName d;
     domain := domain d; repositoryUrl := repositoryUrl d; branch := branch d;
     buildCommand := buildCommand d; outputDir := outputDir d;
     status := status d;
     renderServiceId := v; deploymentUrl := deploymentUrl d;
     sslEnabled := sslEnabled d; customDomain := customDomain d;
     createdAt := createdAt d; updatedAt := updatedAt d; metrics := metrics d |}.

Definition set_deploymentUrl (v : option string) (d : Deployment) : Deployment :=
  {| _id := _id d; userId := userId d; projectName := projectName d;
     domain := domain d; repositoryUrl := repositoryUrl d; branch := branch d;
     buildCommand := buildCommand d; outputDir := outputDir d;
     status := status d;
     renderServiceId := renderServiceId d; deploymentUrl := v;
     sslEnabled := sslEnabled d; customDomain := customDomain d;
     createdAt := createdAt d; updatedAt := updatedAt d; metrics := metrics d |}.

(** An uploaded file as multer hands it over. *)
Record File := {
  originalname : string;
  path : string
}.

(** What the hosting provider answers ([response.data]). *)
Record Service := {
  service_id : option string;
  service_url : option string;
  service_status : option string
}.

(** ** HTTP responses *)

#[warnings="-register-all"]
Inductive Json :=
| JString (s : string)
| JObjectId (i : ObjectId)
| JObject (fields : list (string * Json))
| JArray (items : list Json)
| JDocument (d : Deployment).

Record Response := {
  statusCode : nat;
  body : Json
}.

(** [res.status(c).json(b)] and [res.json(b)] *)
Definition res_status_json (c : nat) (b : Json) : Response :=
  {| statusCode := c; body := b |}.
Definition res_json (b : Json) : Response := res_status_json 200 b.

(** An object literal; a property whose value is [undefined] is not
    serialised. *)
Fixpoint literal (props : list (string * option Json)) : list (string * Json) :=
  match props with
  | [] => []
  | (k, Some v) :: rest => (k, v) :: literal rest
  | (_, None) :: rest => literal rest
  end.

Definition errorBody (msg : string) : Json := JObject [("error", JString msg)].

(** Reading a response body back. *)
Definition keys (j : Json) : list string :=
  match j with
  | JObject fields => map fst fields
  | _ => []
  end.

Fixpoint assoc (k : string) (fields : list (string * Json)) : option Json :=
  match fields with
  | [] => None
  | (k', v) :: rest => if String.eqb k k' then Some v else assoc k rest
  end.

Definition field (k : string) (j : Json) : option Json :=
  match j with
  | JObject fields => assoc k fields
  | _ => None
  end.

(** ** The world outside the handlers *)

Inductive Exn :=
| DbError            (* the database call failed *)
| DuplicateKey       (* a unique index rejected an insert *)
| ValidationError    (* Mongoose schema validation *)
| DocumentNotFound   (* save of a document that is no longer stored *)
| AxiosError         (* the provider call failed *)
| FsError            (* a file-system call failed *)
| BcryptError        (* bcrypt called with a non-string *)
| TypeError          (* a call with an argument of the wrong type, or of
                        something that is not a function *)
| CastError.         (* Mongoose cannot cast a query value to an ObjectId *)

(** The oracles.  The [nat] is the tick of the call: the number of external
    calls made before it.
    - [dbFault t]: the database call at tick [t] throws;
    - [fsFault t]: the file-system call at tick [t] throws;
    - [dateNow t]: [Date.now()] at tick [t];
    - [createService t name repo]: [response.data] of POST /services, [None]
      when axios throws;
    - [serviceStatus t id]: [response.data] of GET /services/:id, [None] when
      axios throws;
    - [customDomainFault t]: POST /services/:id/custom-domains throws;
    - [jwtVerify token]: the [userId] of the payload of a valid token;
    - [jwtSign t id], [bcryptHash t password] (salted, so they depend on the
      call) and [bcryptCompare password hash]. *)
Record Env := {
  dbFault : nat -> bool;
  fsFault : nat -> bool;
  dateNow : nat -> Z;
  createService : nat -> option string -> option string -> option Service;
  serviceStatus : nat -> option string -> option Service;
  customDomainFault : nat -> bool;
  jwtVerify : string -> option ObjectId;
  jwtSign : nat -> ObjectId -> string;
  bcryptHash : nat -> string -> string;
  bcryptCompare : string -> string -> bool
}.

(** [history] is ghost state: every status value written to the deployments
    collection, newest first.  [dbErrors] is ghost state too: the number of
    exceptions thrown by database operations.  No handler reads either. *)
Record World := {
  Users : list User;
  Deployments : list Deployment;
  nextId : ObjectId;
  ticks : nat;
  dbErrors : nat;
  history : list (ObjectId * Status)
}.

Definition emptyWorld : World :=
  {| Users := []; Deployments := []; nextId := 0; ticks := 0; dbErrors := 0;
     history := [] |}.

Definition with_Users (us : list User) (w : World) : World :=
  {| Users := us; Deployments := Deployments w; nextId := nextId w;
     ticks := ticks w; dbErrors := dbErrors w; history := history w |}.

Definition with_Deployments (ds : list Deployment) (w : World) : World :=
  {| Users := Users w; Deployments := ds; nextId := nextId w;
     ticks := ticks w; dbErrors := dbErrors w; history := history w |}.

Definition with_nextId (n : ObjectId) (w : World) : World :=
  {| Users := Users w; Deployments := Deployments w; nextId := n;
     ticks := ticks w; dbErrors := dbErrors w; history := history w |}.

Definition with_ticks (n : nat) (w : World) : World :=
  {| Users := Users w; Deployments := Deployments w; nextId := nextId w;
     ticks := n; dbErrors := dbErrors w; history := history w |}.

Definition with_dbErrors (n : nat) (w : World) : World :=
  {| Users := Users w; Deployments := Deployments w; nextId := nextId w;
     ticks := ticks w; dbErrors := n; history := history w |}.

Definition with_history (h : list (ObjectId * Status)) (w : World) : World :=
  {| Users := Users w; Deployments := Deployments w; nextId := nextId w;
     ticks := ticks w; dbErrors := dbErrors w; history := h |}.

(** ** The monad: state and exceptions *)

Inductive Outcome (A : Type) :=
| Ok (a : A)
| Throw (e : Exn).
Arguments Ok {A} a.
Arguments Throw {A} e.

Definition M (S A : Type) : Type := S -> Outcome A * S.

Definition ret {S A} (a : A) : M S A := fun s => (Ok a, s).

Definition throw {S A} (e : Exn) : M S A := fun s => (Throw e, s).

Definition bind {S A B} (m : M S A) (k : A -> M S B) : M S B :=
  fun s =>
    match m s with
    | (Ok a, s') => k a s'
    | (Throw e, s') => (Throw e, s')
    end.

Definition tryCatch {S A} (m : M S A) (handler : Exn -> M S A) : M S A :=
  fun s =>
    match m s with
    | (Ok a, s') => (Ok a, s')
    | (Throw e, s') => handler e s'
    end.

(** A [try/catch] whose handler cannot throw: the result is total. *)
Definition atBoundary {S A} (m : M S A) (handler : Exn -> A) : S -> A * S :=
  fun s =>
    match m s with
    | (Ok a, s') => (a, s')
    | (Throw e, s') => (handler e, s')
    end.

Declare Scope monad_scope.
Delimit Scope monad_scope with monad.
Notation "x <- m ;; k" := (bind m (fun x => k))
  (at level 61, m at next level, right associativity) : monad_scope.
Notation "m ;; k" := (bind m (fun _ => k))
  (at level 61, right associativity) : monad_scope.
Local Open Scope monad_scope.

(** ** Background work *)

(** What a handler leaves behind when it answers: the un-awaited call of
    [processDeployment], the [setTimeout(checkStatus, 5000)] of the monitor
    (with the value of its [attempts] counter), and the 15 second timer of
    the simplified variant (with the [domain] its closure captured).  Each
    carries the in-memory document it works on. *)
Inductive Task :=
| ProcessDeployment (deployment : Deployment) (files : list File)
| CheckStatus (deployment : Deployment) (attempts : nat)
| GoLive (deployment : Deployment) (dom : option string).

Definition task_id (t : Task) : ObjectId :=
  match t with
  | ProcessDeployment d _ => _id d
  | CheckStatus d _ => _id d
  | GoLive d _ => _id d
  end.

(** ** Queries on the collections *)

(** [.sort({ createdAt: -1 })] *)
Fixpoint insert_desc (d : Deployment) (l : list Deployment) : list Deployment :=
  match l with
  | [] => [d]
  | x :: rest =>
      if (createdAt x <? createdAt d)%Z then d :: x :: rest
      else x :: insert_desc d rest
  end.

Definition sort_createdAt_desc (l : list Deployment) : list Deployment :=
  fold_right insert_desc [] l.

(** [.limit(n)] *)
Definition limit (n : nat) (l : list Deployment) : list Deployment := firstn n l.

(** The paths a [save()] of a stored document writes: the ones the code
    assigns ([status], [renderServiceId], [deploymentUrl]). *)
Definition write_paths (d stored : Deployment) : Deployment :=
  set_status (status d)
    (set_renderServiceId (renderServiceId d)
       (set_deploymentUrl (deploymentUrl d) stored)).

(** [updateOne({ _id }, ...)]: the first document with that id. *)
Fixpoint updateOne (d : Deployment) (l : list Deployment) : list Deployment :=
  match l with
  | [] => []
  | x :: rest =>
      if (_id x =? _id d)%nat then write_paths d x :: rest
      else x :: updateOne d rest
  end.

(** [deleteOne({ _id })] *)
Fixpoint deleteOne (i : ObjectId) (l : list Deployment) : list Deployment :=
  match l with
  | [] => []
  | x :: rest => if (_id x =? i)%nat then rest else x :: deleteOne i rest
  end.

(** The [required: true] validators of [deploymentSchema]; a required string
    must be present and not empty. *)
Definition validate (d : Deployment) : bool :=
  Js.truthy (projectName d) && Js.truthy (domain d).

Definition statusIs (s : Service) (name : string) : bool :=
  Js.same (service_status s) (Some name).

Definition maxAttempts : nat := 30.

Record DeployBody := {
  body_projectName : option string;
  body_domain : option string;
  body_repositoryUrl : option string;
  body_buildCommand : option string;
  body_outputDir : option string
}.

Section Server.

Variable env : Env.

(** *** Calls that leave the process *)

Definition tick : M World nat :=
  fun w => (Ok (ticks w), with_ticks (S (ticks w)) w).

Definition Date_now : M World Z :=
  t <- tick ;; ret (dateNow env t).

Definition freshId : M World ObjectId :=
  fun w => (Ok (nextId w), with_nextId (S (nextId w)) w).

Definition dbThrow {A} (e : Exn) : M World A :=
  fun w => (Throw e, with_dbErrors (S (dbErrors w)) w).

(** One round trip to MongoDB. *)
Definition dbCall {A} (op : M World A) : M World A :=
  t <- tick ;;
  if dbFault env t then dbThrow DbError else op.

Definition fsCall : M World unit :=
  t <- tick ;;
  if fsFault env t then throw FsError else ret tt.

Definition bcrypt_hash (pw : string) : M World string :=
  t <- tick ;; ret (bcryptHash env t pw).

Definition bcrypt_compare (pw : option string) (hash : string) : M World bool :=
  match pw with
  | Some s => ret (bcryptCompare env s hash)
  | None => throw BcryptError
  end.

Definition jwt_sign (u : ObjectId) : M World string :=
  t <- tick ;; ret (jwtSign env t u).

(** *** The User model *)

Definition User_findOne (e : option string) : M World (option User) :=
  dbCall (fun w =>
    (Ok match e with
        | Some a => find (fun u => String.eqb (email u) a) (Users w)
        | None => None
        end, w)).

Definition new_User (e pw : string) : M World User :=
  i <- freshId ;;
  now <- Date_now ;;
  ret {| user_id := i; email := e; password := pw; plan := "free";
         deployments := []; user_createdAt := now |}.

Definition User_save (u : User) : M World unit :=
  if String.eqb (email u) "" || String.eqb (password u) ""
  then throw ValidationError
  else dbCall (fun w =>
    if existsb (fun x => String.eqb (email x) (email u)) (Users w)
    then dbThrow DuplicateKey w
    else (Ok tt, with_Users (Users w ++ [u]) w)).

(** *** The Deployment model *)

Definition new_Deployment (u : ObjectId)
    (pn dom repo build out : option string) (st : Status) : M World Deployment :=
  i <- freshId ;;
  created <- Date_now ;;
  updated <- Date_now ;;
  ret {| _id := i; userId := u; projectName := pn; domain := dom;
         repositoryUrl := repo; branch := "main"; buildCommand := build;
         outputDir := match out with Some o => o | None => "dist" end;
         status := st; renderServiceId := None; deploymentUrl := None;
         sslEnabled := true; customDomain := None;
         createdAt := created; updatedAt := updated;
         metrics := {| visitors := 0; bandwidth := 0; uptime := 100 |} |}.

(** [Deployment.findOne({ domain })]: the first document whose domain is the
    one asked for (a query for [undefined] matches a document without one). *)
Definition Deployment_findOne_domain (dom : option string)
  : M World (option Deployment) :=
  dbCall (fun w =>
    (Ok (find (fun e => Js.same (domain e) dom) (Deployments w)), w)).

(** [Deployment.findOne({ _id: req.params.id, userId })] *)
Definition Deployment_findOne_owned (i : Param) (u : ObjectId)
  : M World (option Deployment) :=
  match i with
  | NotAnObjectId => throw CastError
  | ObjectIdParam id =>
      dbCall (fun w =>
        (Ok (find (fun e => (_id e =? id)%nat && (userId e =? u)%nat)
               (Deployments w)), w))
  end.

(** [Deployment.find({ userId }).sort({ createdAt: -1 }).limit(10)] *)
Definition Deployment_find_recent (u : ObjectId) : M World (list Deployment) :=
  dbCall (fun w =>
    (Ok (limit 10
           (sort_createdAt_desc
              (filter (fun e => (userId e =? u)%nat) (Deployments w)))), w)).

(** [Deployment.findByIdAndDelete(req.params.id)] *)
Definition Deployment_findByIdAndDelete (i : Param) : M World unit :=
  match i with
  | NotAnObjectId => throw CastError
  | ObjectIdParam id =>
      dbCall (fun w => (Ok tt, with_Deployments (deleteOne id (Deployments w)) w))
  end.

(** [deployment.save()] on a document that was just constructed: validate,
    then insert; the unique index on [domain] rejects a second document
    with the same domain. *)
Definition save_new (d : Deployment) : M World unit :=
  if negb (validate d) then throw ValidationError
  else dbCall (fun w =>
    if existsb (fun e => Js.same (domain e) (domain d)) (Deployments w)
    then dbThrow DuplicateKey w
    else (Ok tt,
          with_history ((_id d, status d) :: history w)
            (with_Deployments (Deployments w ++ [d]) w))).

(** [deployment.save()] on a document that is already stored: validate, then
    update the stored document with the same [_id]; when it has been deleted
    in the meantime the save throws and writes nothing. *)
Definition save_stored (d : Deployment) : M World unit :=
  if negb (validate d) then throw ValidationError
  else dbCall (fun w =>
    if existsb (fun e => (_id e =? _id d)%nat) (Deployments w)
    then (Ok tt,
          with_history ((_id d, status d) :: history w)
            (with_Deployments (updateOne d (Deployments w)) w))
    else (Throw DocumentNotFound, w)).

(** *** Code that works on one in-memory document *)

Definition Proc (A : Type) : Type := M (World * Deployment) A.

Definition onWorld {A} (m : M World A) : Proc A :=
  fun s => let (r, w') := m (fst s) in (r, (w', snd s)).

Definition this : Proc Deployment := fun s => (Ok (snd s), s).

Definition assign (f : Deployment -> Deployment) : Proc unit :=
  fun s => (Ok tt, (fst s, f (snd s))).

Definition save : Proc unit :=
  d <- this ;; onWorld (save_stored d).

(** *** RenderAPIClient *)

Definition createStaticSite (pn repoUrl : option string) : M World Service :=
  t <- tick ;;
  match createService env t pn repoUrl with
  | Some data => ret data
  | None => throw AxiosError
  end.

Definition getServiceStatus (serviceId : option string) : M World Service :=
  t <- tick ;;
  match serviceStatus env t serviceId with
  | Some data => ret data
  | None => throw AxiosError
  end.

Definition addCustomDomain (serviceId dom : option string) : M World unit :=
  t <- tick ;;
  if customDomainFault env t then throw AxiosError else ret tt.

(** *** Packaging *)

(** [path.join(__dirname, 'uploads', id)] with the [_id] of a document for
    [id], as [processFileUpload] and the DELETE handler call it.  The [_id]
    is an ObjectId, not a string, and [path.join] takes strings only: the
    call throws a TypeError, every time. *)
Definition path_join : M World unit := throw TypeError.

(** [extractZip] starts with [fs.createReadStream(zipPath)], but [fs] is
    [require('fs').promises], which has no [createReadStream]: the promise
    it returns rejects with a TypeError, every time. *)
Definition extractZip : M World unit := throw TypeError.

(** [fs.rmdir(uploadDir, { recursive: true })] *)
Definition rmdir : M World unit := fsCall.

(** Its body is one [try/catch] that only logs. *)
Definition optimizeImages : M World unit :=
  tryCatch fsCall (fun _ => ret tt).

Definition processFileUpload (files : list File) : M World unit :=
  path_join ;;
  match find (fun f => Js.endsWith (originalname f) ".zip") files with
  | Some zipFile => extractZip
  | None => ret tt
  end ;;
  optimizeImages.

(** *** The deployment process *)

(** Only a [console.log]. *)
Definition sendDeploymentNotification : Proc unit := ret tt.

(** [monitorDeployment] itself only arms the first timer. *)
Definition monitorDeployment : Proc (list Task) :=
  d <- this ;; ret [CheckStatus d 0].

Definition checkStatus (attempts : nat) : Proc (list Task) :=
  tryCatch
    (d <- this ;;
     service <- onWorld (getServiceStatus (renderServiceId d)) ;;
     if statusIs service "live" || statusIs service "ready" then
       assign (set_status live) ;;
       assign (set_deploymentUrl (service_url service)) ;;
       save ;;
       sendDeploymentNotification ;;
       ret []
     else if statusIs service "failed" || statusIs service "error" then
       assign (set_status error) ;;
       save ;;
       sendDeploymentNotification ;;
       ret []
     else if (attempts <? maxAttempts)%nat then
       d' <- this ;; ret [CheckStatus d' (S attempts)]
     else
       assign (set_status error) ;;
       save ;;
       ret [])
    (fun _ =>
       if (attempts <? maxAttempts)%nat then
         d' <- this ;; ret [CheckStatus d' (S attempts)]
       else ret []).

Definition processDeployment (files : list File) : Proc (list Task) :=
  tryCatch
    (assign (set_status deploying) ;;
     save ;;
     (if (0 <? List.length files)%nat then onWorld (processFileUpload files) else ret tt) ;;
     d <- this ;;
     renderService <- onWorld (createStaticSite (projectName d) (repositoryUrl d)) ;;
     assign (set_renderServiceId (service_id renderService)) ;;
     assign (set_deploymentUrl (service_url renderService)) ;;
     save ;;
     d' <- this ;;
     (if Js.truthy (domain d') &&
         negb (Js.includes (Js.interpolate (domain d')) "ntl.cloud")
      then onWorld (addCustomDomain (service_id renderService) (domain d'))
      else ret tt) ;;
     monitorDeployment)
    (fun _ =>
       assign (set_status error) ;;
       save ;;
       ret []).

(** The timer of the simplified variant. *)
Definition goLive (dom : option string) : Proc (list Task) :=
  assign (set_status live) ;;
  assign (set_deploymentUrl (Some ("https://" ++ Js.interpolate dom))) ;;
  save ;;
  ret [].

(** Running a task to its end.  A rejection that nothing catches ends the
    task; what it wrote before stays written. *)
Definition settle (r : Outcome (list Task) * (World * Deployment))
  : list Task * World :=
  match r with
  | (Ok ts, (w', _)) => (ts, w')
  | (Throw _, (w', _)) => ([], w')
  end.

Definition runTask (t : Task) (w : World) : list Task * World :=
  match t with
  | ProcessDeployment d files => settle (processDeployment files (w, d))
  | CheckStatus d attempts => settle (checkStatus attempts (w, d))
  | GoLive d dom => settle (goLive dom (w, d))
  end.

(** *** Middleware *)

(** [authenticateToken]: the answer it sends itself, or the [userId] of the
    verified payload that it stores in [req.user]. *)
Definition authenticateToken (authHeader : option string) : Response + ObjectId :=
  let token :=
    if Js.truthy authHeader
    then nth_error (Js.split " "%char (Js.interpolate authHeader)) 1
    else None in
  if negb (Js.truthy token)
  then inl (res_status_json 401 (errorBody "Access token required"))
  else match jwtVerify env (Js.interpolate token) with
       | None => inl (res_status_json 403 (errorBody "Invalid token"))
       | Some u => inr u
       end.

(** *** Route handlers

    A handler returns its response and the background work it started. *)

Definition Handler : Type := World -> (Response * list Task) * World.

Definition respond (r : Response) : M World (Response * list Task) :=
  ret (r, []).

Definition publicUser (user : User) : Json :=
  JObject [("id", JObjectId (user_id user));
           ("email", JString (email user));
           ("plan", JString (plan user))].

(** POST /api/auth/register *)
Definition register (e pw : option string) : Handler :=
  atBoundary
    (match e, pw with
     | Some em, Some pass =>
         if String.eqb em "" || String.eqb pass "" then
           respond (res_status_json 400 (errorBody "Email and password required"))
         else
           existingUser <- User_findOne (Some em) ;;
           match existingUser with
           | Some _ =>
               respond (res_status_json 400 (errorBody "User already exists"))
           | None =>
               hashedPassword <- bcrypt_hash pass ;;
               user <- new_User em hashedPassword ;;
               User_save user ;;
               token <- jwt_sign (user_id user) ;;
               respond (res_status_json 201
                 (JObject [("message", JString "User created successfully");
                           ("token", JString token);
                           ("user", publicUser user)]))
           end
     | _, _ =>
         respond (res_status_json 400 (errorBody "Email and password required"))
     end)
    (fun _ => (res_status_json 500 (errorBody "Internal server error"), [])).

(** POST /api/auth/login *)
Definition login (e pw : option string) : Handler :=
  atBoundary
    (found <- User_findOne e ;;
     match found with
     | None => respond (res_status_json 401 (errorBody "Invalid credentials"))
     | Some user =>
         isValidPassword <- bcrypt_compare pw (password user) ;;
         if negb isValidPassword then
           respond (res_status_json 401 (errorBody "Invalid credentials"))
         else
           token <- jwt_sign (user_id user) ;;
           respond (res_json
             (JObject [("message", JString "Login successful");
                       ("token", JString token);
                       ("user", publicUser user)]))
     end)
    (fun _ => (res_status_json 500 (errorBody "Internal server error"), [])).

(** [checkDomainAvailability]: its own [try/catch] answers [false] when the
    lookup throws. *)
Definition checkDomainAvailability (dom : option string) : M World bool :=
  tryCatch
    (existingDeployment <- Deployment_findOne_domain dom ;;
     ret match existingDeployment with Some _ => false | None => true end)
    (fun _ => ret false).

Definition deployStarted (deployment : Deployment) (dom : option string) : Json :=
  JObject (literal
    [("message", Some (JString "Deployment started"));
     ("deploymentId", Some (JObjectId (_id deployment)));
     ("domain", option_map JString dom);
     ("estimatedTime", Some (JString "15-30 seconds"))]).

(** POST /api/deploy of the full server.

    [processDeployment(deployment, req.files)] is called without [await],
    before [res.json]: it runs up to its first [await] (it assigns
    ['deploying'] to the in-memory document and issues the save) and goes on
    after the answer has been sent.  The answer reads only [_id] of the
    document.  Here the whole of [processDeployment] is the task the handler
    starts; when its first save reaches the collection, relative to the
    requests that follow, is left open: it can be the very next event. *)
Definition deploy (user : ObjectId) (b : DeployBody) (files : list File)
  : Handler :=
  atBoundary
    (isAvailable <- checkDomainAvailability (body_domain b) ;;
     if negb isAvailable then
       respond (res_status_json 400 (errorBody "Domain not available"))
     else
       deployment <- new_Deployment user (body_projectName b) (body_domain b)
                       (body_repositoryUrl b) (body_buildCommand b)
                       (body_outputDir b) building ;;
       save_new deployment ;;
       ret (res_json (deployStarted deployment (body_domain b)),
            [ProcessDeployment deployment files]))
    (fun _ => (res_status_json 500 (errorBody "Deployment failed"), [])).

(** POST /api/deploy of the simplified variant *)
Definition deploy_simplified (user : ObjectId) (b : DeployBody) : Handler :=
  atBoundary
    (deployment <- new_Deployment user (body_projectName b) (body_domain b)
                     (body_repositoryUrl b) (body_buildCommand b)
                     (body_outputDir b) building ;;
     save_new deployment ;;
     ret (res_json (deployStarted deployment (body_domain b)),
          [GoLive deployment (body_domain b)]))
    (fun _ => (res_status_json 500 (errorBody "Deployment failed"), [])).

(** GET /api/deployments *)
Definition listDeployments (user : ObjectId) : Handler :=
  atBoundary
    (found <- Deployment_find_recent user ;;
     respond (res_json (JArray (map JDocument found))))
    (fun _ => (res_status_json 500 (errorBody "Internal server error"), [])).

(** GET /api/deployments/:id *)
Definition getDeployment (user : ObjectId) (id : Param) : Handler :=
  atBoundary
    (found <- Deployment_findOne_owned id user ;;
     match found with
     | None => respond (res_status_json 404 (errorBody "Deployment not found"))
     | Some deployment => respond (res_json (JDocument deployment))
     end)
    (fun _ => (res_status_json 500 (errorBody "Internal server error"), [])).

(** DELETE /api/deployments/:id *)
Definition deleteDeployment (user : ObjectId) (id : Param) : Handler :=
  atBoundary
    (found <- Deployment_findOne_owned id user ;;
     match found with
     | None => respond (res_status_json 404 (errorBody "Deployment not found"))
     | Some deployment =>
         path_join ;;
         rmdir ;;
         Deployment_findByIdAndDelete id ;;
         respond (res_json
           (JObject [("message", JString "Deployment deleted successfully")]))
     end)
    (fun _ => (res_status_json 500 (errorBody "Internal server error"), [])).

End Server.

(** ** The two servers and their routes *)

Inductive Variant := Full | Simplified.

(** The body fields and the Authorization header are strings or absent; the
    [:id] of a path is any string; [files] are the file parts of a multipart
    body, none for any other body. *)
Inductive Request :=
| POST_register (e pw : option string)
| POST_login (e pw : option string)
| POST_deploy (authorization : option string) (b : DeployBody) (files : list File)
| GET_deployments (authorization : option string)
| GET_deployment (authorization : option string) (id : Param)
| DELETE_deployment (authorization : option string) (id : Param).

(** A route behind [authenticateToken]. *)
Definition guarded (env : Env) (authorization : option string)
    (h : ObjectId -> Handler) : Handler :=
  fun w =>
    match authenticateToken env authorization with
    | inl refusal => ((refusal, []), w)
    | inr user => h user w
    end.

(** A route behind [authenticateToken, upload.array('files', 50)].  The token
    is checked first.  Then, for a file part, multer calls the [destination]
    of the storage, which starts with
    [path.join(__dirname, 'uploads', req.deploymentId)]; [req.deploymentId]
    is set by the handler only, so here it is [undefined], [path.join] throws
    inside the async callback, [cb] is never called and the request is not
    passed on: no handler runs ([None]).  (A file part that [fileFilter]
    refuses ends the request with multer's error before that; no handler
    runs then either.)  A request without file parts is passed on, with no
    files. *)
Definition behind_upload (env : Env) (authorization : option string)
    (files : list File) (h : ObjectId -> Handler) : option Handler :=
  match authenticateToken env authorization, files with
  | inr _, _ :: _ => None
  | _, _ => Some (guarded env authorization h)
  end.

(** The handler a request reaches; [None] when the variant has no such
    route or when [upload.array] does not pass the request on. *)
Definition route (v : Variant) (env : Env) (r : Request) : option Handler :=
  match r, v with
  | POST_register e pw, _ => Some (register env e pw)
  | POST_login e pw, _ => Some (login env e pw)
  | POST_deploy a b files, Full =>
      behind_upload env a files (fun user => deploy env user b files)
  | POST_deploy a b files, Simplified =>
      behind_upload env a files (fun user => deploy_simplified env user b)
  | GET_deployments a, _ => Some (guarded env a (listDeployments env))
  | GET_deployment a id, Full =>
      Some (guarded env a (fun user => getDeployment env user id))
  | DELETE_deployment a id, Full =>
      Some (guarded env a (fun user => deleteDeployment env user id))
  | GET_deployment _ _, Simplified => None
  | DELETE_deployment _ _, Simplified => None
  end.

(** ** The running system *)

Record System := {
  world : World;
  pending : list Task
}.

Definition initial : System := {| world := emptyWorld; pending := [] |}.

(** One event of the event loop: a request is served, or one pending task
    runs. *)
Inductive step (v : Variant) (env : Env) : System -> System -> Prop :=
| step_request : forall s r h resp started w',
    route v env r = Some h ->
    h (world s) = ((resp, started), w') ->
    step v env s {| world := w'; pending := (pending s ++ started)%list |}
| step_task : forall s before t after started w',
    pending s = (before ++ t :: after)%list ->
    runTask env t (world s) = (started, w') ->
    step v env s {| world := w'; pending := (before ++ started ++ after)%list |}.

Inductive reachable (v : Variant) (env : Env) : System -> Prop :=
| reachable_initial : reachable v env initial
| reachable_step : forall s s',
    reachable v env s -> step v env s s' -> reachable v env s'.

(** ** Reading the result of a handler *)

Definition answer (x : (Response * list Task) * World) : Response := fst (fst x).
Definition started (x : (Response * list Task) * World) : list Task := snd (fst x).
Definition after (x : (Response * list Task) * World) : World := snd x.

(** The documents in a response whose body is an array. *)
Definition returned (r : Response) : list Deployment :=
  match body r with
  | JArray items =>
      flat_map (fun j => match j with JDocument d => [d] | _ => [] end) items
  | _ => []
  end.

Definition owned (user : ObjectId) (ds : list Deployment) : list Deployment :=
  filter (fun e => (userId e =? user)%nat) ds.

Definition newest_first (l : list Deployment) : Prop :=
  StronglySorted (fun a b => (createdAt b <= createdAt a)%Z) l.

(** The order in which a record's status is allowed to change. *)
Definition rank (s : Status) : nat :=
  match s with
  | building => 0
  | deploying => 1
  | live => 2
  | error => 2
  end.

Definition forward (earlier later : Status) : Prop :=
  earlier = later \/ rank earlier < rank later.

(** The status values written for one record, newest first. *)
Fixpoint statusHistory (i : ObjectId) (h : list (ObjectId * Status)) : list Status :=
  match h with
  | [] => []
  | (j, s) :: rest =>
      if (j =? i)%nat then s :: statusHistory i rest else statusHistory i rest
  end.

Definition findById (i : ObjectId) (ds : list Deployment) : option Deployment :=
  find (fun e => (_id e =? i)%nat) ds.

Definition internalServerError : Response :=
  res_status_json 500 (errorBody "Internal server error").

Definition deploymentFailed : Response :=
  res_status_json 500 (errorBody "Deployment failed").

Definition domainNotAvailable : Response :=
  res_status_json 400 (errorBody "Domain not available").

(** The answer of each route when a database operation of its handler threw. *)
Definition answer_on_database_error (v : Variant) (env : Env) (r : Request)
    (w : World) : Response :=
  match r, v with
  | POST_deploy _ _ _, Full =>
      if dbFault env (ticks w) then domainNotAvailable else deploymentFailed
  | POST_deploy _ _ _, Simplified => deploymentFailed
  | _, _ => internalServerError
  end.

(** The same environment with another bcrypt. *)
Definition with_bcryptHash (hash : nat -> string -> string) (env : Env) : Env :=
  {| dbFault := dbFault env; fsFault := fsFault env; dateNow := dateNow env;
     createService := createService env; serviceStatus := serviceStatus env;
     customDomainFault := customDomainFault env; jwtVerify := jwtVerify env;
     jwtSign := jwtSign env; bcryptHash := hash;
     bcryptCompare := bcryptCompare env |}.

Definition set_password (pw : string) (u : User) : User :=
  {| user_id := user_id u; email := email u; password := pw; plan := plan u;
     deployments := deployments u; user_createdAt := user_createdAt u |}.

(** The same world with other hashes stored for its users. *)
Definition rehash (f : User -> string) (w : World) : World :=
  with_Users (map (fun u => set_password (f u) u) (Users w)) w.

(** The shape of a successful answer of both routes. *)
Definition authBody (message token : string) (id : ObjectId) (em pl : string) : Json :=
  JObject [("message", JString message);
           ("token", JString token);
           ("user", JObject [("id", JObjectId id);
                             ("email", JString em);
                             ("plan", JString pl)])].

(** One schedule of the pending tasks: the first one runs, what it re-arms
    takes its place, until none is left or the fuel is spent. *)
Fixpoint drain (env : Env) (fuel : nat) (s : System) : System :=
  match fuel with
  | 0 => s
  | S n =>
      match pending s with
      | [] => s
      | t :: rest =>
          let r := runTask env t (world s) in
          drain env n {| world := snd r; pending := (fst r ++ rest)%list |}
      end
  end.

(** ** Sample values *)

Module Sample.

Definition service (st : option string) : Service :=
  {| service_id := Some "srv-demo";
     service_url := Some "https://demo-x1.onrender.com";
     service_status := st |}.

Definition verify (token : string) : option ObjectId :=
  if String.eqb token "token-of-7" then Some 7
  else if String.eqb token "token-of-8" then Some 8
  else None.

(** Nothing fails; the provider reports the site as live at once. *)
Definition env : Env :=
  {| dbFault := fun _ => false;
     fsFault := fun _ => false;
     dateNow := fun t => Z.of_nat t;
     createService := fun _ _ _ => Some (service None);
     serviceStatus := fun _ _ => Some (service (Some "live"));
     customDomainFault := fun _ => false;
     jwtVerify := verify;
     jwtSign := fun _ _ => "signed-token";
     bcryptHash := fun t pw => (if Nat.even t then "saltA:" else "saltB:") ++ pw;
     bcryptCompare := fun pw hash =>
       String.eqb hash ("saltA:" ++ pw) || String.eqb hash ("saltB:" ++ pw) |}.

(** Every database call throws. *)
Definition databaseDown : Env :=
  {| dbFault := fun _ => true;
     fsFault := fsFault env; dateNow := dateNow env;
     createService := createService env; serviceStatus := serviceStatus env;
     customDomainFault := customDomainFault env; jwtVerify := jwtVerify env;
     jwtSign := jwtSign env; bcryptHash := bcryptHash env;
     bcryptCompare := bcryptCompare env |}.

(** The provider creates the site; every later status request throws. *)
Definition pollsThrow : Env :=
  {| dbFault := dbFault env;
     fsFault := fsFault env; dateNow := dateNow env;
     createService := createService env;
     serviceStatus := fun _ _ => None;
     customDomainFault := customDomainFault env; jwtVerify := jwtVerify env;
     jwtSign := jwtSign env; bcryptHash := bcryptHash env;
     bcryptCompare := bcryptCompare env |}.

(** Only the insert of the first creation fails (the fourth external call:
    lookup, two clock reads, insert). *)
Definition insertFails : Env :=
  {| dbFault := fun t => Nat.eqb t 3;
     fsFault := fsFault env; dateNow := dateNow env;
     createService := createService env; serviceStatus := serviceStatus env;
     customDomainFault := customDomainFault env; jwtVerify := jwtVerify env;
     jwtSign := jwtSign env; bcryptHash := bcryptHash env;
     bcryptCompare := bcryptCompare env |}.

(** Every call to the hosting provider throws. *)
Definition providerDown : Env :=
  {| dbFault := dbFault env;
     fsFault := fsFault env; dateNow := dateNow env;
     createService := fun _ _ _ => None;
     serviceStatus := fun _ _ => None;
     customDomainFault := fun _ => true; jwtVerify := jwtVerify env;
     jwtSign := jwtSign env; bcryptHash := bcryptHash env;
     bcryptCompare := bcryptCompare env |}.

Definition bearer7 : option string := Some "Bearer token-of-7".
Definition bearer8 : option string := Some "Bearer token-of-8".

Definition demo : DeployBody :=
  {| body_projectName := Some "demo";
     body_domain := Some "demo.ntl.cloud";
     body_repositoryUrl := None;
     body_buildCommand := None;
     body_outputDir := None |}.

Definition shop : DeployBody :=
  {| body_projectName := Some "shop";
     body_domain := Some "shop.example.org";
     body_repositoryUrl := None;
     body_buildCommand := None;
     body_outputDir := None |}.

(** The answer to a request, when the variant routes it. *)
Definition serve (v : Variant) (e : Env) (r : Request) (w : World)
  : (Response * list Task) * World :=
  match route v e r with
  | Some h => h w
  | None => ((res_status_json 404 (JString "no such route"), []), w)
  end.

(** User 7 has created the demo deployment. *)
Definition created (v : Variant) : (Response * list Task) * World :=
  serve v env (POST_deploy bearer7 demo []) emptyWorld.

(** The system right after that request, and after all its background work. *)
Definition justCreated (v : Variant) (e : Env) : System :=
  {| world := after (serve v e (POST_deploy bearer7 demo []) emptyWorld);
     pending := started (serve v e (POST_deploy bearer7 demo []) emptyWorld) |}.

Definition settled (v : Variant) (e : Env) : System :=
  drain e 40 (justCreated v e).

(** Users 7 and 8 each have created one deployment. *)
Definition twoOwners : World :=
  after (serve Full env (POST_deploy bearer8 shop []) (after (created Full))).

(** User 7 has created twelve deployments, under twelve domains. *)
Definition site (n : nat) : DeployBody :=
  {| body_projectName := Some "site";
     body_domain := Some (String.concat "" (repeat "x" n) ++ ".ntl.cloud");
     body_repositoryUrl := None;
     body_buildCommand := None;
     body_outputDir := None |}.

Definition busy : World :=
  fold_left
    (fun w n => after (serve Full env (POST_deploy bearer7 (site n) []) w))
    (seq 1 12) emptyWorld.

(** One registered user. *)
Definition mail : option string := Some "ada@example.org".
Definition secret : option string := Some "correct horse".
Definition registered : World := after (register env mail secret emptyWorld).

End Sample.

(** ** The vocabulary of the lifecycle proofs *)

(** The status a task expects its record to have when it starts. *)
Definition expected (t : Task) : Status :=
  match t with
  | ProcessDeployment _ _ => building
  | CheckStatus _ _ => deploying
  | GoLive _ _ => building
  end.

Definition forwardb (earlier later : Status) : bool :=
  Status_eqb earlier later || (rank earlier <? rank later)%nat.

(** A list of status values, newest first, in which every value is forward
    of all older ones. *)
Fixpoint monotone (l : list Status) : bool :=
  match l with
  | [] => true
  | later :: older => forallb (fun s => forwardb s later) older && monotone older
  end.

Definition chain (l : list Status) : Prop :=
  StronglySorted (fun later earlier => forward earlier later) l.

(** What a task does to the collection and its history: a sequence of saves
    of the document with id [i]; [l] lists the status values they wrote,
    newest first. *)
Inductive wrote (i : ObjectId)
  : list Status -> list Deployment -> list (ObjectId * Status) ->
    list Deployment -> list (ObjectId * Status) -> Prop :=
| wrote_nothing : forall ds h, wrote i [] ds h ds h
| wrote_save : forall l ds h ds1 h1 d s,
    wrote i l ds h ds1 h1 ->
    _id d = i ->
    status d = s ->
    wrote i (s :: l) ds h (updateOne d ds1) ((i, s) :: h1).

(** The invariant of the running system. *)
Record Inv (s : System) : Prop := {
  inv_chain : forall i, chain (statusHistory i (history (world s)));
  inv_latest : forall e, In e (Deployments (world s)) ->
    hd_error (statusHistory (_id e) (history (world s))) = Some (status e);
  inv_history_ids : forall i st, In (i, st) (history (world s)) -> i < nextId (world s);
  inv_stored_ids : forall e, In e (Deployments (world s)) -> _id e < nextId (world s);
  inv_unique : NoDup (map _id (Deployments (world s)));
  inv_tasks : forall t, In t (pending s) ->
    hd_error (statusHistory (task_id t) (history (world s))) = Some (expected t);
  inv_one_task : NoDup (map task_id (pending s))
}.


(** What serving one request does to the collection, its history and the
    pending tasks. *)
Inductive request_effect (w w' : World) (ts : list Task) : Prop :=
| effect_quiet :
    Deployments w' = Deployments w ->
    history w' = history w ->
    nextId w <= nextId w' ->
    ts = [] ->
    request_effect w w' ts
| effect_insert : forall doc t,
    _id doc = nextId w ->
    status doc = building ->
    Deployments w' = (Deployments w ++ [doc])%list ->
    history w' = (_id doc, building) :: history w ->
    nextId w' = S (nextId w) ->
    ts = [t] ->
    task_id t = _id doc ->
    expected t = building ->
    request_effect w w' ts.


(** ** The upload filter *)

(** What [fileFilter] reads of the file object it is given: the [type]
    property and [originalname]. *)
Record Incoming := {
  incoming_type : option string;
  incoming_originalname : string
}.

Definition allowedTypes (v : Variant) : list string :=
  match v with
  | Full =>
      ["text/html"; "application/javascript"; "text/css"; "application/zip";
       "application/x-zip-compressed"; "image/jpeg"; "image/png";
       "image/svg+xml"; "image/webp"]
  | Simplified =>
      ["text/html"; "application/javascript"; "text/css"; "application/zip";
       "application/x-zip-compressed"; "image/jpeg"; "image/png";
       "image/svg+xml"]
  end.

(** [array.includes(x)] for an array of strings. *)
Definition Array_includes (l : list string) (x : option string) : bool :=
  existsb (fun y => Js.same (Some y) x) l.

(** [fileFilter]: [true] is [cb(null, true)], [false] is
    [cb(new Error('Invalid file type'), false)]. *)
Definition fileFilter (v : Variant) (file : Incoming) : bool :=
  Array_includes (allowedTypes v) (incoming_type file) ||
  Js.endsWith (incoming_originalname file) ".zip" ||
  Js.endsWith (incoming_originalname file) ".html" ||
  Js.endsWith (incoming_originalname file) ".js" ||
  Js.endsWith (incoming_originalname file) ".css".

(** The Authorization header of a request to a route that is behind
    [authenticateToken]. *)
Definition presented (r : Request) : option (option string) :=
  match r with
  | POST_deploy a _ _ => Some a
  | GET_deployments a => Some a
  | GET_deployment a _ => Some a
  | DELETE_deployment a _ => Some a
  | POST_register _ _ => None
  | POST_login _ _ => None
  end.

(** The routes that only look things up. *)
Definition readsOnly (r : Request) : bool :=
  match r with
  | POST_login _ _ => true
  | GET_deployments _ => true
  | GET_deployment _ _ => true
  | _ => false
  end.

(** Two worlds that hold the same documents (they may differ in the count of
    external calls and of database errors). *)
Definition same_store (w w' : World) : Prop :=
  Users w' = Users w /\
  Deployments w' = Deployments w /\
  history w' = history w /\
  nextId w' = nextId w.

(** The document [new Deployment({...})] builds for a creation request of
    [user], when the next id is [i] and its two clock reads are the calls
    [t] and [t + 1]. *)
Definition constructed (env : Env) (user : ObjectId) (b : DeployBody)
    (i : ObjectId) (t : nat) : Deployment :=
  {| _id := i; userId := user;
     projectName := body_projectName b; domain := body_domain b;
     repositoryUrl := body_repositoryUrl b; branch := "main";
     buildCommand := body_buildCommand b;
     outputDir := match body_outputDir b with Some o => o | None => "dist" end;
     status := building; renderServiceId := None; deploymentUrl := None;
     sslEnabled := true; customDomain := None;
     createdAt := dateNow env t; updatedAt := dateNow env (S t);
     metrics := {| visitors := 0; bandwidth := 0; uptime := 100 |} |}.

(** ** More vocabulary for the properties of the store *)

(** The same environment with another outcome of the custom-domain calls. *)
Definition with_customDomainFault (f : nat -> bool) (env : Env) : Env :=
  {| dbFault := dbFault env; fsFault := fsFault env; dateNow := dateNow env;
     createService := createService env; serviceStatus := serviceStatus env;
     customDomainFault := f; jwtVerify := jwtVerify env;
     jwtSign := jwtSign env; bcryptHash := bcryptHash env;
     bcryptCompare := bcryptCompare env |}.

(** What serving one request does to the two collections. *)
Inductive store_effect (w w' : World) : Prop :=
| store_same :
    Users w' = Users w ->
    Deployments w' = Deployments w ->
    store_effect w w'
| store_user_added : forall u,
    Users w' = (Users w ++ [u])%list ->
    email u <> ""%string ->
    password u <> ""%string ->
    plan u = "free"%string ->
    deployments u = [] ->
    (forall x, In x (Users w) -> email x <> email u) ->
    Deployments w' = Deployments w ->
    store_effect w w'
| store_record_added : forall doc,
    Deployments w' = (Deployments w ++ [doc])%list ->
    validate doc = true ->
    (forall e, In e (Deployments w) -> domain e <> domain doc) ->
    Users w' = Users w ->
    store_effect w w'.

(** What the schemas promise of the stored documents, and what the monitor
    promises of its timers. *)
Record Consistent (s : System) : Prop := {
  domains_unique : NoDup (map domain (Deployments (world s)));
  records_valid : forall e, In e (Deployments (world s)) -> validate e = true;
  emails_unique : NoDup (map email (Users (world s)));
  users_valid : forall u, In u (Users (world s)) ->
    email u <> ""%string /\ password u <> ""%string /\
    plan u = "free"%string /\ deployments u = [];
  attempts_bounded : forall d k, In (CheckStatus d k) (pending s) ->
    k <= maxAttempts
}.

(** The paths of a stored deployment that no [save()] of the code writes:
    all but [status], [renderServiceId] and [deploymentUrl]. *)
Definition fixedPaths (d : Deployment) :=
  (_id d, userId d, projectName d, domain d, repositoryUrl d, branch d,
   buildCommand d, outputDir d, sslEnabled d, customDomain d,
   createdAt d, updatedAt d, metrics d).

(** Is the task a poll of the monitor? *)
Definition isCheckStatus (t : Task) : bool :=
  match t with CheckStatus _ _ => true | _ => false end.

(** What a stored record of the simplified variant looks like: no provider
    id, and either still building without a URL or live under its domain. *)
Definition simplifiedRecord (e : Deployment) : Prop :=
  renderServiceId e = None /\
  ((status e = building /\ deploymentUrl e = None) \/
   (status e = live /\
    deploymentUrl e = Some ("https://" ++ Js.interpolate (domain e))%string)).

(** The invariant of the simplified variant. *)
Record SimplifiedInv (s : System) : Prop := {
  simplified_records : forall e, In e (Deployments (world s)) -> simplifiedRecord e;
  simplified_tasks : forall t, In t (pending s) ->
    exists d, t = GoLive d (domain d) /\ renderServiceId d = None /\
      forall e, In e (Deployments (world s)) -> _id e = _id d ->
        domain e = domain d
}.

(** What serving one request of the simplified variant does. *)
Inductive simplified_effect (env : Env) (w w' : World) (ts : list Task) : Prop :=
| simplified_quiet :
    Deployments w' = Deployments w ->
    ts = [] ->
    simplified_effect env w w' ts
| simplified_insert : forall user b t,
    Deployments w' =
      (Deployments w ++ [constructed env user b (nextId w) t])%list ->
    ts = [GoLive (constructed env user b (nextId w) t) (body_domain b)] ->
    simplified_effect env w w' ts.

(** ** More sample values *)

Module Cases.

(** A deployment under a domain of the customer's own. *)
Definition own : DeployBody :=
  {| body_projectName := Some "shop"%string;
     body_domain := Some "shop.example.org"%string;
     body_repositoryUrl := Some "https://github.com/acme/shop"%string;
     body_buildCommand := Some "npm run build"%string;
     body_outputDir := Some "public"%string |}.

(** A creation request that names no project. *)
Definition nameless : DeployBody :=
  {| body_projectName := None;
     body_domain := Some "nameless.ntl.cloud"%string;
     body_repositoryUrl := None;
     body_buildCommand := None;
     body_outputDir := None |}.

(** The provider reports that the build failed. *)
Definition buildFails : Env :=
  {| dbFault := dbFault Sample.env;
     fsFault := fsFault Sample.env; dateNow := dateNow Sample.env;
     createService := createService Sample.env;
     serviceStatus := fun _ _ => Some (Sample.service (Some "failed"%string));
     customDomainFault := customDomainFault Sample.env;
     jwtVerify := jwtVerify Sample.env;
     jwtSign := jwtSign Sample.env; bcryptHash := bcryptHash Sample.env;
     bcryptCompare := bcryptCompare Sample.env |}.

(** The demo deployment after [processDeployment]: the provider has the
    site, the monitor is about to poll. *)
Definition inDeploying : System :=
  drain Sample.env 1 (Sample.justCreated Full Sample.env).

(** The document the monitor holds then. *)
Definition polled : Deployment :=
  set_deploymentUrl (service_url (Sample.service None))
    (set_renderServiceId (service_id (Sample.service None))
       (set_status deploying (constructed Sample.env 7 Sample.demo 0 1))).


End Cases.


(** * Proof automation for handler bodies *)

(** Symbolic execution of a handler or task body up to the next oracle. *)
Ltac run :=
  cbv beta iota zeta delta
    [atBoundary tryCatch bind ret throw respond
     dbCall dbThrow fsCall path_join rmdir extractZip optimizeImages
     tick Date_now freshId bcrypt_hash bcrypt_compare jwt_sign
     User_findOne new_User User_save new_Deployment
     Deployment_findOne_domain Deployment_findOne_owned Deployment_find_recent
     Deployment_findByIdAndDelete save_new save_stored
     onWorld this assign save createStaticSite getServiceStatus addCustomDomain
     processFileUpload sendDeploymentNotification monitorDeployment
     checkDomainAvailability settle answer started after validate];
  cbn [fst snd negb andb orb Users Deployments nextId ticks dbErrors history
       with_Users with_Deployments with_nextId with_ticks with_dbErrors
       with_history statusCode body res_status_json res_json
       _id userId projectName domain repositoryUrl branch buildCommand
       outputDir status renderServiceId deploymentUrl sslEnabled customDomain
       createdAt updatedAt metrics
       set_status set_renderServiceId set_deploymentUrl].

(** Case analysis on the next oracle or lookup the goal branches on. *)
Ltac branch :=
  match goal with
  | |- context [if ?b then _ else _] =>
      lazymatch b with
      | context [if _ then _ else _] => fail
      | _ => destruct b eqn:?
      end
  | |- context [match ?x with Some _ => _ | None => _ end] =>
      lazymatch x with
      | context [match _ with _ => _ end] => fail
      | _ => destruct x eqn:?
      end
  end.

(** A leaf of a handler run in which a database error must have been
    answered as expected. *)
Ltac leaf :=
  intros Herr; try reflexivity; exfalso; apply Herr; reflexivity.

(** A leaf of a handler run that wrote nothing. *)
Ltac quiet := solve [intros; apply effect_quiet; cbn; auto with arith].

(** A leaf of a task run: the saves it made, read off the final state. *)
Ltac summary :=
  eexists;
  split; [repeat econstructor|];
  split; [reflexivity|];
  split; [reflexivity|];
  split; [reflexivity|];
  first [ left; reflexivity
        | right; eexists _, _; repeat split; reflexivity ].

(** * Facts about the queries *)

Section Queries.

Lemma returned_documents (c : nat) (l : list Deployment) :
  returned (res_status_json c (JArray (map JDocument l))) = l.
Proof.
  unfold returned; simpl.
  induction l as [|d l IH]; simpl; [reflexivity | now rewrite IH].
Qed.

Lemma insert_desc_perm (d : Deployment) (l : list Deployment) :
  Permutation (d :: l) (insert_desc d l).
Proof.
  induction l as [|x l IH]; simpl.
  - apply Permutation_refl.
  - destruct (createdAt x <? createdAt d)%Z.
    + apply Permutation_refl.
    + eapply perm_trans; [apply perm_swap | apply perm_skip, IH].
Qed.

Lemma sort_createdAt_desc_perm (l : list Deployment) :
  Permutation l (sort_createdAt_desc l).
Proof.
  induction l as [|x l IH]; simpl.
  - constructor.
  - eapply perm_trans; [apply perm_skip, IH | apply insert_desc_perm].
Qed.

Lemma insert_desc_sorted (d : Deployment) (l : list Deployment) :
  newest_first l -> newest_first (insert_desc d l).
Proof.
  unfold newest_first.
  induction l as [|x l IH]; simpl; intros Hs.
  - constructor; constructor.
  - inversion Hs as [|? ? Hl Hx]; subst.
    destruct (createdAt x <? createdAt d)%Z eqn:E.
    + apply Z.ltb_lt in E.
      constructor; [assumption|].
      constructor; [lia|].
      rewrite Forall_forall in *; intros y Hy.
      specialize (Hx y Hy); lia.
    + apply Z.ltb_ge in E.
      constructor; [now apply IH|].
      rewrite Forall_forall in *; intros y Hy.
      apply (Permutation_in _ (Permutation_sym (insert_desc_perm d l))) in Hy.
      destruct Hy as [<- | Hy]; [assumption | now apply Hx].
Qed.

Lemma sort_createdAt_desc_sorted (l : list Deployment) :
  newest_first (sort_createdAt_desc l).
Proof.
  induction l as [|x l IH]; simpl.
  - constructor.
  - now apply insert_desc_sorted.
Qed.

Lemma newest_first_firstn (n : nat) (l : list Deployment) :
  newest_first l -> newest_first (firstn n l).
Proof.
  unfold newest_first.
  revert n; induction l as [|x l IH]; intros [|n] Hs; simpl;
    try constructor.
  - inversion Hs; subst; now apply IH.
  - inversion Hs as [|? ? Hl Hx]; subst.
    rewrite Forall_forall in *; intros y Hy.
    apply Hx. rewrite <- (firstn_skipn n l).
    apply in_or_app; now left.
Qed.

Lemma owned_spec (user : ObjectId) (ds : list Deployment) (d : Deployment) :
  In d (owned user ds) <-> In d ds /\ userId d = user.
Proof.
  unfold owned. rewrite filter_In, Nat.eqb_eq. reflexivity.
Qed.

End Queries.

(** * Facts about updates of the collection *)

Section Updates.

Lemma updateOne_ids (d : Deployment) (ds : list Deployment) :
  map _id (updateOne d ds) = map _id ds.
Proof.
  induction ds as [|x ds IH]; simpl; [reflexivity|].
  destruct (_id x =? _id d)%nat; simpl; [reflexivity | now rewrite IH].
Qed.

Lemma existsb_updateOne (i : ObjectId) (d : Deployment) (ds : list Deployment) :
  existsb (fun e => (_id e =? i)%nat) (updateOne d ds) =
  existsb (fun e => (_id e =? i)%nat) ds.
Proof.
  induction ds as [|x ds IH]; simpl; [reflexivity|].
  destruct (_id x =? _id d)%nat; simpl; [reflexivity | now rewrite IH].
Qed.

Lemma findById_updateOne_same (i : ObjectId) (d : Deployment) (ds : list Deployment) :
  _id d = i ->
  findById i (updateOne d ds) = option_map (write_paths d) (findById i ds).
Proof.
  intros <-. unfold findById.
  induction ds as [|x ds IH]; simpl; [reflexivity|].
  destruct (_id x =? _id d)%nat eqn:E; simpl.
  - now rewrite E.
  - now rewrite E.
Qed.

Lemma existsb_findById (i : ObjectId) (ds : list Deployment) :
  existsb (fun e => (_id e =? i)%nat) ds = true <->
  exists stored, findById i ds = Some stored.
Proof.
  unfold findById.
  induction ds as [|x ds IH]; simpl.
  - split; [discriminate | intros [? [=]]].
  - destruct (_id x =? i)%nat; simpl; [|exact IH].
    split; [now exists x | reflexivity].
Qed.

End Updates.

(** * GET /api/deployments *)

Section Listing.

Variable env : Env.

(** What the handler computes, by cases on the database fault. *)
Lemma listDeployments_run (user : ObjectId) (w : World) :
  listDeployments env user w =
  if dbFault env (ticks w)
  then ((res_status_json 500 (errorBody "Internal server error"), []),
        with_dbErrors (S (dbErrors w)) (with_ticks (S (ticks w)) w))
  else ((res_json (JArray (map JDocument
           (limit 10 (sort_createdAt_desc (owned user (Deployments w)))))), []),
        with_ticks (S (ticks w)) w).
Proof.
  unfold listDeployments, Deployment_find_recent, dbCall, atBoundary, bind, tick,
    dbThrow, respond, ret; simpl.
  destruct (dbFault env (ticks w)); reflexivity.
Qed.

Lemma route_list (v : Variant) (authorization : option string) :
  route v env (GET_deployments authorization) =
  Some (guarded env authorization (listDeployments env)).
Proof. destruct v; reflexivity. Qed.

Lemma guarded_refused (authorization : option string) (h : ObjectId -> Handler)
    (refusal : Response) (w : World) :
  authenticateToken env authorization = inl refusal ->
  guarded env authorization h w = ((refusal, []), w).
Proof. unfold guarded; intros ->; reflexivity. Qed.

Lemma guarded_passed (authorization : option string) (h : ObjectId -> Handler)
    (user : ObjectId) (w : World) :
  authenticateToken env authorization = inr user ->
  guarded env authorization h w = h user w.
Proof. unfold guarded; intros ->; reflexivity. Qed.

(** What [upload.array] passes on: a request without file parts, or one that
    [authenticateToken] has already answered. *)
Lemma behind_upload_some (authorization : option string) (files : list File)
    (h : ObjectId -> Handler) (h' : Handler) :
  behind_upload env authorization files h = Some h' ->
  h' = guarded env authorization h /\
  (files = [] \/ exists refusal, authenticateToken env authorization = inl refusal).
Proof.
  unfold behind_upload.
  destruct (authenticateToken env authorization) as [refusal|user];
    [|destruct files]; intros [= <-]; (split; [reflexivity|]); eauto.
Qed.

Lemma behind_upload_none (authorization : option string) (files : list File)
    (h : ObjectId -> Handler) :
  behind_upload env authorization files h = None ->
  files <> [] /\ exists user, authenticateToken env authorization = inr user.
Proof.
  unfold behind_upload.
  destruct (authenticateToken env authorization) as [refusal|user];
    [|destruct files]; try discriminate.
  intros _. split; [discriminate | now exists user].
Qed.

Lemma refusal_has_no_documents (authorization : option string) (refusal : Response) :
  authenticateToken env authorization = inl refusal -> returned refusal = [].
Proof.
  unfold authenticateToken.
  destruct (negb _); [intros [= <-]; reflexivity|].
  destruct (jwtVerify env _); [discriminate | intros [= <-]; reflexivity].
Qed.

Lemma refusal_status (authorization : option string) (refusal : Response) :
  authenticateToken env authorization = inl refusal ->
  statusCode refusal = 401 \/ statusCode refusal = 403.
Proof.
  unfold authenticateToken.
  destruct (negb _); [intros [= <-]; now left|].
  destruct (jwtVerify env _); [discriminate | intros [= <-]; now right].
Qed.

Lemma refusal_body (authorization : option string) (refusal : Response) :
  authenticateToken env authorization = inl refusal ->
  exists msg, body refusal = errorBody msg.
Proof.
  unfold authenticateToken.
  destruct (negb _); [intros [= <-]; now eexists|].
  destruct (jwtVerify env _); [discriminate | intros [= <-]; now eexists].
Qed.

(** The body of the listing is an error object or an array of documents. *)
Lemma listing_body (authorization : option string) (w : World) :
  (exists msg,
     body (answer (guarded env authorization (listDeployments env) w)) =
       errorBody msg) \/
  body (answer (guarded env authorization (listDeployments env) w)) =
    JArray (map JDocument
      (returned (answer (guarded env authorization (listDeployments env) w)))).
Proof.
  destruct (authenticateToken env authorization) as [refusal|user] eqn:Ha.
  - left. rewrite (guarded_refused _ _ _ _ Ha).
    exact (refusal_body _ _ Ha).
  - rewrite (guarded_passed _ _ _ _ Ha), listDeployments_run.
    destruct (dbFault env (ticks w)).
    + left. now eexists.
    + right. unfold answer, res_json; cbn [fst]. now rewrite returned_documents.
Qed.

(** The documents the listing returns, whatever the request. *)
Lemma listing_returned (authorization : option string) (w : World) :
  returned (answer (guarded env authorization (listDeployments env) w)) = [] \/
  exists user,
    authenticateToken env authorization = inr user /\
    dbFault env (ticks w) = false /\
    answer (guarded env authorization (listDeployments env) w) =
      res_json (JArray (map JDocument
        (limit 10 (sort_createdAt_desc (owned user (Deployments w)))))).
Proof.
  destruct (authenticateToken env authorization) as [refusal|user] eqn:Ha.
  - left. rewrite (guarded_refused _ _ _ _ Ha).
    exact (refusal_has_no_documents _ _ Ha).
  - rewrite (guarded_passed _ _ _ _ Ha), listDeployments_run.
    destruct (dbFault env (ticks w)); [left; reflexivity|].
    right; exists user; repeat split.
Qed.

End Listing.

(** C6. A listing requested by user A contains only records whose owner is A:
    the body of the response of GET /api/deployments, in either variant, is
    an error object or an array of documents, and every document in it is a
    stored record whose [userId] is the caller's id. *)
Theorem listing_returns_only_own_records (v : Variant) (env : Env)
    (authorization : option string) (A : ObjectId) (h : Handler) (w : World) :
  authenticateToken env authorization = inr A ->
  route v env (GET_deployments authorization) = Some h ->
  ((exists msg, body (answer (h w)) = errorBody msg) \/
   body (answer (h w)) = JArray (map JDocument (returned (answer (h w))))) /\
  Forall (fun d => userId d = A /\ In d (Deployments w)) (returned (answer (h w))).
Proof.
  intros Ha Hr. rewrite route_list in Hr. injection Hr as <-.
  split; [apply listing_body|].
  destruct (listing_returned env authorization w) as [-> | (user & Hu & _ & ->)].
  - constructor.
  - rewrite Ha in Hu; injection Hu as <-.
    unfold res_json; rewrite returned_documents.
    apply Forall_forall; intros d Hd.
    unfold limit in Hd.
    assert (Hin : In d (sort_createdAt_desc (owned A (Deployments w)))).
    { rewrite <- (firstn_skipn 10). apply in_or_app; now left. }
    apply (Permutation_in _ (Permutation_sym (sort_createdAt_desc_perm _))) in Hin.
    apply owned_spec in Hin. tauto.
Qed.

(** Each user sees the one record of their own among the two stored. *)
Lemma listing_returns_only_own_records_witness :
  authenticateToken Sample.env Sample.bearer7 = inr 7 /\
  List.length (Deployments Sample.twoOwners) = 2 /\
  List.length (returned (answer (Sample.serve Full Sample.env
      (GET_deployments Sample.bearer7) Sample.twoOwners))) = 1 /\
  Forall (fun d => userId d = 7 /\ In d (Deployments Sample.twoOwners))
    (returned (answer (Sample.serve Full Sample.env
       (GET_deployments Sample.bearer7) Sample.twoOwners))).
Proof.
  split; [reflexivity|].
  split; [reflexivity|].
  split; [reflexivity|].
  apply (listing_returns_only_own_records Full Sample.env Sample.bearer7 7
           (guarded Sample.env Sample.bearer7 (listDeployments Sample.env))
           Sample.twoOwners); reflexivity.
Defined.

(** C9. The listing never has more than 10 documents and is ordered by
    creation time, newest first; when the request is authenticated and the
    database answers, it is the first 10 of the caller's records in that
    order, so its length is the smaller of 10 and the number of records the
    caller owns. *)
Theorem listing_is_capped_and_newest_first (v : Variant) (env : Env)
    (authorization : option string) (h : Handler) (w : World) :
  route v env (GET_deployments authorization) = Some h ->
  List.length (returned (answer (h w))) <= 10 /\
  newest_first (returned (answer (h w))) /\
  forall A,
    authenticateToken env authorization = inr A ->
    dbFault env (ticks w) = false ->
    exists sorted,
      Permutation (owned A (Deployments w)) sorted /\
      newest_first sorted /\
      answer (h w) = res_json (JArray (map JDocument (firstn 10 sorted))) /\
      returned (answer (h w)) = firstn 10 sorted /\
      List.length (returned (answer (h w))) =
        Nat.min 10 (List.length (owned A (Deployments w))).
Proof.
  intros Hr. rewrite route_list in Hr. injection Hr as <-.
  split; [|split].
  - destruct (listing_returned env authorization w) as [-> | (user & _ & _ & ->)].
    + simpl; lia.
    + unfold res_json; rewrite returned_documents.
      unfold limit. rewrite length_firstn. lia.
  - destruct (listing_returned env authorization w) as [-> | (user & _ & _ & ->)].
    + constructor.
    + unfold res_json; rewrite returned_documents.
      apply newest_first_firstn, sort_createdAt_desc_sorted.
  - intros A Ha Hdb.
    exists (sort_createdAt_desc (owned A (Deployments w))).
    rewrite (guarded_passed _ _ _ _ _ Ha), listDeployments_run, Hdb.
    unfold answer, res_json; cbn [fst]. rewrite returned_documents.
    split; [apply sort_createdAt_desc_perm|].
    split; [apply sort_createdAt_desc_sorted|].
    split; [reflexivity|].
    split; [reflexivity|].
    unfold limit. rewrite length_firstn.
    now rewrite <- (Permutation_length (sort_createdAt_desc_perm _)).
Qed.

(** Twelve records owned, ten listed. *)
Lemma listing_is_capped_and_newest_first_witness :
  List.length (owned 7 (Deployments Sample.busy)) = 12 /\
  List.length (returned (answer (Sample.serve Full Sample.env
      (GET_deployments Sample.bearer7) Sample.busy))) = 10 /\
  newest_first (returned (answer (Sample.serve Full Sample.env
      (GET_deployments Sample.bearer7) Sample.busy))).
Proof.
  split; [vm_compute; reflexivity|].
  split; [vm_compute; reflexivity|].
  apply (listing_is_capped_and_newest_first Full Sample.env Sample.bearer7
           (guarded Sample.env Sample.bearer7 (listDeployments Sample.env))
           Sample.busy).
  reflexivity.
Defined.

(** * DELETE /api/deployments/:id *)

Section Deleting.

Variable env : Env.

Lemma find_owned_some (id user : ObjectId) (ds : list Deployment) (d : Deployment) :
  find (fun e => (_id e =? id)%nat && (userId e =? user)%nat) ds = Some d ->
  In d ds /\ _id d = id /\ userId d = user.
Proof.
  intros H. apply find_some in H. destruct H as [Hin Hb].
  apply andb_true_iff in Hb. rewrite !Nat.eqb_eq in Hb. tauto.
Qed.

Lemma find_owned_none (id user : ObjectId) (ds : list Deployment) :
  (forall d, In d ds -> _id d = id -> userId d <> user) ->
  find (fun e => (_id e =? id)%nat && (userId e =? user)%nat) ds = None.
Proof.
  intros H.
  destruct (find _ ds) as [d|] eqn:E; [|reflexivity].
  apply find_owned_some in E. destruct E as (Hin & Hid & Hu).
  now elim (H d Hin Hid).
Qed.

(** DELETE /api/deployments/:id, by cases.  When the caller's record is
    found, the next statement is [path.join] on its [_id], which throws:
    [fs.rmdir] and [findByIdAndDelete] are never reached. *)
Lemma deleteDeployment_cases (user : ObjectId) (id : Param) (w : World) :
  deleteDeployment env user id w =
  match id with
  | NotAnObjectId => ((internalServerError, []), w)
  | ObjectIdParam i =>
      if dbFault env (ticks w)
      then ((internalServerError, []),
            with_dbErrors (S (dbErrors w)) (with_ticks (S (ticks w)) w))
      else match find (fun e => (_id e =? i)%nat && (userId e =? user)%nat)
                   (Deployments w) with
           | None => ((res_status_json 404 (errorBody "Deployment not found"), []),
                      with_ticks (S (ticks w)) w)
           | Some _ => ((internalServerError, []), with_ticks (S (ticks w)) w)
           end
  end.
Proof.
  unfold deleteDeployment; destruct id as [i|]; run; [|reflexivity].
  destruct (dbFault env (ticks w)); run; [reflexivity|].
  destruct (find _ (Deployments w)); reflexivity.
Qed.

(** Whatever it is asked, the handler deletes nothing and never answers
    success. *)
Lemma deleteDeployment_keeps (user : ObjectId) (id : Param) (w : World) :
  Deployments (after (deleteDeployment env user id w)) = Deployments w /\
  Users (after (deleteDeployment env user id w)) = Users w /\
  history (after (deleteDeployment env user id w)) = history w /\
  nextId (after (deleteDeployment env user id w)) = nextId w /\
  started (deleteDeployment env user id w) = [] /\
  statusCode (answer (deleteDeployment env user id w)) <> 200.
Proof.
  rewrite deleteDeployment_cases.
  destruct id as [i|]; [|now repeat split].
  destruct (dbFault env (ticks w)); [now repeat split|].
  destruct (find _ (Deployments w)); now repeat split.
Qed.

End Deleting.

(** C5, the sentence as written, fails when the lookup throws: for an id
    under which nothing is stored the answer is 500, not 404, when the
    database call fails, and also when the id is not an ObjectId (Mongoose
    rejects the query with a CastError). *)
Lemma missing_id_is_answered_500_when_the_lookup_throws :
  (forall d, In d (Deployments Sample.twoOwners) -> _id d <> 5) /\
  answer (Sample.serve Full Sample.databaseDown
            (DELETE_deployment Sample.bearer8 5) Sample.twoOwners) =
    res_status_json 500 (errorBody "Internal server error") /\
  answer (Sample.serve Full Sample.env
            (DELETE_deployment Sample.bearer8 NotAnObjectId) Sample.twoOwners) =
    res_status_json 500 (errorBody "Internal server error") /\
  statusCode (answer (Sample.serve Full Sample.databaseDown
                        (DELETE_deployment Sample.bearer8 5) Sample.twoOwners)) <> 404.
Proof.
  split; [|split; [|split]]; vm_compute.
  - intros d [<- | [<- | []]]; discriminate.
  - reflexivity.
  - reflexivity.
  - discriminate.
Qed.

(** C5 (as the code has it).  An authenticated DELETE /api/deployments/:id for
    an id under which the caller owns no record (no such record, a record of
    another user, or an id that is not an ObjectId) deletes nothing and is
    not answered with success.  The answer is 404 "Deployment not found"
    when the lookup is answered, and 500 "Internal server error" when the
    lookup throws: the database call fails, or the id cannot be cast.
    Success is answered by no run of the handler, whoever owns the record. *)
Theorem delete_missing_or_foreign_is_not_found (env : Env)
    (authorization : option string) (A : ObjectId) (id : Param)
    (h : Handler) (w : World) :
  route Full env (DELETE_deployment authorization id) = Some h ->
  authenticateToken env authorization = inr A ->
  ((forall d, In d (Deployments w) -> id = ObjectIdParam (_id d) -> userId d <> A) ->
     Deployments (after (h w)) = Deployments w /\
     started (h w) = [] /\
     answer (h w) =
       match id with
       | NotAnObjectId => res_status_json 500 (errorBody "Internal server error")
       | ObjectIdParam _ =>
           if dbFault env (ticks w)
           then res_status_json 500 (errorBody "Internal server error")
           else res_status_json 404 (errorBody "Deployment not found")
       end) /\
  statusCode (answer (h w)) <> 200.
Proof.
  intros Hr Ha. simpl in Hr. injection Hr as <-.
  rewrite (guarded_passed _ _ _ _ _ Ha).
  destruct (deleteDeployment_keeps env A id w) as (Hds & _ & _ & _ & Hts & Hcode).
  split; [|exact Hcode].
  intros Hnone. split; [exact Hds|]. split; [exact Hts|].
  rewrite deleteDeployment_cases.
  destruct id as [i|]; [|reflexivity].
  destruct (dbFault env (ticks w)); [reflexivity|].
  rewrite (find_owned_none i A (Deployments w)); [reflexivity|].
  intros d Hin Hid. apply (Hnone d Hin). now rewrite Hid.
Qed.

(** User 8 asks to delete the record of user 7, and a record that does not
    exist. *)
Lemma delete_missing_or_foreign_is_not_found_witness :
  (exists d, In d (Deployments Sample.twoOwners) /\ _id d = 0 /\ userId d = 7) /\
  answer (Sample.serve Full Sample.env
            (DELETE_deployment Sample.bearer8 0) Sample.twoOwners) =
    res_status_json 404 (errorBody "Deployment not found") /\
  Deployments (after (Sample.serve Full Sample.env
      (DELETE_deployment Sample.bearer8 0) Sample.twoOwners)) =
    Deployments Sample.twoOwners.
Proof.
  split.
  - vm_compute. eexists; split; [left; reflexivity | split; reflexivity].
  - destruct (delete_missing_or_foreign_is_not_found Sample.env Sample.bearer8 8 0
                (guarded Sample.env Sample.bearer8
                   (fun user => deleteDeployment Sample.env user 0))
                Sample.twoOwners eq_refl eq_refl) as [Hmissing _].
    destruct Hmissing as (Hkept & _ & Hanswer).
    + vm_compute. intros d [<- | [<- | []]]; intros; discriminate.
    + split; [exact Hanswer | exact Hkept].
Defined.

(** * POST /api/deploy *)

Section Deploying.

Variable env : Env.

Lemma find_same_domain (ds : list Deployment) (e : Deployment) (dom : option string) :
  In e ds -> domain e = dom ->
  exists x, find (fun y => Js.same (domain y) dom) ds = Some x.
Proof.
  intros Hin Hd.
  destruct (find _ ds) as [x|] eqn:E; [now exists x|].
  apply (find_none _ _ E) in Hin. rewrite Hd in Hin.
  destruct dom as [s|]; simpl in Hin; [|discriminate].
  now rewrite String.eqb_refl in Hin.
Qed.

Lemma existsb_same_domain (ds : list Deployment) (e : Deployment) (dom : option string) :
  In e ds -> domain e = dom ->
  existsb (fun y => Js.same (domain y) dom) ds = true.
Proof.
  intros Hin Hd. apply existsb_exists. exists e; split; [assumption|].
  rewrite Hd. destruct dom as [s|]; simpl; [apply String.eqb_refl | reflexivity].
Qed.

(** The full server: the availability check answers before anything is
    constructed or stored. *)
Lemma deploy_taken_domain (user : ObjectId) (b : DeployBody) (files : list File)
    (w : World) (e : Deployment) :
  In e (Deployments w) -> domain e = body_domain b ->
  answer (deploy env user b files w) =
    res_status_json 400 (errorBody "Domain not available") /\
  Deployments (after (deploy env user b files w)) = Deployments w /\
  history (after (deploy env user b files w)) = history w /\
  started (deploy env user b files w) = [].
Proof.
  intros Hin Hd.
  destruct (find_same_domain _ _ _ Hin Hd) as [x Hx].
  unfold deploy; run.
  destruct (dbFault env (ticks w)); run; [now repeat split|].
  rewrite Hx; run. now repeat split.
Qed.

(** The simplified variant: the insert is attempted and the unique index
    refuses it. *)
Lemma deploy_simplified_taken_domain (user : ObjectId) (b : DeployBody)
    (w : World) (e : Deployment) :
  In e (Deployments w) -> domain e = body_domain b ->
  answer (deploy_simplified env user b w) =
    res_status_json 500 (errorBody "Deployment failed") /\
  Deployments (after (deploy_simplified env user b w)) = Deployments w /\
  history (after (deploy_simplified env user b w)) = history w /\
  started (deploy_simplified env user b w) = [].
Proof.
  intros Hin Hd.
  pose proof (existsb_same_domain _ _ _ Hin Hd) as Hx.
  unfold deploy_simplified; run.
  destruct (negb _); run; [now repeat split|].
  destruct (dbFault env _); run; [now repeat split|].
  rewrite Hx; run. now repeat split.
Qed.

End Deploying.

(** C1, the sentence as written, fails in the simplified variant: the domain
    is taken and the answer is 500, not 400. *)
Lemma simplified_taken_domain_is_not_answered_400 :
  exists h e,
    route Simplified Sample.env (POST_deploy Sample.bearer7 Sample.demo []) = Some h /\
    In e (Deployments (after (Sample.created Simplified))) /\
    domain e = body_domain Sample.demo /\
    statusCode (answer (h (after (Sample.created Simplified)))) = 500 /\
    statusCode (answer (h (after (Sample.created Simplified)))) <> 400.
Proof.
  eexists. eexists.
  split; [reflexivity|].
  split; [left; reflexivity|].
  split; [reflexivity|].
  split; [reflexivity | discriminate].
Qed.

(** C1 (as the code has it).  A creation request that names the domain of a
    stored deployment stores nothing: nothing is inserted or changed in the
    collection and no background work starts.  A request without a valid
    token is refused by [authenticateToken], with 401 or 403.  A request with
    a valid token and a file part is not passed on by [upload.array]: no
    handler runs.  A request with a valid token and no file part is refused
    by the handler: the full server answers 400 "Domain not available" from
    its availability check; the simplified variant has no such check, its
    insert fails on the unique index and the answer is 500 "Deployment
    failed". *)
Theorem taken_domain_is_refused (v : Variant) (env : Env)
    (authorization : option string) (b : DeployBody)
    (files : list File) (w : World) (e : Deployment) (d : string) :
  In e (Deployments w) ->
  domain e = Some d ->
  body_domain b = Some d ->
  match route v env (POST_deploy authorization b files) with
  | None =>
      files <> [] /\ exists A, authenticateToken env authorization = inr A
  | Some h =>
      Deployments (after (h w)) = Deployments w /\
      history (after (h w)) = history w /\
      started (h w) = [] /\
      match authenticateToken env authorization with
      | inr _ =>
          files = [] /\
          answer (h w) =
            match v with
            | Full => res_status_json 400 (errorBody "Domain not available")
            | Simplified => res_status_json 500 (errorBody "Deployment failed")
            end
      | inl refusal =>
          answer (h w) = refusal /\
          (statusCode refusal = 401 \/ statusCode refusal = 403)
      end
  end.
Proof.
  intros Hin Hd Hb.
  assert (Hsame : domain e = body_domain b) by congruence.
  destruct (route v env (POST_deploy authorization b files)) as [h|] eqn:Hr.
  - destruct (authenticateToken env authorization) as [refusal|A] eqn:Ha.
    + pose proof (refusal_status env _ _ Ha) as Hcode.
      destruct v; simpl in Hr; apply behind_upload_some in Hr;
        destruct Hr as [-> _];
        rewrite (guarded_refused _ _ _ _ _ Ha); now repeat split.
    + destruct v; simpl in Hr; apply behind_upload_some in Hr;
        destruct Hr as [-> [-> | [refusal Hrefused]]]; try congruence;
        rewrite (guarded_passed _ _ _ _ _ Ha).
      * destruct (deploy_taken_domain env A b [] w e Hin Hsame) as (? & ? & ? & ?).
        now repeat split.
      * destruct (deploy_simplified_taken_domain env A b w e Hin Hsame)
          as (? & ? & ? & ?).
        now repeat split.
  - destruct v; simpl in Hr; now apply behind_upload_none in Hr.
Qed.

(** The demo domain is requested a second time on the full server. *)
Lemma taken_domain_is_refused_witness :
  map domain (Deployments (after (Sample.created Full))) =
    [body_domain Sample.demo] /\
  answer (Sample.serve Full Sample.env (POST_deploy Sample.bearer7 Sample.demo [])
            (after (Sample.created Full))) =
    res_status_json 400 (errorBody "Domain not available") /\
  Deployments (after (Sample.serve Full Sample.env
      (POST_deploy Sample.bearer7 Sample.demo []) (after (Sample.created Full)))) =
    Deployments (after (Sample.created Full)).
Proof.
  split; [vm_compute; reflexivity|].
  assert (Hin : exists e, In e (Deployments (after (Sample.created Full))) /\
                          domain e = Some "demo.ntl.cloud").
  { vm_compute. eexists. split; [left; reflexivity | reflexivity]. }
  destruct Hin as (e & Hin & He).
  pose proof (taken_domain_is_refused Full Sample.env Sample.bearer7 Sample.demo []
                (after (Sample.created Full)) e "demo.ntl.cloud" Hin He eq_refl)
    as H.
  change (route Full Sample.env (POST_deploy Sample.bearer7 Sample.demo []))
    with (Some (guarded Sample.env Sample.bearer7
                  (fun user => deploy Sample.env user Sample.demo []))) in H.
  change (authenticateToken Sample.env Sample.bearer7) with (@inr Response _ 7) in H.
  destruct H as (Hd & _ & _ & _ & Ha).
  split; [exact Ha | exact Hd].
Defined.

(** * Database errors and the status code of the answer *)

Section DatabaseErrors.

Variable env : Env.

Lemma register_database_error (e pw : option string) (w : World) :
  dbErrors (after (register env e pw w)) <> dbErrors w ->
  answer (register env e pw w) = internalServerError.
Proof.
  unfold register, internalServerError.
  destruct e as [em|], pw as [pass|]; run; try leaf.
  repeat (branch; run); leaf.
Qed.

Lemma login_database_error (e pw : option string) (w : World) :
  dbErrors (after (login env e pw w)) <> dbErrors w ->
  answer (login env e pw w) = internalServerError.
Proof.
  unfold login, internalServerError; run.
  destruct (dbFault env (ticks w)); run; [leaf|].
  destruct e as [em|]; [destruct (find _ (Users w))|]; run; try leaf.
  destruct pw; run; [|leaf].
  destruct (negb _); run; leaf.
Qed.

Lemma listDeployments_database_error (user : ObjectId) (w : World) :
  dbErrors (after (listDeployments env user w)) <> dbErrors w ->
  answer (listDeployments env user w) = internalServerError.
Proof.
  rewrite listDeployments_run.
  destruct (dbFault env (ticks w)); run; leaf.
Qed.

Lemma getDeployment_database_error (user : ObjectId) (id : Param) (w : World) :
  dbErrors (after (getDeployment env user id w)) <> dbErrors w ->
  answer (getDeployment env user id w) = internalServerError.
Proof.
  unfold getDeployment, internalServerError; destruct id as [i|]; run; [|leaf].
  repeat (branch; run); leaf.
Qed.

Lemma deleteDeployment_database_error (user : ObjectId) (id : Param) (w : World) :
  dbErrors (after (deleteDeployment env user id w)) <> dbErrors w ->
  answer (deleteDeployment env user id w) = internalServerError.
Proof.
  unfold deleteDeployment, internalServerError; destruct id as [i|]; run; [|leaf].
  repeat (branch; run); leaf.
Qed.

Lemma deploy_simplified_database_error (user : ObjectId) (b : DeployBody) (w : World) :
  dbErrors (after (deploy_simplified env user b w)) <> dbErrors w ->
  answer (deploy_simplified env user b w) = deploymentFailed.
Proof.
  unfold deploy_simplified, deploymentFailed; run.
  repeat (branch; run); leaf.
Qed.

Lemma deploy_database_error (user : ObjectId) (b : DeployBody)
    (files : list File) (w : World) :
  dbErrors (after (deploy env user b files w)) <> dbErrors w ->
  answer (deploy env user b files w) =
    if dbFault env (ticks w) then domainNotAvailable else deploymentFailed.
Proof.
  unfold deploy, deploymentFailed, domainNotAvailable; run.
  destruct (dbFault env (ticks w)); run; [leaf|].
  repeat (branch; run); leaf.
Qed.

Lemma guarded_database_error (authorization : option string)
    (h : ObjectId -> Handler) (expected : Response) (w : World) :
  (forall user, dbErrors (after (h user w)) <> dbErrors w ->
                answer (h user w) = expected) ->
  dbErrors (after (guarded env authorization h w)) <> dbErrors w ->
  answer (guarded env authorization h w) = expected.
Proof.
  intros Hh. unfold guarded.
  destruct (authenticateToken env authorization) as [refusal|user].
  - intros Herr; exfalso; apply Herr; reflexivity.
  - apply Hh.
Qed.

End DatabaseErrors.

(** C8, the sentence as written, fails on the availability lookup of the full
    server: the database throws and the answer is 400. *)
Lemma failed_availability_lookup_is_answered_400 :
  dbErrors (after (Sample.serve Full Sample.databaseDown
      (POST_deploy Sample.bearer7 Sample.demo []) emptyWorld)) = 1 /\
  answer (Sample.serve Full Sample.databaseDown
      (POST_deploy Sample.bearer7 Sample.demo []) emptyWorld) =
    res_status_json 400 (errorBody "Domain not available").
Proof. split; reflexivity. Qed.

(** C8 (as the code has it).  When a database operation of a handler throws,
    the answer is 500 with a generic message ("Internal server error", or
    "Deployment failed" on POST /api/deploy), with one exception: in the full
    server a failure of the availability lookup of POST /api/deploy is caught
    inside [checkDomainAvailability], which then reports the domain as not
    available, and the answer is 400 "Domain not available". *)
Theorem database_error_answer (v : Variant) (env : Env) (r : Request)
    (h : Handler) (w : World) :
  route v env r = Some h ->
  dbErrors (after (h w)) <> dbErrors w ->
  answer (h w) = answer_on_database_error v env r w.
Proof.
  intros Hr.
  destruct r, v; simpl in Hr; try discriminate;
    first [ injection Hr as <-
          | apply behind_upload_some in Hr; destruct Hr as [-> _] ];
    unfold answer_on_database_error.
  - apply register_database_error.
  - apply register_database_error.
  - apply login_database_error.
  - apply login_database_error.
  - apply guarded_database_error; intros; now apply deploy_database_error.
  - apply guarded_database_error; intros; now apply deploy_simplified_database_error.
  - apply guarded_database_error; intros; now apply listDeployments_database_error.
  - apply guarded_database_error; intros; now apply listDeployments_database_error.
  - apply guarded_database_error; intros; now apply getDeployment_database_error.
  - apply guarded_database_error; intros; now apply deleteDeployment_database_error.
Qed.

(** The database is down and user 7 lists deployments: 500. *)
Lemma database_error_answer_witness :
  dbErrors (after (Sample.serve Full Sample.databaseDown
      (GET_deployments Sample.bearer7) emptyWorld)) <> dbErrors emptyWorld /\
  answer (Sample.serve Full Sample.databaseDown
      (GET_deployments Sample.bearer7) emptyWorld) = internalServerError.
Proof.
  split; [discriminate|].
  apply (database_error_answer Full Sample.databaseDown
           (GET_deployments Sample.bearer7)
           (guarded Sample.databaseDown Sample.bearer7
              (listDeployments Sample.databaseDown))
           emptyWorld); [reflexivity | discriminate].
Defined.

(** * The authentication routes and the stored hash *)

Section Authentication.

Variable env : Env.

Lemma register_created_shape (e pw : option string) (w : World) :
  statusCode (answer (register env e pw w)) = 201 ->
  exists token em,
    e = Some em /\
    body (answer (register env e pw w)) =
      authBody "User created successfully" token (nextId w) em "free".
Proof.
  unfold register.
  destruct e as [em|], pw as [pass|]; run; try discriminate.
  repeat (branch; run); try discriminate.
  intros _. eexists _, em. split; reflexivity.
Qed.

Lemma register_ignores_hash (hash : nat -> string -> string)
    (e pw : option string) (w : World) :
  statusCode (answer (register (with_bcryptHash hash env) e pw w)) =
    statusCode (answer (register env e pw w)) ->
  answer (register (with_bcryptHash hash env) e pw w) =
  answer (register env e pw w).
Proof.
  unfold register, with_bcryptHash.
  destruct e as [em|], pw as [pass|]; run; try reflexivity.
  cbn [dbFault dateNow jwtSign bcryptHash].
  destruct (String.eqb em "" || String.eqb pass ""); run; [reflexivity|].
  destruct (dbFault env (ticks w)); run; [reflexivity|].
  destruct (find _ (Users w)); run; [reflexivity|].
  cbn [email password user_id plan].
  destruct (String.eqb em "" || String.eqb (bcryptHash env _ pass) "");
    destruct (String.eqb em "" || String.eqb (hash _ pass) "");
    run; try reflexivity;
    destruct (dbFault env _); run; try reflexivity; try discriminate;
    destruct (existsb _ (Users w)); run; try reflexivity; discriminate.
Qed.

Lemma find_rehash (f : User -> string) (a : string) (us : list User) :
  find (fun u => String.eqb (email u) a) (map (fun u => set_password (f u) u) us) =
  option_map (fun u => set_password (f u) u)
    (find (fun u => String.eqb (email u) a) us).
Proof.
  induction us as [|u us IH]; simpl; [reflexivity|].
  destruct (String.eqb (email u) a); [reflexivity | exact IH].
Qed.

Lemma login_success_shape (e pw : option string) (w : World) :
  statusCode (answer (login env e pw w)) = 200 ->
  exists token user,
    In user (Users w) /\
    e = Some (email user) /\
    body (answer (login env e pw w)) =
      authBody "Login successful" token (user_id user) (email user) (plan user).
Proof.
  unfold login; run.
  destruct (dbFault env (ticks w)); run; [discriminate|].
  destruct e as [em|]; run; [|discriminate].
  destruct (find _ (Users w)) as [user|] eqn:E; run; [|discriminate].
  destruct pw as [pass|]; run; [|discriminate].
  destruct (negb _); run; [discriminate|].
  intros _. apply find_some in E. destruct E as [Hin He].
  apply String.eqb_eq in He. subst em.
  eexists _, user. repeat split; assumption.
Qed.

Lemma login_ignores_hash (f : User -> string) (e pw : option string) (w : World) :
  statusCode (answer (login env e pw (rehash f w))) =
    statusCode (answer (login env e pw w)) ->
  answer (login env e pw (rehash f w)) = answer (login env e pw w).
Proof.
  unfold login, rehash; run.
  destruct (dbFault env (ticks w)); run; [reflexivity|].
  destruct e as [em|]; run; [|reflexivity].
  rewrite find_rehash.
  destruct (find _ (Users w)) as [user|]; cbn [option_map]; run; [|reflexivity].
  destruct pw as [pass|]; run; [|reflexivity].
  cbn [password set_password user_id email plan].
  destruct (negb (bcryptCompare env pass (password user)));
    destruct (negb (bcryptCompare env pass (f user)));
    run; try reflexivity; discriminate.
Qed.

End Authentication.

(** C10. A successful registration (201) or login (200) answers with exactly
    the fields message, token and user, and the user object has exactly the
    fields id, email and plan.  The hash never shows in an answer: registering
    with another bcrypt, or logging in against a store that holds other
    hashes, gives the same answer whenever it gives the same status code, in
    particular whenever both runs succeed. *)
Theorem successful_auth_answers_hide_the_hash (env : Env)
    (e pw : option string) (w : World) :
  (statusCode (answer (register env e pw w)) = 201 ->
     exists token id em pl,
       body (answer (register env e pw w)) =
         authBody "User created successfully" token id em pl) /\
  (forall hash,
     statusCode (answer (register (with_bcryptHash hash env) e pw w)) =
       statusCode (answer (register env e pw w)) ->
     answer (register (with_bcryptHash hash env) e pw w) =
     answer (register env e pw w)) /\
  (statusCode (answer (login env e pw w)) = 200 ->
     exists token id em pl,
       body (answer (login env e pw w)) =
         authBody "Login successful" token id em pl) /\
  (forall f,
     statusCode (answer (login env e pw (rehash f w))) =
       statusCode (answer (login env e pw w)) ->
     answer (login env e pw (rehash f w)) = answer (login env e pw w)).
Proof.
  split; [|split; [|split]].
  - intros Hok.
    destruct (register_created_shape env e pw w Hok) as (token & em & _ & Hb).
    now exists token, (nextId w), em, "free".
  - intros hash. apply register_ignores_hash.
  - intros Hok.
    destruct (login_success_shape env e pw w Hok) as (token & user & _ & _ & Hb).
    now exists token, (user_id user), (email user), (plan user).
  - intros f. apply login_ignores_hash.
Qed.

(** A registration and a login that succeed, run again with another salt. *)
Lemma successful_auth_answers_hide_the_hash_witness :
  statusCode (answer (register Sample.env Sample.mail Sample.secret emptyWorld)) = 201 /\
  answer (register (with_bcryptHash (fun _ pw => "saltA:" ++ pw) Sample.env)
            Sample.mail Sample.secret emptyWorld) =
    answer (register Sample.env Sample.mail Sample.secret emptyWorld) /\
  map password (Users Sample.registered) <>
    map password (Users (rehash (fun _ => "saltA:correct horse") Sample.registered)) /\
  statusCode (answer (login Sample.env Sample.mail Sample.secret Sample.registered)) = 200 /\
  answer (login Sample.env Sample.mail Sample.secret
            (rehash (fun _ => "saltA:correct horse") Sample.registered)) =
    answer (login Sample.env Sample.mail Sample.secret Sample.registered).
Proof.
  split; [reflexivity|].
  split.
  { apply (successful_auth_answers_hide_the_hash Sample.env Sample.mail
             Sample.secret emptyWorld); reflexivity. }
  split; [vm_compute; discriminate|].
  split; [reflexivity|].
  apply (successful_auth_answers_hide_the_hash Sample.env Sample.mail
           Sample.secret Sample.registered); reflexivity.
Defined.

(** * The monitor *)

Section Monitor.

Variable env : Env.

(** A poll whose status request throws: the [catch] re-arms the timer while
    [attempts] is below the maximum, and does nothing at all once it is not. *)
Lemma checkStatus_poll_throws (d : Deployment) (k : nat) (w : World) :
  serviceStatus env (ticks w) (renderServiceId d) = None ->
  runTask env (CheckStatus d k) w =
    ((if (k <? maxAttempts)%nat then [CheckStatus d (S k)] else []),
     with_ticks (S (ticks w)) w).
Proof.
  intros Hthrow. unfold runTask, checkStatus; run.
  rewrite Hthrow; run.
  destruct (k <? maxAttempts)%nat; reflexivity.
Qed.

(** A poll that sees a status that is not final, with attempts left. *)
Lemma checkStatus_poll_pending (d : Deployment) (k : nat) (w : World) (svc : Service) :
  serviceStatus env (ticks w) (renderServiceId d) = Some svc ->
  statusIs svc "live" || statusIs svc "ready" = false ->
  statusIs svc "failed" || statusIs svc "error" = false ->
  (k <? maxAttempts)%nat = true ->
  runTask env (CheckStatus d k) w =
    ([CheckStatus d (S k)], with_ticks (S (ticks w)) w).
Proof.
  intros Hsvc Hlive Hfailed Hk. unfold runTask, checkStatus; run.
  rewrite Hsvc; run. rewrite Hlive, Hfailed, Hk. reflexivity.
Qed.

(** The last poll (attempts = 30) sees a status that is not final and the
    save succeeds: the record is set to error. *)
Lemma checkStatus_exhausted (d stored : Deployment) (w : World) (svc : Service) :
  validate d = true ->
  serviceStatus env (ticks w) (renderServiceId d) = Some svc ->
  statusIs svc "live" || statusIs svc "ready" = false ->
  statusIs svc "failed" || statusIs svc "error" = false ->
  dbFault env (S (ticks w)) = false ->
  findById (_id d) (Deployments w) = Some stored ->
  fst (runTask env (CheckStatus d maxAttempts) w) = [] /\
  findById (_id d) (Deployments (snd (runTask env (CheckStatus d maxAttempts) w))) =
    Some (write_paths (set_status error d) stored).
Proof.
  intros Hvalid Hsvc Hlive Hfailed Hdb Hstored.
  assert (Hex : existsb (fun e => (_id e =? _id d)%nat) (Deployments w) = true)
    by (apply existsb_findById; eauto).
  unfold validate in Hvalid.
  unfold runTask, checkStatus; run.
  rewrite Hsvc; run. rewrite Hlive, Hfailed. cbn [Nat.ltb Nat.leb maxAttempts]; run.
  rewrite Hvalid; run. rewrite Hdb; run. rewrite Hex; run.
  split; [reflexivity|].
  rewrite findById_updateOne_same by reflexivity. rewrite Hstored. reflexivity.
Qed.

(** With a provider that throws on every status request the monitor polls
    31 times and stops; it writes nothing. *)
Lemma monitor_all_polls_throw (d : Deployment) (n k : nat) (w : World) :
  (forall t sid, serviceStatus env t sid = None) ->
  k + n = S maxAttempts -> 0 < n ->
  drain env n {| world := w; pending := [CheckStatus d k] |} =
    {| world := with_ticks (n + ticks w) w; pending := [] |}.
Proof.
  intros Hthrow. revert k w.
  induction n as [|n IH]; intros k w Hk Hn; [lia|].
  cbn [drain pending world].
  rewrite (checkStatus_poll_throws d k w (Hthrow _ _)). cbn [fst snd app].
  destruct n as [|n].
  - assert (Hk' : (k <? maxAttempts)%nat = false)
      by (apply Nat.ltb_ge; unfold maxAttempts in *; lia).
    rewrite Hk'. cbn [app]. reflexivity.
  - assert (Hk' : (k <? maxAttempts)%nat = true)
      by (apply Nat.ltb_lt; unfold maxAttempts in *; lia).
    rewrite Hk'. cbn [app]. rewrite IH by lia.
    cbn [ticks with_ticks Users Deployments nextId dbErrors history].
    unfold with_ticks; cbn. f_equal. f_equal. lia.
Qed.

End Monitor.

(** C2, evaluated where the code departs from it.  A deployment is created
    and processed; the provider creates the site and afterwards throws on
    every status request.  The monitor uses up its attempts (31 polls, 5
    seconds apart) and then stops: no timer is pending any more, and the
    record is still in [deploying], not in [error]. *)
Theorem monitor_gives_up_without_marking_error :
  pending (Sample.settled Full Sample.pollsThrow) = [] /\
  map status (Deployments (world (Sample.settled Full Sample.pollsThrow))) = [deploying] /\
  statusHistory 0 (history (world (Sample.settled Full Sample.pollsThrow))) =
    [deploying; deploying; building] /\
  ticks (world (Sample.settled Full Sample.pollsThrow)) =
    ticks (world (drain Sample.pollsThrow 1 (Sample.justCreated Full Sample.pollsThrow)))
    + S maxAttempts.
Proof. vm_compute. repeat split. Qed.

(** * Creation and the background process *)

Section Lifecycle.

Variable env : Env.

(** A creation that is answered with 200 has stored exactly one new record,
    in [building], and has started the background work on it. *)
Lemma deploy_created (user : ObjectId) (b : DeployBody) (files : list File) (w : World) :
  statusCode (answer (deploy env user b files w)) = 200 ->
  exists doc,
    _id doc = nextId w /\ userId doc = user /\ status doc = building /\
    domain doc = body_domain b /\ deploymentUrl doc = None /\
    validate doc = true /\
    Deployments (after (deploy env user b files w)) = (Deployments w ++ [doc])%list /\
    history (after (deploy env user b files w)) = (_id doc, building) :: history w /\
    nextId (after (deploy env user b files w)) = S (nextId w) /\
    Users (after (deploy env user b files w)) = Users w /\
    started (deploy env user b files w) = [ProcessDeployment doc files].
Proof.
  unfold deploy; run.
  repeat (branch; run); try discriminate.
  all: intros _;
    match goal with |- context [ProcessDeployment ?doc _] => exists doc end;
    repeat split;
    match goal with H : negb _ = false |- _ => now apply negb_false_iff in H end.
Qed.

Lemma deploy_simplified_created (user : ObjectId) (b : DeployBody) (w : World) :
  statusCode (answer (deploy_simplified env user b w)) = 200 ->
  exists doc,
    _id doc = nextId w /\ userId doc = user /\ status doc = building /\
    domain doc = body_domain b /\ deploymentUrl doc = None /\
    validate doc = true /\
    Deployments (after (deploy_simplified env user b w)) = (Deployments w ++ [doc])%list /\
    history (after (deploy_simplified env user b w)) = (_id doc, building) :: history w /\
    nextId (after (deploy_simplified env user b w)) = S (nextId w) /\
    Users (after (deploy_simplified env user b w)) = Users w /\
    started (deploy_simplified env user b w) = [GoLive doc (body_domain b)].
Proof.
  unfold deploy_simplified; run.
  repeat (branch; run); try discriminate.
  all: intros _;
    match goal with |- context [GoLive ?doc _] => exists doc end;
    repeat split;
    match goal with H : negb _ = false |- _ => now apply negb_false_iff in H end.
Qed.

(** A creation that is not answered with 200 has stored nothing and started
    nothing. *)
Lemma deploy_not_created (user : ObjectId) (b : DeployBody) (files : list File) (w : World) :
  statusCode (answer (deploy env user b files w)) <> 200 ->
  Deployments (after (deploy env user b files w)) = Deployments w /\
  history (after (deploy env user b files w)) = history w /\
  started (deploy env user b files w) = [].
Proof.
  unfold deploy; run.
  repeat (branch; run); intros Hcode; now repeat split.
Qed.

(** When the availability check has passed, an exception of the insert is
    answered with 500 "Deployment failed". *)
Lemma deploy_creation_fails (user : ObjectId) (b : DeployBody) (files : list File) (w : World) :
  dbFault env (ticks w) = false ->
  find (fun e => Js.same (domain e) (body_domain b)) (Deployments w) = None ->
  statusCode (answer (deploy env user b files w)) <> 200 ->
  answer (deploy env user b files w) = deploymentFailed.
Proof.
  intros Hdb Hfree. unfold deploy; run.
  rewrite Hdb; run. rewrite Hfree; run.
  repeat (branch; run); intros Hcode; try reflexivity; now elim Hcode.
Qed.

(** The timer of the simplified variant, when its save goes through. *)
Lemma goLive_saved (dom : option string) (d stored : Deployment) (w : World) :
  validate d = true ->
  dbFault env (ticks w) = false ->
  findById (_id d) (Deployments w) = Some stored ->
  fst (runTask env (GoLive d dom) w) = [] /\
  findById (_id d) (Deployments (snd (runTask env (GoLive d dom) w))) =
    Some (write_paths
            (set_deploymentUrl (Some ("https://" ++ Js.interpolate dom))
               (set_status live d)) stored).
Proof.
  intros Hvalid Hdb Hstored.
  assert (Hex : existsb (fun e => (_id e =? _id d)%nat) (Deployments w) = true)
    by (apply existsb_findById; eauto).
  unfold validate in Hvalid.
  unfold runTask, goLive; run.
  rewrite Hvalid; run. rewrite Hdb; run. rewrite Hex; run.
  split; [reflexivity|].
  rewrite findById_updateOne_same by reflexivity. rewrite Hstored. reflexivity.
Qed.

(** A poll that sees the site live or ready, when its save goes through. *)
Lemma checkStatus_live (d stored : Deployment) (k : nat) (w : World) (svc : Service) :
  validate d = true ->
  serviceStatus env (ticks w) (renderServiceId d) = Some svc ->
  statusIs svc "live" || statusIs svc "ready" = true ->
  dbFault env (S (ticks w)) = false ->
  findById (_id d) (Deployments w) = Some stored ->
  fst (runTask env (CheckStatus d k) w) = [] /\
  findById (_id d) (Deployments (snd (runTask env (CheckStatus d k) w))) =
    Some (write_paths (set_deploymentUrl (service_url svc) (set_status live d)) stored).
Proof.
  intros Hvalid Hsvc Hlive Hdb Hstored.
  assert (Hex : existsb (fun e => (_id e =? _id d)%nat) (Deployments w) = true)
    by (apply existsb_findById; eauto).
  unfold validate in Hvalid.
  unfold runTask, checkStatus; run.
  rewrite Hsvc; run. rewrite Hlive; run.
  rewrite Hvalid; run. rewrite Hdb; run. rewrite Hex; run.
  split; [reflexivity|].
  rewrite findById_updateOne_same by reflexivity. rewrite Hstored. reflexivity.
Qed.

End Lifecycle.

(** * What a task writes *)

Section TaskEffects.

Variable env : Env.

(** Every task only saves its own document; the status values it writes go
    forward from the one it expects; and it re-arms at most one timer, for
    the same document, and only while the record is in [deploying]. *)
Lemma runTask_summary (t : Task) (w : World) :
  exists l,
    wrote (task_id t) l (Deployments w) (history w)
      (Deployments (snd (runTask env t w))) (history (snd (runTask env t w))) /\
    nextId (snd (runTask env t w)) = nextId w /\
    Users (snd (runTask env t w)) = Users w /\
    monotone (l ++ [expected t]) = true /\
    (fst (runTask env t w) = [] \/
     exists d' k,
       fst (runTask env t w) = [CheckStatus d' k] /\
       _id d' = task_id t /\
       hd (expected t) l = deploying).
Proof.
  destruct t as [d files | d k | d dom];
    unfold runTask, processDeployment, checkStatus, goLive;
    cbn [task_id expected]; run.
  - repeat (branch; run); summary.
  - repeat (branch; run); summary.
  - repeat (branch; run); summary.
Qed.

End TaskEffects.

(** * What a request writes *)

Section RequestEffects.

Variable env : Env.

Lemma register_effect (e pw : option string) (w : World) :
  request_effect w (after (register env e pw w)) (started (register env e pw w)).
Proof.
  unfold register.
  destruct e as [em|], pw as [pass|]; run; try quiet.
  repeat (branch; run); quiet.
Qed.

Lemma login_effect (e pw : option string) (w : World) :
  request_effect w (after (login env e pw w)) (started (login env e pw w)).
Proof.
  unfold login; run.
  destruct (dbFault env (ticks w)); run; [quiet|].
  destruct e as [em|]; [destruct (find _ (Users w))|]; run; try quiet.
  destruct pw; run; [|quiet].
  destruct (negb _); run; quiet.
Qed.

Lemma listDeployments_effect (user : ObjectId) (w : World) :
  request_effect w (after (listDeployments env user w))
    (started (listDeployments env user w)).
Proof.
  rewrite listDeployments_run.
  destruct (dbFault env (ticks w)); run; quiet.
Qed.

Lemma getDeployment_effect (user : ObjectId) (id : Param) (w : World) :
  request_effect w (after (getDeployment env user id w))
    (started (getDeployment env user id w)).
Proof.
  unfold getDeployment; destruct id as [i|]; run; [|quiet].
  repeat (branch; run); quiet.
Qed.

Lemma deleteDeployment_effect (user : ObjectId) (id : Param) (w : World) :
  request_effect w (after (deleteDeployment env user id w))
    (started (deleteDeployment env user id w)).
Proof.
  unfold deleteDeployment; destruct id as [i|]; run; [|quiet].
  repeat (branch; run); quiet.
Qed.

Lemma deploy_effect (user : ObjectId) (b : DeployBody) (files : list File) (w : World) :
  request_effect w (after (deploy env user b files w))
    (started (deploy env user b files w)).
Proof.
  destruct (Nat.eq_dec (statusCode (answer (deploy env user b files w))) 200)
    as [Hok | Hno].
  - destruct (deploy_created env user b files w Hok)
      as (doc & Hid & _ & Hst & _ & _ & _ & Hds & Hh & Hn & _ & Hts).
    eapply effect_insert with (doc := doc); eauto.
  - destruct (deploy_not_created env user b files w Hno) as (Hds & Hh & Hts).
    apply effect_quiet; auto.
    unfold deploy; run. repeat (branch; run); auto with arith.
Qed.

Lemma deploy_simplified_effect (user : ObjectId) (b : DeployBody) (w : World) :
  request_effect w (after (deploy_simplified env user b w))
    (started (deploy_simplified env user b w)).
Proof.
  unfold deploy_simplified; run.
  repeat (branch; run); try quiet.
  all: match goal with
       | |- context [GoLive ?d0 ?dm] =>
           apply (effect_insert _ _ _ d0 (GoLive d0 dm)); reflexivity
       end.
Qed.

Lemma guarded_effect (authorization : option string) (h : ObjectId -> Handler)
    (w : World) :
  (forall user, request_effect w (after (h user w)) (started (h user w))) ->
  request_effect w (after (guarded env authorization h w))
    (started (guarded env authorization h w)).
Proof.
  intros Hh. unfold guarded.
  destruct (authenticateToken env authorization) as [refusal|user].
  - apply effect_quiet; reflexivity || apply le_n.
  - apply Hh.
Qed.

End RequestEffects.

Lemma route_effect (v : Variant) (env : Env) (r : Request) (h : Handler) (w : World) :
  route v env r = Some h ->
  request_effect w (after (h w)) (started (h w)).
Proof.
  intros Hr.
  destruct r, v; simpl in Hr; try discriminate;
    first [ injection Hr as <-
          | apply behind_upload_some in Hr; destruct Hr as [-> _] ].
  - apply register_effect.
  - apply register_effect.
  - apply login_effect.
  - apply login_effect.
  - apply guarded_effect; intros; apply deploy_effect.
  - apply guarded_effect; intros; apply deploy_simplified_effect.
  - apply guarded_effect; intros; apply listDeployments_effect.
  - apply guarded_effect; intros; apply listDeployments_effect.
  - apply guarded_effect; intros; apply getDeployment_effect.
  - apply guarded_effect; intros; apply deleteDeployment_effect.
Qed.

(** * The lifecycle invariant *)

Local Open Scope list_scope.

Section Chains.

Lemma forwardb_forward (a b : Status) : forwardb a b = true -> forward a b.
Proof.
  unfold forwardb, forward.
  destruct a, b; simpl; intros H; try discriminate; auto.
Qed.

Lemma forward_trans (a b c : Status) : forward a b -> forward b c -> forward a c.
Proof.
  unfold forward. intros [-> | Hab] [-> | Hbc]; auto. right; lia.
Qed.

(** What [forward] allows, in the words of the lifecycle. *)
Lemma forward_meaning (a b : Status) :
  forward a b ->
  (a = deploying -> b <> building) /\
  (a = live -> b = live) /\
  (a = error -> b = error).
Proof.
  unfold forward. intros [<- | Hlt].
  - repeat split; intros ->; try reflexivity; discriminate.
  - destruct a, b; simpl in Hlt; repeat split; intros; try discriminate; try reflexivity; lia.
Qed.

Lemma monotone_chain (l : list Status) : monotone l = true -> chain l.
Proof.
  unfold chain.
  induction l as [|s l IH]; simpl; intros H; [constructor|].
  apply andb_true_iff in H. destruct H as [Hall Hrest].
  constructor; [now apply IH|].
  rewrite forallb_forall in Hall. apply Forall_forall.
  intros x Hx. apply forwardb_forward. now apply Hall.
Qed.

Lemma chain_extend (l rest : list Status) (s0 : Status) :
  chain (l ++ [s0]) -> chain (s0 :: rest) -> chain (l ++ s0 :: rest).
Proof.
  unfold chain. intros Hl Hrest.
  induction l as [|s l IH]; simpl in *; [assumption|].
  inversion Hl as [|? ? Hl' Hs]; subst.
  constructor; [now apply IH|].
  rewrite Forall_forall in *. intros x Hx.
  apply in_app_or in Hx. destruct Hx as [Hx | [<- | Hx]].
  - apply Hs. apply in_or_app. now left.
  - apply Hs. apply in_or_app. right; now left.
  - inversion Hrest as [|? ? _ Hs0]; subst.
    rewrite Forall_forall in Hs0.
    apply forward_trans with (b := s0).
    + now apply Hs0.
    + apply Hs. apply in_or_app. right; now left.
Qed.

Lemma chain_pairs (l1 l2 l3 : list Status) (later earlier : Status) :
  chain (l1 ++ later :: l2 ++ earlier :: l3) -> forward earlier later.
Proof.
  unfold chain. induction l1 as [|x l1 IH]; simpl; intros H.
  - inversion H as [|? ? _ Hall]; subst.
    rewrite Forall_forall in Hall. apply Hall.
    apply in_or_app. right; now left.
  - inversion H; subst. now apply IH.
Qed.

End Chains.

Section Histories.

Lemma statusHistory_app (i : ObjectId) (h1 h2 : list (ObjectId * Status)) :
  statusHistory i (h1 ++ h2) = statusHistory i h1 ++ statusHistory i h2.
Proof.
  induction h1 as [|[j s] h1 IH]; simpl; [reflexivity|].
  destruct (j =? i)%nat; simpl; now rewrite IH.
Qed.

Lemma statusHistory_In (i : ObjectId) (s : Status) (h : list (ObjectId * Status)) :
  In s (statusHistory i h) -> In (i, s) h.
Proof.
  induction h as [|[j t] h IH]; simpl; [tauto|].
  destruct (j =? i)%nat eqn:E.
  - apply Nat.eqb_eq in E; subst j. intros [<- | H]; auto.
  - auto.
Qed.

Lemma statusHistory_fresh (i : ObjectId) (h : list (ObjectId * Status)) :
  (forall j s, In (j, s) h -> j <> i) -> statusHistory i h = [].
Proof.
  intros Hfresh.
  destruct (statusHistory i h) as [|s l] eqn:E; [reflexivity|].
  assert (Hin : In s (statusHistory i h)) by (rewrite E; now left).
  apply statusHistory_In in Hin. now elim (Hfresh i s Hin).
Qed.

Lemma latest_recorded (i : ObjectId) (s : Status) (h : list (ObjectId * Status)) :
  hd_error (statusHistory i h) = Some s -> In (i, s) h.
Proof.
  intros H. apply statusHistory_In.
  destruct (statusHistory i h); [discriminate|].
  injection H as ->. now left.
Qed.

End Histories.

Section Writes.

Lemma In_updateOne (d e : Deployment) (ds : list Deployment) :
  NoDup (map _id ds) ->
  In e (updateOne d ds) ->
  (_id e = _id d /\ status e = status d) \/ (In e ds /\ _id e <> _id d).
Proof.
  induction ds as [|x ds IH]; simpl; intros Hnd Hin; [tauto|].
  inversion Hnd as [|? ? Hx Hnd']; subst.
  destruct (_id x =? _id d)%nat eqn:E.
  - apply Nat.eqb_eq in E.
    destruct Hin as [<- | Hin].
    + left. split; [exact E | reflexivity].
    + right. split; [now right|].
      intros He. apply Hx. rewrite E, <- He. now apply in_map.
  - apply Nat.eqb_neq in E.
    destruct Hin as [<- | Hin].
    + right. split; [now left | exact E].
    + destruct (IH Hnd' Hin) as [H | [H1 H2]]; [now left|].
      right. split; [now right | exact H2].
Qed.

Lemma wrote_ids (i : ObjectId) (l : list Status) ds h ds' h' :
  wrote i l ds h ds' h' -> map _id ds' = map _id ds.
Proof.
  induction 1; [reflexivity|]. now rewrite updateOne_ids.
Qed.

Lemma wrote_history (i : ObjectId) (l : list Status) ds h ds' h' :
  wrote i l ds h ds' h' -> h' = map (pair i) l ++ h.
Proof.
  induction 1; simpl; [reflexivity|]. now subst.
Qed.

Lemma statusHistory_own (i : ObjectId) (l : list Status) :
  statusHistory i (map (pair i) l) = l.
Proof.
  induction l as [|s l IH]; simpl; [reflexivity|].
  now rewrite Nat.eqb_refl, IH.
Qed.

Lemma statusHistory_other (i j : ObjectId) (l : list Status) :
  i <> j -> statusHistory j (map (pair i) l) = [].
Proof.
  intros Hne. induction l as [|s l IH]; simpl; [reflexivity|].
  apply Nat.eqb_neq in Hne. now rewrite Hne.
Qed.

Lemma wrote_nothing_inv (i : ObjectId) ds h ds' h' :
  wrote i [] ds h ds' h' -> ds' = ds /\ h' = h.
Proof. inversion 1; auto. Qed.

Lemma wrote_members (i : ObjectId) (l : list Status) ds h ds' h' :
  wrote i l ds h ds' h' ->
  NoDup (map _id ds) ->
  forall e, In e ds' ->
    (In e ds /\ (_id e <> i \/ l = [])) \/
    (_id e = i /\ hd_error l = Some (status e)).
Proof.
  induction 1 as [|l ds h ds1 h1 d s Hw IH Hid Hst]; intros Hnd e He.
  - left. auto.
  - assert (Hnd1 : NoDup (map _id ds1)) by (now rewrite (wrote_ids _ _ _ _ _ _ Hw)).
    destruct (In_updateOne _ _ _ Hnd1 He) as [[He1 He2] | [He1 He2]].
    + right. split; [congruence|]. simpl. congruence.
    + destruct (IH Hnd e He1) as [[Hin _] | [Heq _]].
      * left. split; [assumption|]. left. congruence.
      * elim He2. congruence.
Qed.

End Writes.

Section Invariant.

Lemma Inv_initial : Inv initial.
Proof.
  constructor; simpl; try tauto; try constructor.
Qed.

Lemma task_id_bound (s : System) (t : Task) :
  Inv s -> In t (pending s) -> task_id t < nextId (world s).
Proof.
  intros HI Ht.
  apply (inv_history_ids s HI (task_id t) (expected t)).
  apply latest_recorded. now apply (inv_tasks s HI).
Qed.

(** Serving a request keeps the invariant. *)
Lemma Inv_request (s : System) (w' : World) (ts : list Task) :
  Inv s ->
  request_effect (world s) w' ts ->
  Inv {| world := w'; pending := pending s ++ ts |}.
Proof.
  intros HI [Hds Hh Hn -> | doc t Hid Hst Hds Hh Hn -> Htid Hexp].
  - (* nothing written *)
    constructor; cbn [world pending]; rewrite ?app_nil_r, ?Hds, ?Hh.
    + apply (inv_chain s HI).
    + apply (inv_latest s HI).
    + intros i st Hin. pose proof (inv_history_ids s HI i st Hin). lia.
    + intros e Hin. pose proof (inv_stored_ids s HI e Hin). lia.
    + apply (inv_unique s HI).
    + apply (inv_tasks s HI).
    + apply (inv_one_task s HI).
  - (* a new record *)
    assert (Hfresh : statusHistory (_id doc) (history (world s)) = []).
    { apply statusHistory_fresh. intros j st Hin.
      pose proof (inv_history_ids s HI j st Hin). lia. }
    constructor; cbn [world pending]; rewrite ?Hds, ?Hh, ?Hn.
    + intros i. cbn [statusHistory].
      destruct (_id doc =? i)%nat eqn:E; [|apply (inv_chain s HI)].
      apply Nat.eqb_eq in E; subst i. rewrite Hfresh.
      repeat constructor.
    + intros e Hin. cbn [statusHistory].
      apply in_app_or in Hin. destruct Hin as [Hin | [<- | []]].
      * pose proof (inv_stored_ids s HI e Hin) as Hlt.
        assert (E : (_id doc =? _id e)%nat = false) by (apply Nat.eqb_neq; lia).
        rewrite E. now apply (inv_latest s HI).
      * rewrite Nat.eqb_refl. simpl. now rewrite Hst.
    + intros i st [[= <- <-] | Hin]; [lia|].
      pose proof (inv_history_ids s HI i st Hin). lia.
    + intros e Hin. apply in_app_or in Hin. destruct Hin as [Hin | [<- | []]].
      * pose proof (inv_stored_ids s HI e Hin). lia.
      * lia.
    + rewrite map_app. simpl.
      apply (Permutation_NoDup (l := _id doc :: map _id (Deployments (world s)))).
      { apply Permutation_cons_append. }
      constructor; [|apply (inv_unique s HI)].
      intros Hin. apply in_map_iff in Hin. destruct Hin as (e & He & Hin).
      pose proof (inv_stored_ids s HI e Hin). lia.
    + intros t' Hin. cbn [statusHistory].
      apply in_app_or in Hin. destruct Hin as [Hin | [<- | []]].
      * pose proof (task_id_bound s t' HI Hin) as Hlt.
        assert (E : (_id doc =? task_id t')%nat = false) by (apply Nat.eqb_neq; lia).
        rewrite E. now apply (inv_tasks s HI).
      * rewrite Htid, Nat.eqb_refl, Hexp. reflexivity.
    + rewrite map_app. simpl.
      apply (Permutation_NoDup (l := task_id t :: map task_id (pending s))).
      { apply Permutation_cons_append. }
      constructor; [|apply (inv_one_task s HI)].
      intros Hin. apply in_map_iff in Hin. destruct Hin as (t' & Ht' & Hin).
      pose proof (task_id_bound s t' HI Hin). lia.
Qed.

End Invariant.

Section TaskSteps.

Variable env : Env.

Lemma NoDup_replace (A : Type) (before after : list A) (x : A) (mid : list A) :
  NoDup (before ++ x :: after) ->
  (mid = [] \/ mid = [x]) ->
  NoDup (before ++ mid ++ after).
Proof.
  intros Hnd [-> | ->]; simpl; [|assumption].
  now apply NoDup_remove_1 in Hnd.
Qed.

(** Running a pending task keeps the invariant. *)
Lemma Inv_task (s : System) (before after : list Task) (t : Task) :
  Inv s ->
  pending s = before ++ t :: after ->
  Inv {| world := snd (runTask env t (world s));
         pending := before ++ fst (runTask env t (world s)) ++ after |}.
Proof.
  intros HI Hp.
  destruct (runTask_summary env t (world s)) as (l & Hw & Hn & _ & Hmono & Hts).
  set (w' := snd (runTask env t (world s))) in *.
  set (ts := fst (runTask env t (world s))) in *.
  assert (Ht : In t (pending s)) by (rewrite Hp; apply in_or_app; right; now left).
  pose proof (inv_tasks s HI t Ht) as Hlatest.
  destruct (statusHistory (task_id t) (history (world s))) as [|s0 rest] eqn:Hold;
    [discriminate|].
  injection Hlatest as ->.
  pose proof (wrote_history _ _ _ _ _ _ Hw) as Hh.
  pose proof (wrote_ids _ _ _ _ _ _ Hw) as Hids.
  assert (Hown : statusHistory (task_id t) (history w') = l ++ expected t :: rest).
  { rewrite Hh, statusHistory_app, statusHistory_own, Hold. reflexivity. }
  assert (Hother : forall j, j <> task_id t ->
            statusHistory j (history w') = statusHistory j (history (world s))).
  { intros j Hj. rewrite Hh, statusHistory_app, statusHistory_other by auto.
    reflexivity. }
  assert (Hbound : task_id t < nextId (world s)) by (now apply task_id_bound).
  assert (Hrest : forall t', In t' (before ++ after) -> task_id t' <> task_id t).
  { intros t' Hin Heq.
    pose proof (inv_one_task s HI) as Hnd. rewrite Hp, map_app in Hnd. simpl in Hnd.
    apply NoDup_remove_2 in Hnd. apply Hnd.
    rewrite <- map_app, <- Heq. now apply in_map. }
  constructor; cbn [world pending].
  - intros i. destruct (Nat.eq_dec i (task_id t)) as [-> | Hne].
    + rewrite Hown. apply chain_extend.
      * now apply monotone_chain.
      * rewrite <- Hold. apply (inv_chain s HI).
    + rewrite Hother by assumption. apply (inv_chain s HI).
  - intros e He.
    destruct (wrote_members _ _ _ _ _ _ Hw (inv_unique s HI) e He)
      as [[Hin [Hne | ->]] | [Heq Hhd]].
    + rewrite Hother by assumption. now apply (inv_latest s HI).
    + apply wrote_nothing_inv in Hw. destruct Hw as [_ Hsame].
      rewrite Hsame. now apply (inv_latest s HI).
    + rewrite Heq, Hown. destruct l; [discriminate | exact Hhd].
  - intros i st Hin. rewrite Hn. rewrite Hh in Hin.
    apply in_app_or in Hin. destruct Hin as [Hin | Hin].
    + apply in_map_iff in Hin. destruct Hin as (x & [= <- _] & _). exact Hbound.
    + now apply (inv_history_ids s HI i st).
  - intros e He. rewrite Hn.
    assert (Hin : In (_id e) (map _id (Deployments (world s))))
      by (rewrite <- Hids; now apply in_map).
    apply in_map_iff in Hin. destruct Hin as (x & <- & Hx).
    now apply (inv_stored_ids s HI).
  - rewrite Hids. apply (inv_unique s HI).
  - intros t' Hin.
    apply in_app_or in Hin. destruct Hin as [Hin | Hin];
      [|apply in_app_or in Hin; destruct Hin as [Hin | Hin]].
    + assert (Hne : task_id t' <> task_id t)
        by (apply Hrest, in_or_app; now left).
      rewrite Hother by assumption. apply (inv_tasks s HI).
      rewrite Hp. apply in_or_app. now left.
    + destruct Hts as [Hts | (d' & k & Hts & Hid & Hhd)];
        fold ts in Hts; rewrite Hts in Hin; [destruct Hin|].
      destruct Hin as [<- | []]. cbn [task_id expected].
      rewrite Hid, Hown. destruct l; simpl in *; now rewrite Hhd.
    + assert (Hne : task_id t' <> task_id t)
        by (apply Hrest, in_or_app; now right).
      rewrite Hother by assumption. apply (inv_tasks s HI).
      rewrite Hp. apply in_or_app. right. now right.
  - rewrite !map_app.
    apply NoDup_replace with (x := task_id t).
    + pose proof (inv_one_task s HI) as Hnd. now rewrite Hp, map_app in Hnd.
    + destruct Hts as [Hts | (d' & k & Hts & Hid & _)]; fold ts in Hts; rewrite Hts.
      * now left.
      * right. simpl. now rewrite Hid.
Qed.

End TaskSteps.

Lemma reachable_Inv (v : Variant) (env : Env) (s : System) :
  reachable v env s -> Inv s.
Proof.
  induction 1 as [|s s' _ IH Hstep].
  - apply Inv_initial.
  - destruct Hstep as [s r h resp ts w' Hr Hrun | s before t after ts w' Hp Hrun].
    + apply Inv_request; [assumption|].
      pose proof (route_effect v env r h (world s) Hr) as He.
      rewrite Hrun in He. exact He.
    + pose proof (Inv_task env s before after t IH Hp) as HI.
      rewrite Hrun in HI. exact HI.
Qed.

(** C3. In every state the system can reach, the status values written to a
    record (its history) only go forward: of two writes to the same record,
    the later one repeats the earlier status or moves on in the order
    building, deploying, {live, error}.  So nothing written after
    [deploying] is [building], and nothing written after [live] or [error]
    differs from it.  The status a stored record holds is the one written
    last. *)
Theorem status_only_moves_forward (v : Variant) (env : Env) (s : System) :
  reachable v env s ->
  (forall e, In e (Deployments (world s)) ->
     hd_error (statusHistory (_id e) (history (world s))) = Some (status e)) /\
  (forall i l1 later l2 earlier l3,
     statusHistory i (history (world s)) = l1 ++ later :: l2 ++ earlier :: l3 ->
     forward earlier later /\
     (earlier = deploying -> later <> building) /\
     (earlier = live -> later = live) /\
     (earlier = error -> later = error)).
Proof.
  intros Hreach. pose proof (reachable_Inv v env s Hreach) as HI.
  split; [apply (inv_latest s HI)|].
  intros i l1 later l2 earlier l3 Hsplit.
  assert (Hf : forward earlier later).
  { apply (chain_pairs l1 l2 l3). rewrite <- Hsplit. apply (inv_chain s HI). }
  split; [exact Hf | now apply forward_meaning].
Qed.

(** The sample runs are runs of the system. *)
Lemma reachable_drain (v : Variant) (env : Env) (n : nat) (s : System) :
  reachable v env s -> reachable v env (drain env n s).
Proof.
  revert s. induction n as [|n IH]; intros s Hs; [exact Hs|].
  cbn [drain]. destruct (pending s) as [|t rest] eqn:Hp; [exact Hs|].
  apply IH. apply reachable_step with (s := s); [exact Hs|].
  exact (step_task v env s [] t rest
           (fst (runTask env t (world s))) (snd (runTask env t (world s)))
           Hp (surjective_pairing _)).
Qed.

Lemma result_eta (x : (Response * list Task) * World) :
  x = ((answer x, started x), after x).
Proof. now destruct x as [[a b] c]. Qed.

Lemma reachable_justCreated (v : Variant) (env : Env) :
  reachable v env (Sample.justCreated v env).
Proof.
  apply reachable_step with (s := initial); [constructor|].
  unfold Sample.justCreated, Sample.serve.
  destruct (route v env (POST_deploy Sample.bearer7 Sample.demo [])) as [h|] eqn:Hr;
    [|destruct v; simpl in Hr; apply behind_upload_none in Hr;
      destruct Hr as [Hfiles _]; now elim Hfiles].
  exact (step_request v env initial _ h
           (answer (h emptyWorld)) (started (h emptyWorld)) (after (h emptyWorld))
           Hr (result_eta _)).
Qed.

(** The demo deployment from creation to live. *)
Lemma status_only_moves_forward_witness :
  reachable Full Sample.env (Sample.settled Full Sample.env) /\
  statusHistory 0 (history (world (Sample.settled Full Sample.env))) =
    [live; deploying; deploying; building] /\
  (forall e, In e (Deployments (world (Sample.settled Full Sample.env))) ->
     hd_error (statusHistory (_id e)
                 (history (world (Sample.settled Full Sample.env)))) =
       Some (status e)) /\
  forward building live /\
  forward deploying live.
Proof.
  assert (Hreach : reachable Full Sample.env (Sample.settled Full Sample.env))
    by (apply reachable_drain, reachable_justCreated).
  destruct (status_only_moves_forward Full Sample.env
              (Sample.settled Full Sample.env) Hreach) as [Hlatest Hpairs].
  split; [exact Hreach|].
  split; [vm_compute; reflexivity|].
  split; [exact Hlatest|].
  split.
  - apply (Hpairs 0 [] live [deploying; deploying] building []).
    vm_compute; reflexivity.
  - apply (Hpairs 0 [] live [] deploying [deploying; building]).
    vm_compute; reflexivity.
Defined.

(** * Failures during creation and during the background process *)

Section Failures.

Variable env : Env.

(** No task removes a record. *)
Lemma runTask_keeps_records (t : Task) (w : World) :
  map _id (Deployments (snd (runTask env t w))) = map _id (Deployments w).
Proof.
  destruct (runTask_summary env t w) as (l & Hw & _).
  exact (wrote_ids _ _ _ _ _ _ Hw).
Qed.

(** When [processDeployment] ends without arming the monitor and no database
    call failed, its [catch] has stored [error]. *)
Lemma processDeployment_failure (d stored : Deployment) (files : list File) (w : World) :
  validate d = true ->
  findById (_id d) (Deployments w) = Some stored ->
  fst (runTask env (ProcessDeployment d files) w) = [] ->
  dbErrors (snd (runTask env (ProcessDeployment d files) w)) = dbErrors w ->
  exists stored',
    findById (_id d)
      (Deployments (snd (runTask env (ProcessDeployment d files) w))) = Some stored' /\
    status stored' = error.
Proof.
  intros Hvalid Hstored.
  assert (Hex : existsb (fun e => (_id e =? _id d)%nat) (Deployments w) = true)
    by (apply existsb_findById; eauto).
  unfold validate in Hvalid.
  unfold runTask, processDeployment; run.
  rewrite Hvalid; run.
  repeat (rewrite ?existsb_updateOne, ?Hex, ?Hvalid; run; branch; run);
    rewrite ?existsb_updateOne, ?Hex, ?Hvalid; run;
    intros Hts Herr;
    first
      [ discriminate Hts
      | exfalso; revert Herr; clear; intros Herr; lia
      | rewrite ?findById_updateOne_same by reflexivity;
        rewrite Hstored; eexists; split; reflexivity ].
Qed.

End Failures.

(** C4, the sentence as written, fails for the provider call: the provider
    throws, the caller has been answered 200 "Deployment started", and the
    failure shows only in the record, which ends in [error]. *)
Lemma provider_failure_is_answered_200 :
  createService Sample.providerDown 4 (Some "demo"%string) None = None /\
  statusCode (answer (Sample.serve Full Sample.providerDown
      (POST_deploy Sample.bearer7 Sample.demo []) emptyWorld)) = 200 /\
  pending (Sample.settled Full Sample.providerDown) = [] /\
  map status (Deployments (world (Sample.settled Full Sample.providerDown))) = [error].
Proof. vm_compute. repeat split. Qed.

(** C4 (as the code has it).  In the full server:
    - an exception while the record is created (after the availability check
      has passed) is caught at the request boundary and answered with
      500 "Deployment failed"; nothing is stored and nothing is started;
    - a creation answered with 200 has stored the record in [building] and
      started [processDeployment] on it, whose outcome the answer does not
      wait for;
    - [processDeployment] removes no record, whatever happens in it, and
      when it ends without arming the monitor (packaging, the provider call
      or the custom-domain call threw) and no database call failed, the
      stored record is in [error]. *)
Theorem creation_failure_is_answered_500_and_later_failure_marks_error
    (env : Env) (user : ObjectId) (b : DeployBody) (files : list File) (w : World) :
  (dbFault env (ticks w) = false ->
   find (fun e => Js.same (domain e) (body_domain b)) (Deployments w) = None ->
   statusCode (answer (deploy env user b files w)) <> 200 ->
   answer (deploy env user b files w) = deploymentFailed /\
   Deployments (after (deploy env user b files w)) = Deployments w /\
   started (deploy env user b files w) = []) /\
  (statusCode (answer (deploy env user b files w)) = 200 ->
   exists doc,
     Deployments (after (deploy env user b files w)) = Deployments w ++ [doc] /\
     status doc = building /\
     validate doc = true /\
     started (deploy env user b files w) = [ProcessDeployment doc files]) /\
  (forall d fs w1,
     map _id (Deployments (snd (runTask env (ProcessDeployment d fs) w1))) =
       map _id (Deployments w1) /\
     forall stored,
       validate d = true ->
       findById (_id d) (Deployments w1) = Some stored ->
       fst (runTask env (ProcessDeployment d fs) w1) = [] ->
       dbErrors (snd (runTask env (ProcessDeployment d fs) w1)) = dbErrors w1 ->
       exists stored',
         findById (_id d)
           (Deployments (snd (runTask env (ProcessDeployment d fs) w1))) =
           Some stored' /\
         status stored' = error).
Proof.
  split; [|split].
  - intros Hdb Hfree Hcode.
    split; [now apply deploy_creation_fails|].
    destruct (deploy_not_created env user b files w Hcode) as (Hds & _ & Hts).
    now split.
  - intros Hok.
    destruct (deploy_created env user b files w Hok)
      as (doc & _ & _ & Hst & _ & _ & Hv & Hds & _ & _ & _ & Hts).
    exists doc. repeat split; assumption.
  - intros d fs w1. split; [apply runTask_keeps_records|].
    intros stored. apply processDeployment_failure.
Qed.

(** The insert fails: 500, nothing stored.  The provider is down: the record
    stays and is marked. *)
Lemma creation_failure_is_answered_500_and_later_failure_marks_error_witness :
  answer (deploy Sample.insertFails 7 Sample.demo [] emptyWorld) = deploymentFailed /\
  Deployments (after (deploy Sample.insertFails 7 Sample.demo [] emptyWorld)) = [] /\
  exists doc stored',
    started (deploy Sample.providerDown 7 Sample.demo [] emptyWorld) =
      [ProcessDeployment doc []] /\
    findById (_id doc)
      (Deployments (snd (runTask Sample.providerDown (ProcessDeployment doc [])
         (after (deploy Sample.providerDown 7 Sample.demo [] emptyWorld))))) =
      Some stored' /\
    status stored' = error.
Proof.
  destruct (creation_failure_is_answered_500_and_later_failure_marks_error
              Sample.insertFails 7 Sample.demo [] emptyWorld) as (Hcreate & _ & _).
  destruct Hcreate as (Ha & Hd & _);
    [reflexivity | reflexivity | vm_compute; discriminate |].
  split; [exact Ha|]. split; [exact Hd|].
  destruct (creation_failure_is_answered_500_and_later_failure_marks_error
              Sample.providerDown 7 Sample.demo [] emptyWorld) as (_ & Hstored & Hlater).
  destruct Hstored as (doc & Hds & _ & Hvalid & Hts); [reflexivity|].
  destruct (Hlater doc []
              (after (deploy Sample.providerDown 7 Sample.demo [] emptyWorld)))
    as [_ Hmark].
  injection Hts as <-.
  destruct (Hmark _ Hvalid eq_refl eq_refl eq_refl) as (stored' & Hfind & Herr).
  eexists _, stored'. split; [reflexivity|]. split; [exact Hfind | exact Herr].
Defined.

(** * From building to live *)

(** C7, the sentence as written, fails in the full server: the record goes
    live with the URL the provider reports, not with https:// and its
    domain. *)
Lemma full_server_stores_the_url_of_the_provider :
  map domain (Deployments (world (Sample.settled Full Sample.env))) =
    [Some "demo.ntl.cloud"%string] /\
  map status (Deployments (world (Sample.settled Full Sample.env))) = [live] /\
  map deploymentUrl (Deployments (world (Sample.settled Full Sample.env))) =
    [Some "https://demo-x1.onrender.com"%string] /\
  map deploymentUrl (Deployments (world (Sample.settled Full Sample.env))) <>
    [Some ("https://" ++ "demo.ntl.cloud")%string].
Proof. vm_compute. repeat split. discriminate. Qed.

(** C7 (as the code has it).  A creation with domain [d] that is answered
    with 200 has stored the record in [building], with no URL yet.
    - Simplified variant: when the timer fires and its save goes through, the
      stored record is [live] and its URL is https:// followed by [d].
    - Full server: when a poll of the monitor sees the provider report live
      or ready and its save goes through, the stored record is [live] and
      its URL is the one the provider reported. *)
Theorem created_record_starts_building_and_goes_live
    (v : Variant) (env : Env) (authorization : option string)
    (b : DeployBody) (files : list File) (h : Handler) (w : World) (d : string) :
  route v env (POST_deploy authorization b files) = Some h ->
  body_domain b = Some d ->
  statusCode (answer (h w)) = 200 ->
  exists doc,
    Deployments (after (h w)) = Deployments w ++ [doc] /\
    status doc = building /\
    domain doc = Some d /\
    deploymentUrl doc = None /\
    match v with
    | Simplified =>
        started (h w) = [GoLive doc (Some d)] /\
        forall w2 stored,
          findById (_id doc) (Deployments w2) = Some stored ->
          dbFault env (ticks w2) = false ->
          exists stored',
            findById (_id doc)
              (Deployments (snd (runTask env (GoLive doc (Some d)) w2))) =
              Some stored' /\
            status stored' = live /\
            deploymentUrl stored' = Some ("https://" ++ d)%string
    | Full =>
        started (h w) = [ProcessDeployment doc files] /\
        forall copy attempts w2 stored svc,
          _id copy = _id doc ->
          validate copy = true ->
          findById (_id doc) (Deployments w2) = Some stored ->
          serviceStatus env (ticks w2) (renderServiceId copy) = Some svc ->
          service_status svc = Some "live"%string \/
          service_status svc = Some "ready"%string ->
          dbFault env (S (ticks w2)) = false ->
          exists stored',
            findById (_id doc)
              (Deployments (snd (runTask env (CheckStatus copy attempts) w2))) =
              Some stored' /\
            status stored' = live /\
            deploymentUrl stored' = service_url svc
    end.
Proof.
  intros Hr Hdom Hok.
  destruct (authenticateToken env authorization) as [refusal|A] eqn:Ha.
  { exfalso. pose proof (refusal_status env _ _ Ha) as Hcode.
    destruct v; simpl in Hr; apply behind_upload_some in Hr;
      destruct Hr as [-> _];
      rewrite (guarded_refused _ _ _ _ _ Ha) in Hok;
      cbn [answer fst] in Hok; rewrite Hok in Hcode;
      destruct Hcode; discriminate. }
  destruct v; simpl in Hr; apply behind_upload_some in Hr;
    destruct Hr as [-> _];
    rewrite (guarded_passed _ _ _ _ _ Ha) in *.
  - destruct (deploy_created env A b files w Hok)
      as (doc & _ & _ & Hst & Hd & Hurl & _ & Hds & _ & _ & _ & Hts).
    exists doc. rewrite Hdom in Hd.
    do 5 (split; [assumption|]).
    intros copy attempts w2 stored svc Hid Hvalid Hstored Hsvc Hlive Hdb.
    rewrite <- Hid in *.
    assert (Hl : statusIs svc "live" || statusIs svc "ready" = true).
    { unfold statusIs. destruct Hlive as [-> | ->]; reflexivity. }
    destruct (checkStatus_live env copy stored attempts w2 svc
                Hvalid Hsvc Hl Hdb Hstored) as [_ Hfind].
    eexists. split; [exact Hfind|]. split; reflexivity.
  - destruct (deploy_simplified_created env A b w Hok)
      as (doc & _ & _ & Hst & Hd & Hurl & Hvalid & Hds & _ & _ & _ & Hts).
    exists doc. rewrite Hdom in Hd, Hts.
    do 5 (split; [assumption|]).
    intros w2 stored Hstored Hdb.
    destruct (goLive_saved env (Some d) doc stored w2 Hvalid Hdb Hstored)
      as [_ Hfind].
    eexists. split; [exact Hfind|]. split; reflexivity.
Qed.

(** The demo deployment in the simplified variant. *)
Lemma created_record_starts_building_and_goes_live_witness :
  statusCode (answer (Sample.created Simplified)) = 200 /\
  exists doc stored',
    Deployments (after (Sample.created Simplified)) = [doc] /\
    status doc = building /\
    findById (_id doc)
      (Deployments (snd (runTask Sample.env (GoLive doc (Some "demo.ntl.cloud"%string))
         (after (Sample.created Simplified))))) = Some stored' /\
    status stored' = live /\
    deploymentUrl stored' = Some "https://demo.ntl.cloud"%string.
Proof.
  split; [reflexivity|].
  destruct (created_record_starts_building_and_goes_live Simplified Sample.env
              Sample.bearer7 Sample.demo []
              (guarded Sample.env Sample.bearer7
                 (fun user => deploy_simplified Sample.env user Sample.demo))
              emptyWorld "demo.ntl.cloud"%string
              eq_refl eq_refl eq_refl)
    as (doc & Hds & Hst & _ & _ & _ & Hlive).
  assert (Hfound : findById (_id doc) (Deployments (after (Sample.created Simplified))) =
                   Some doc).
  { change (Deployments (after (Sample.created Simplified)))
      with (Deployments (after (guarded Sample.env Sample.bearer7
              (fun user => deploy_simplified Sample.env user Sample.demo) emptyWorld))).
    rewrite Hds. unfold findById. simpl. now rewrite Nat.eqb_refl. }
  destruct (Hlive (after (Sample.created Simplified)) doc Hfound eq_refl)
    as (stored' & Hfind & Hs & Hu).
  exists doc, stored'.
  split; [exact Hds|]. split; [exact Hst|].
  split; [exact Hfind|]. split; [exact Hs | exact Hu].
Defined.

(** * JavaScript strings *)

Section JsStrings.

Lemma split_nonempty (sep : ascii) (s : string) : Js.split sep s <> [].
Proof.
  destruct s as [|c s]; simpl; [discriminate|].
  destruct (Ascii.eqb c sep); [discriminate|].
  destruct (Js.split sep s); discriminate.
Qed.

(** Splitting after a first word that has no separator in it. *)
Lemma split_first_word (sep : ascii) (word rest : string) :
  Js.split sep word = [word] ->
  Js.split sep (word ++ String sep rest)%string = word :: Js.split sep rest.
Proof.
  induction word as [|c word IH]; simpl; intros Hword.
  - now rewrite Ascii.eqb_refl.
  - destruct (Ascii.eqb c sep); [discriminate|].
    destruct (Js.split sep word) as [|hd tl] eqn:E; [now elim (split_nonempty sep word)|].
    injection Hword as -> ->.
    now rewrite IH.
Qed.

Lemma endsWith_spec (s suffix : string) :
  Js.endsWith s suffix = true <-> exists front, s = (front ++ suffix)%string.
Proof.
  induction s as [|c s IH]; cbn [Js.endsWith].
  - rewrite orb_false_r, String.eqb_eq. split.
    + intros <-. now exists "".
    + intros [front H]. destruct front, suffix; try discriminate. reflexivity.
  - rewrite orb_true_iff, IH, String.eqb_eq. split.
    + intros [<- | [front ->]]; [now exists "" | now exists (String c front)].
    + intros [[|c' front] H]; simpl in H.
      * left. now symmetry.
      * right. injection H as _ ->. now exists front.
Qed.




End JsStrings.

(** * The token check *)

Section Tokens.

Variable env : Env.

Lemma truthy_app_sep (word rest : string) (sep : ascii) :
  Js.truthy (Some (word ++ String sep rest)%string) = true.
Proof. destruct word; reflexivity. Qed.

(** The token is the second word of the header; the first word is not looked
    at. *)
Lemma authenticateToken_second_word (word rest : string) :
  Js.split " " word = [word] ->
  authenticateToken env (Some (word ++ String " " rest)%string) =
    match Js.split " " rest with
    | token :: _ =>
        if String.eqb token "" then
          inl (res_status_json 401 (errorBody "Access token required"))
        else match jwtVerify env token with
             | Some u => inr u
             | None => inl (res_status_json 403 (errorBody "Invalid token"))
             end
    | [] => inl (res_status_json 401 (errorBody "Access token required"))
    end.
Proof.
  intros Hword. unfold authenticateToken.
  rewrite truthy_app_sep. cbn [Js.interpolate].
  rewrite (split_first_word " " word rest Hword). cbn [nth_error].
  destruct (Js.split " " rest) as [|token tl]; [reflexivity|].
  cbn [Js.truthy Js.interpolate]. destruct (String.eqb token ""); reflexivity.
Qed.

End Tokens.

(** X1. [authenticateToken] never looks at the first word of the
    Authorization header: with any word that has no space in it in the place
    of Bearer, the outcome (the user, or the 401 or 403) is the same. *)
Theorem authenticateToken_ignores_the_scheme (env : Env) (scheme rest : string) :
  Js.split " " scheme = [scheme] ->
  authenticateToken env (Some (scheme ++ " " ++ rest)%string) =
  authenticateToken env (Some ("Bearer " ++ rest)%string).
Proof.
  intros Hscheme.
  change (scheme ++ " " ++ rest)%string with (scheme ++ String " " rest)%string.
  change ("Bearer " ++ rest)%string with ("Bearer" ++ String " " rest)%string.
  rewrite (authenticateToken_second_word env scheme rest Hscheme).
  now rewrite (authenticateToken_second_word env "Bearer" rest eq_refl).
Qed.

(** A Basic header carrying a valid token passes as user 7. *)
Lemma authenticateToken_ignores_the_scheme_witness :
  Js.split " " "Basic" = ["Basic"%string] /\
  authenticateToken Sample.env (Some "Basic token-of-7"%string) = inr 7 /\
  authenticateToken Sample.env (Some ("Basic" ++ " " ++ "token-of-7")%string) =
  authenticateToken Sample.env (Some ("Bearer " ++ "token-of-7")%string).
Proof.
  split; [reflexivity|]. split; [reflexivity|].
  apply (authenticateToken_ignores_the_scheme Sample.env "Basic" "token-of-7").
  reflexivity.
Defined.

(** X2. A request to a route behind [authenticateToken] whose token is
    missing or not valid is answered by the middleware, with 401 or 403 (401
    when there is no Authorization header at all); the handler does not run:
    the world is left as it was, not even a database call is made, and no
    background work starts. *)
Theorem refused_request_changes_nothing (v : Variant) (env : Env)
    (authorization : option string) (refusal : Response)
    (r : Request) (h : Handler) (w : World) :
  presented r = Some authorization ->
  authenticateToken env authorization = inl refusal ->
  route v env r = Some h ->
  h w = ((refusal, []), w) /\
  (statusCode refusal = 401 \/ statusCode refusal = 403) /\
  (authorization = None -> statusCode refusal = 401).
Proof.
  intros Hp Ha Hr.
  split; [|split].
  - destruct r, v; simpl in Hp, Hr; try discriminate;
      injection Hp as ->;
      first [ injection Hr as <-
            | apply behind_upload_some in Hr; destruct Hr as [-> _] ];
      apply (guarded_refused env _ _ _ _ Ha).
  - exact (refusal_status env _ _ Ha).
  - intros ->. cbv in Ha. now injection Ha as <-.
Qed.

(** User 7's deletion request arrives with a token that does not verify. *)
Lemma refused_request_changes_nothing_witness :
  authenticateToken Sample.env (Some "Bearer forged"%string) =
    inl (res_status_json 403 (errorBody "Invalid token")) /\
  Sample.serve Full Sample.env (DELETE_deployment (Some "Bearer forged"%string) 0)
    Sample.twoOwners =
    ((res_status_json 403 (errorBody "Invalid token"), []), Sample.twoOwners).
Proof.
  split; [reflexivity|].
  apply (refused_request_changes_nothing Full Sample.env
           (Some "Bearer forged"%string)
           (res_status_json 403 (errorBody "Invalid token"))
           (DELETE_deployment (Some "Bearer forged"%string) 0)
           (guarded Sample.env (Some "Bearer forged"%string)
              (fun user => deleteDeployment Sample.env user 0))
           Sample.twoOwners); reflexivity.
Defined.

(** * Registration and login *)

Section Accounts.

Variable env : Env.

Lemma find_email_some (em : string) (us : list User) (u : User) :
  find (fun x => String.eqb (email x) em) us = Some u ->
  In u us /\ email u = em.
Proof.
  intros H. apply find_some in H. now rewrite String.eqb_eq in H.
Qed.

Lemma find_email_none (em : string) (us : list User) :
  find (fun x => String.eqb (email x) em) us = None <->
  forall x, In x us -> email x <> em.
Proof.
  split.
  - intros H x Hx He. apply (find_none _ _ H) in Hx.
    apply String.eqb_neq in Hx. contradiction.
  - intros H. destruct (find _ us) as [u|] eqn:E; [|reflexivity].
    apply find_email_some in E. destruct E as [Hin He]. now elim (H u Hin).
Qed.

Lemma find_email_new (em : string) (us : list User) (u : User) :
  (forall x, In x us -> email x <> em) -> email u = em ->
  find (fun x => String.eqb (email x) em) (us ++ [u]) = Some u.
Proof.
  intros Hfresh He. induction us as [|x us IH]; simpl.
  - now rewrite He, String.eqb_refl.
  - destruct (String.eqb (email x) em) eqn:E.
    + apply String.eqb_eq in E. now elim (Hfresh x (or_introl eq_refl)).
    + apply IH. intros y Hy. apply Hfresh. now right.
Qed.

Lemma existsb_email_false (em : string) (us : list User) :
  existsb (fun x => String.eqb (email x) em) us = false ->
  forall x, In x us -> email x <> em.
Proof.
  intros H x Hx He.
  assert (Ht : existsb (fun x => String.eqb (email x) em) us = true).
  { apply existsb_exists. exists x. split; [assumption | now apply String.eqb_eq]. }
  congruence.
Qed.

(** What a registration answered with 201 has done. *)
Lemma register_created (e pw : option string) (w : World) :
  statusCode (answer (register env e pw w)) = 201 ->
  exists em pass,
    e = Some em /\ pw = Some pass /\ em <> "" /\ pass <> "" /\
    bcryptHash env (S (ticks w)) pass <> "" /\
    (forall x, In x (Users w) -> email x <> em) /\
    Users (after (register env e pw w)) =
      Users w ++
      [{| user_id := nextId w; email := em;
          password := bcryptHash env (S (ticks w)) pass;
          plan := "free"; deployments := [];
          user_createdAt := dateNow env (S (S (ticks w))) |}] /\
    Deployments (after (register env e pw w)) = Deployments w /\
    ticks (after (register env e pw w)) = 5 + ticks w /\
    answer (register env e pw w) =
      res_status_json 201
        (authBody "User created successfully"
           (jwtSign env (4 + ticks w) (nextId w)) (nextId w) em "free").
Proof.
  unfold register.
  destruct e as [em|], pw as [pass|]; run; try discriminate.
  destruct (String.eqb em "" || String.eqb pass "") eqn:Hempty; run; [discriminate|].
  destruct (dbFault env (ticks w)); run; [discriminate|].
  destruct (find _ (Users w)) eqn:Hfind; run; [discriminate|].
  cbn [email password user_id plan].
  destruct (String.eqb em "" || String.eqb (bcryptHash env _ pass) "") eqn:Hhash;
    run; [discriminate|].
  destruct (dbFault env _); run; [discriminate|].
  destruct (existsb _ (Users w)) eqn:Hex; run; [discriminate|].
  intros _. apply orb_false_iff in Hempty, Hhash.
  destruct Hempty as [He Hp]. destruct Hhash as [_ Hh].
  apply String.eqb_neq in He, Hp, Hh.
  exists em, pass. repeat split; try assumption.
  now apply existsb_email_false.
Qed.

End Accounts.

(** X3. A registration without an email or without a password (absent or
    empty) is answered 400 "Email and password required" before anything
    else happens: the world is exactly as before, no database call is
    made. *)
Theorem register_requires_email_and_password (env : Env)
    (e pw : option string) (w : World) :
  Js.truthy e = false \/ Js.truthy pw = false ->
  register env e pw w =
    ((res_status_json 400 (errorBody "Email and password required"), []), w).
Proof.
  unfold register, Js.truthy. intros H.
  destruct e as [em|], pw as [pass|]; run; try reflexivity.
  destruct (String.eqb em ""), (String.eqb pass ""); run; try reflexivity.
  destruct H; discriminate.
Qed.

Lemma register_requires_email_and_password_witness :
  register Sample.env (Some "ada@example.org"%string) (Some ""%string)
    Sample.registered =
    ((res_status_json 400 (errorBody "Email and password required"), []),
     Sample.registered).
Proof.
  apply (register_requires_email_and_password Sample.env).
  right. reflexivity.
Defined.

(** X4. A registration under an email that a stored user already has is
    answered 400 "User already exists" (when the lookup is answered) and
    never adds or changes a user, whatever else happens. *)
Theorem register_refuses_a_known_email (env : Env)
    (em pass : string) (w : World) (u : User) :
  In u (Users w) ->
  email u = em ->
  Users (after (register env (Some em) (Some pass) w)) = Users w /\
  statusCode (answer (register env (Some em) (Some pass) w)) <> 201 /\
  (em <> "" -> pass <> "" -> dbFault env (ticks w) = false ->
   answer (register env (Some em) (Some pass) w) =
     res_status_json 400 (errorBody "User already exists")).
Proof.
  intros Hin He.
  assert (Hfind : exists x, find (fun x => String.eqb (email x) em) (Users w) = Some x).
  { destruct (find _ (Users w)) as [x|] eqn:E; [now exists x|].
    rewrite find_email_none in E. now elim (E u Hin). }
  destruct Hfind as [x Hx].
  unfold register; run.
  destruct (String.eqb em "" || String.eqb pass "") eqn:Hempty; run.
  - repeat split; try discriminate.
    intros H1 H2. apply String.eqb_neq in H1, H2.
    rewrite H1, H2 in Hempty. discriminate.
  - destruct (dbFault env (ticks w)); run.
    + repeat split; discriminate.
    + rewrite Hx; run. repeat split; discriminate.
Qed.

Lemma register_refuses_a_known_email_witness :
  map email (Users Sample.registered) = ["ada@example.org"%string] /\
  answer (register Sample.env (Some "ada@example.org"%string)
            (Some "another"%string) Sample.registered) =
    res_status_json 400 (errorBody "User already exists") /\
  Users (after (register Sample.env (Some "ada@example.org"%string)
                  (Some "another"%string) Sample.registered)) =
    Users Sample.registered.
Proof.
  split; [vm_compute; reflexivity|].
  assert (Hin : exists u, In u (Users Sample.registered) /\
                          email u = "ada@example.org"%string).
  { vm_compute. eexists. split; [left; reflexivity | reflexivity]. }
  destruct Hin as (u & Hin & He).
  destruct (register_refuses_a_known_email Sample.env "ada@example.org" "another"
              Sample.registered u Hin He) as (Hu & _ & Ha).
  split; [|exact Hu].
  apply Ha; [discriminate | discriminate | reflexivity].
Defined.

(** X5. A registration answered with 201 has added exactly one user: its id
    is the next one given out, its email is the one given and was not taken, its plan is
    "free", and the password it stores is what [bcrypt.hash] returned for the
    password of the request; the token in the answer is signed for the new
    user. *)
Theorem register_stores_the_hash (env : Env) (e pw : option string) (w : World) :
  statusCode (answer (register env e pw w)) = 201 ->
  exists em pass,
    e = Some em /\ pw = Some pass /\
    (forall x, In x (Users w) -> email x <> em) /\
    Users (after (register env e pw w)) =
      Users w ++
      [{| user_id := nextId w; email := em;
          password := bcryptHash env (S (ticks w)) pass;
          plan := "free"; deployments := [];
          user_createdAt := dateNow env (S (S (ticks w))) |}] /\
    Deployments (after (register env e pw w)) = Deployments w /\
    answer (register env e pw w) =
      res_status_json 201
        (authBody "User created successfully"
           (jwtSign env (4 + ticks w) (nextId w)) (nextId w) em "free").
Proof.
  intros Hok.
  destruct (register_created env e pw w Hok)
    as (em & pass & He & Hp & _ & _ & _ & Hfresh & Hu & Hd & _ & Ha).
  exists em, pass. repeat split; assumption.
Qed.

Lemma register_stores_the_hash_witness :
  statusCode (answer (register Sample.env Sample.mail Sample.secret emptyWorld)) = 201 /\
  map password (Users Sample.registered) = ["saltB:correct horse"%string].
Proof.
  assert (Hcode : statusCode (answer (register Sample.env Sample.mail Sample.secret
                                        emptyWorld)) = 201)
    by (vm_compute; reflexivity).
  split; [exact Hcode|].
  destruct (register_stores_the_hash Sample.env Sample.mail Sample.secret emptyWorld
              Hcode) as (em & pass & He & Hp & _ & Hu & _).
  unfold Sample.registered. rewrite Hu.
  injection He as <-. injection Hp as <-. vm_compute. reflexivity.
Defined.

(** X6. Registration and login compose: when bcrypt verifies the hashes it
    makes, a login with the credentials of a registration that was answered
    201 succeeds on the world the registration left (if the lookup is
    answered), and names the same user: the same id, email and plan. *)
Theorem register_then_login (env : Env) (e pw : option string) (w : World) :
  (forall t pass, bcryptCompare env pass (bcryptHash env t pass) = true) ->
  statusCode (answer (register env e pw w)) = 201 ->
  dbFault env (ticks (after (register env e pw w))) = false ->
  statusCode (answer (login env e pw (after (register env e pw w)))) = 200 /\
  field "user" (body (answer (login env e pw (after (register env e pw w))))) =
    field "user" (body (answer (register env e pw w))) /\
  Users (after (login env e pw (after (register env e pw w)))) =
    Users (after (register env e pw w)).
Proof.
  intros Hbcrypt Hok.
  destruct (register_created env e pw w Hok)
    as (em & pass & -> & -> & _ & _ & _ & Hfresh & Hu & _ & _ & Ha).
  rewrite Ha.
  set (w1 := after (register env (Some em) (Some pass) w)) in *.
  intros Hdb.
  unfold login; run. rewrite Hdb; run. rewrite Hu.
  erewrite find_email_new; [|exact Hfresh|reflexivity]; run.
  cbn [password]. rewrite Hbcrypt; run.
  repeat split. now rewrite Hu.
Qed.

Lemma register_then_login_witness :
  statusCode (answer (login Sample.env Sample.mail Sample.secret Sample.registered)) = 200 /\
  field "user" (body (answer (login Sample.env Sample.mail Sample.secret
                                Sample.registered))) =
    Some (JObject [("id"%string, JObjectId 0);
                   ("email"%string, JString "ada@example.org");
                   ("plan"%string, JString "free")]).
Proof.
  assert (Hcode : statusCode (answer (register Sample.env Sample.mail Sample.secret
                                        emptyWorld)) = 201)
    by (vm_compute; reflexivity).
  destruct (register_then_login Sample.env Sample.mail Sample.secret emptyWorld)
    as (Hok & Huser & _).
  - intros t pass. cbn [bcryptCompare bcryptHash Sample.env].
    destruct (Nat.even t); rewrite String.eqb_refl; [reflexivity | apply orb_true_r].
  - exact Hcode.
  - reflexivity.
  - split; [exact Hok|]. etransitivity; [exact Huser | vm_compute; reflexivity].
Defined.

(** X7. A login is answered 200 only for the email of a stored user whose
    stored hash bcrypt accepts for the password given; the token in the
    answer is signed for that user, and the user object is theirs. *)
Theorem login_succeeds_only_for_a_verified_password (env : Env)
    (e pw : option string) (w : World) :
  statusCode (answer (login env e pw w)) = 200 ->
  exists user pass,
    In user (Users w) /\
    e = Some (email user) /\
    pw = Some pass /\
    bcryptCompare env pass (password user) = true /\
    answer (login env e pw w) =
      res_json (authBody "Login successful"
                  (jwtSign env (S (ticks w)) (user_id user))
                  (user_id user) (email user) (plan user)).
Proof.
  unfold login; run.
  destruct (dbFault env (ticks w)); run; [discriminate|].
  destruct e as [em|]; run; [|discriminate].
  destruct (find _ (Users w)) as [user|] eqn:E; run; [|discriminate].
  destruct pw as [pass|]; run; [|discriminate].
  destruct (bcryptCompare env pass (password user)) eqn:Hc; run; [|discriminate].
  intros _. apply find_email_some in E. destruct E as [Hin <-].
  exists user, pass. repeat split; assumption.
Qed.

Lemma login_succeeds_only_for_a_verified_password_witness :
  statusCode (answer (login Sample.env Sample.mail Sample.secret Sample.registered)) = 200 /\
  exists user,
    In user (Users Sample.registered) /\
    bcryptCompare Sample.env "correct horse" (password user) = true.
Proof.
  assert (Hcode : statusCode (answer (login Sample.env Sample.mail Sample.secret
                                        Sample.registered)) = 200)
    by (vm_compute; reflexivity).
  split; [exact Hcode|].
  destruct (login_succeeds_only_for_a_verified_password Sample.env Sample.mail
              Sample.secret Sample.registered Hcode)
    as (user & pass & Hin & _ & Hp & Hc & _).
  exists user. split; [exact Hin|]. injection Hp as <-. exact Hc.
Defined.

(** X8. A login for an email that no user has and a login with a password
    that bcrypt rejects are answered alike, 401 "Invalid credentials", and
    leave the collections as they were. *)
Theorem login_failures_are_answered_alike (env : Env)
    (em pass : string) (w : World) :
  dbFault env (ticks w) = false ->
  (forall x, In x (Users w) -> email x = em ->
             bcryptCompare env pass (password x) = false) ->
  login env (Some em) (Some pass) w =
    ((res_status_json 401 (errorBody "Invalid credentials"), []),
     with_ticks (S (ticks w)) w).
Proof.
  intros Hdb Hreject. unfold login; run. rewrite Hdb; run.
  destruct (find _ (Users w)) as [user|] eqn:E; run; [|reflexivity].
  apply find_email_some in E. destruct E as [Hin He].
  now rewrite (Hreject user Hin He).
Qed.

Lemma login_failures_are_answered_alike_witness :
  answer (login Sample.env (Some "nobody@example.org"%string)
            (Some "correct horse"%string) Sample.registered) =
  answer (login Sample.env (Some "ada@example.org"%string)
            (Some "wrong"%string) Sample.registered).
Proof.
  rewrite (login_failures_are_answered_alike Sample.env "nobody@example.org"
             "correct horse" Sample.registered eq_refl).
  - rewrite (login_failures_are_answered_alike Sample.env "ada@example.org"
               "wrong" Sample.registered eq_refl).
    + reflexivity.
    + vm_compute. intros x [<- | []] _. reflexivity.
  - vm_compute. intros x [<- | []] He. discriminate He.
Defined.

(** * Routes that only read *)

Section Reading.

Variable env : Env.

Lemma login_same_store (e pw : option string) (w : World) :
  same_store w (after (login env e pw w)) /\ started (login env e pw w) = [].
Proof.
  unfold login, same_store; run.
  destruct (dbFault env (ticks w)); run; [now repeat split|].
  destruct e as [em|]; [destruct (find _ (Users w))|]; run; try (now repeat split).
  destruct pw; run; [|now repeat split].
  destruct (negb _); run; now repeat split.
Qed.

Lemma listDeployments_same_store (user : ObjectId) (w : World) :
  same_store w (after (listDeployments env user w)) /\
  started (listDeployments env user w) = [].
Proof.
  rewrite listDeployments_run. unfold same_store.
  destruct (dbFault env (ticks w)); run; now repeat split.
Qed.

Lemma getDeployment_same_store (user : ObjectId) (id : Param) (w : World) :
  same_store w (after (getDeployment env user id w)) /\
  started (getDeployment env user id w) = [].
Proof.
  unfold getDeployment, same_store; destruct id as [i|]; run;
    [|now repeat split].
  repeat (branch; run); now repeat split.
Qed.

Lemma guarded_same_store (authorization : option string)
    (h : ObjectId -> Handler) (w : World) :
  (forall user, same_store w (after (h user w)) /\ started (h user w) = []) ->
  same_store w (after (guarded env authorization h w)) /\
  started (guarded env authorization h w) = [].
Proof.
  intros Hh. unfold guarded.
  destruct (authenticateToken env authorization); [|apply Hh].
  unfold same_store. now repeat split.
Qed.

End Reading.

(** X9. Login, the listing and the lookup of one deployment only read: they
    leave both collections (and the ids still to be given out) exactly as
    they were and start no background work, whatever they answer. *)
Theorem reading_routes_change_nothing (v : Variant) (env : Env)
    (r : Request) (h : Handler) (w : World) :
  readsOnly r = true ->
  route v env r = Some h ->
  same_store w (after (h w)) /\ started (h w) = [].
Proof.
  intros Hread Hr.
  destruct r, v; simpl in Hread, Hr; try discriminate; injection Hr as <-.
  - apply login_same_store.
  - apply login_same_store.
  - apply guarded_same_store; intros; apply listDeployments_same_store.
  - apply guarded_same_store; intros; apply listDeployments_same_store.
  - apply guarded_same_store; intros; apply getDeployment_same_store.
Qed.

Lemma reading_routes_change_nothing_witness :
  same_store Sample.twoOwners
    (after (Sample.serve Full Sample.env (GET_deployment Sample.bearer7 0)
              Sample.twoOwners)) /\
  statusCode (answer (Sample.serve Full Sample.env (GET_deployment Sample.bearer7 0)
                        Sample.twoOwners)) = 200.
Proof.
  split; [|vm_compute; reflexivity].
  apply (reading_routes_change_nothing Full Sample.env
           (GET_deployment Sample.bearer7 0)
           (guarded Sample.env Sample.bearer7
              (fun user => getDeployment Sample.env user 0))
           Sample.twoOwners); reflexivity.
Defined.

(** * One deployment: lookup and deletion *)

Section OneDeployment.

Variable env : Env.

Lemma same_spec (a b : option string) : Js.same a b = true <-> a = b.
Proof.
  destruct a as [x|], b as [y|]; simpl; try (split; [discriminate | congruence]).
  - rewrite String.eqb_eq. split; congruence.
  - split; reflexivity.
Qed.

Lemma findById_other_updateOne (i : ObjectId) (d : Deployment) (ds : list Deployment) :
  i <> _id d -> findById i (updateOne d ds) = findById i ds.
Proof.
  intros Hne. unfold findById.
  induction ds as [|x ds IH]; simpl; [reflexivity|].
  destruct (_id x =? _id d)%nat eqn:E; simpl.
  - apply Nat.eqb_eq in E.
    destruct (_id x =? i)%nat eqn:E'; [apply Nat.eqb_eq in E'; congruence | reflexivity].
  - destruct (_id x =? i)%nat; [reflexivity | exact IH].
Qed.

Lemma find_owned_stored (ds : list Deployment) (doc : Deployment) :
  (forall e, In e ds -> _id e <> _id doc) ->
  find (fun e => (_id e =? _id doc)%nat && (userId e =? userId doc)%nat)
    (ds ++ [doc]) = Some doc.
Proof.
  intros Hfresh.
  induction ds as [|x ds IH]; simpl.
  - now rewrite !Nat.eqb_refl.
  - destruct (_id x =? _id doc)%nat eqn:E.
    + apply Nat.eqb_eq in E. now elim (Hfresh x (or_introl eq_refl)).
    + apply IH. intros e He. apply Hfresh. now right.
Qed.

(** What the lookup answers, by cases. *)
Lemma getDeployment_run (user id : ObjectId) (w : World) :
  getDeployment env user id w =
  if dbFault env (ticks w)
  then ((internalServerError, []),
        with_dbErrors (S (dbErrors w)) (with_ticks (S (ticks w)) w))
  else match find (fun e => (_id e =? id)%nat && (userId e =? user)%nat)
               (Deployments w) with
       | Some d => ((res_json (JDocument d), []), with_ticks (S (ticks w)) w)
       | None => ((res_status_json 404 (errorBody "Deployment not found"), []),
                  with_ticks (S (ticks w)) w)
       end.
Proof.
  unfold getDeployment; run.
  destruct (dbFault env (ticks w)); run; [reflexivity|].
  destruct (find _ (Deployments w)); reflexivity.
Qed.

End OneDeployment.

(** X10. GET /api/deployments/:id answers 200 only with a stored record that
    has the id asked for and belongs to the caller.  A record of another
    user is answered exactly like no record at all: 404 "Deployment not
    found". *)
Theorem lookup_returns_only_own_record (env : Env)
    (authorization : option string) (A id : ObjectId) (h : Handler) (w : World) :
  route Full env (GET_deployment authorization id) = Some h ->
  authenticateToken env authorization = inr A ->
  (statusCode (answer (h w)) = 200 ->
     exists d, body (answer (h w)) = JDocument d /\
               In d (Deployments w) /\ _id d = id /\ userId d = A) /\
  ((forall d, In d (Deployments w) -> _id d = id -> userId d <> A) ->
   dbFault env (ticks w) = false ->
   answer (h w) = res_status_json 404 (errorBody "Deployment not found")).
Proof.
  intros Hr Ha. simpl in Hr. injection Hr as <-.
  rewrite (guarded_passed _ _ _ _ _ Ha), getDeployment_run.
  split.
  - destruct (dbFault env (ticks w)); [discriminate|].
    destruct (find _ (Deployments w)) as [d|] eqn:E; [|discriminate].
    intros _. exists d. split; [reflexivity|]. now apply find_owned_some.
  - intros Hnone Hdb. rewrite Hdb, (find_owned_none _ _ _ Hnone). reflexivity.
Qed.

Lemma lookup_returns_only_own_record_witness :
  answer (Sample.serve Full Sample.env (GET_deployment Sample.bearer8 0)
            Sample.twoOwners) =
    res_status_json 404 (errorBody "Deployment not found") /\
  answer (Sample.serve Full Sample.env (GET_deployment Sample.bearer8 5)
            Sample.twoOwners) =
    res_status_json 404 (errorBody "Deployment not found") /\
  statusCode (answer (Sample.serve Full Sample.env (GET_deployment Sample.bearer7 0)
                        Sample.twoOwners)) = 200.
Proof.
  split; [|split; [|vm_compute; reflexivity]].
  - apply (lookup_returns_only_own_record Sample.env Sample.bearer8 8 0
             (guarded Sample.env Sample.bearer8
                (fun user => getDeployment Sample.env user 0))
             Sample.twoOwners eq_refl eq_refl); [|reflexivity].
    vm_compute. intros d [<- | [<- | []]]; intros; discriminate.
  - apply (lookup_returns_only_own_record Sample.env Sample.bearer8 8 5
             (guarded Sample.env Sample.bearer8
                (fun user => getDeployment Sample.env user 5))
             Sample.twoOwners eq_refl eq_refl); [|reflexivity].
    vm_compute. intros d [<- | [<- | []]]; intros; discriminate.
Defined.

(** X11. The owner's DELETE /api/deployments/:id fails.  When the caller's
    record is found, the next statement is [path.join] with the ObjectId of
    the record, which throws: the answer is 500 "Internal server error",
    [fs.rmdir] and [findByIdAndDelete] are never reached (the lookup is the
    only external call made), and the record, the other records, the users
    and the history of writes are as before.  So no DELETE removes
    anything. *)
Theorem delete_of_own_record_fails (env : Env)
    (authorization : option string) (A id : ObjectId) (h : Handler) (w : World) :
  route Full env (DELETE_deployment authorization id) = Some h ->
  authenticateToken env authorization = inr A ->
  (exists d, In d (Deployments w) /\ _id d = id /\ userId d = A) ->
  answer (h w) = res_status_json 500 (errorBody "Internal server error") /\
  Deployments (after (h w)) = Deployments w /\
  Users (after (h w)) = Users w /\
  history (after (h w)) = history w /\
  started (h w) = [] /\
  ticks (after (h w)) = S (ticks w).
Proof.
  intros Hr Ha (d & Hin & Hid & Hu). simpl in Hr. injection Hr as <-.
  rewrite (guarded_passed _ _ _ _ _ Ha), deleteDeployment_cases.
  destruct (dbFault env (ticks w)); [now repeat split|].
  destruct (find _ (Deployments w)) eqn:E; [now repeat split|].
  apply (find_none _ _ E) in Hin.
  rewrite Hid, Hu, !Nat.eqb_refl in Hin. discriminate.
Qed.

Lemma delete_of_own_record_fails_witness :
  map _id (Deployments Sample.twoOwners) = [0; 1] /\
  answer (Sample.serve Full Sample.env
            (DELETE_deployment Sample.bearer7 0) Sample.twoOwners) =
    res_status_json 500 (errorBody "Internal server error") /\
  map _id (Deployments (after (Sample.serve Full Sample.env
      (DELETE_deployment Sample.bearer7 0) Sample.twoOwners))) = [0; 1].
Proof.
  split; [vm_compute; reflexivity|].
  assert (Hown : exists d, In d (Deployments Sample.twoOwners) /\
                           _id d = 0 /\ userId d = 7).
  { vm_compute. eexists. split; [left; reflexivity | split; reflexivity]. }
  destruct (delete_of_own_record_fails Sample.env Sample.bearer7 7 0
              (guarded Sample.env Sample.bearer7
                 (fun user => deleteDeployment Sample.env user 0))
              Sample.twoOwners eq_refl eq_refl Hown) as (Ha & Hds & _).
  split; [exact Ha|].
  change (Sample.serve Full Sample.env (DELETE_deployment Sample.bearer7 0)
            Sample.twoOwners)
    with (guarded Sample.env Sample.bearer7
            (fun user => deleteDeployment Sample.env user 0) Sample.twoOwners).
  rewrite Hds. vm_compute. reflexivity.
Defined.

(** * Creation *)

Section Creation.

Variable env : Env.

(** The availability check, by cases: it never throws. *)
Lemma checkDomainAvailability_run (dom : option string) (w : World) :
  checkDomainAvailability env dom w =
  if dbFault env (ticks w)
  then (Ok false, with_dbErrors (S (dbErrors w)) (with_ticks (S (ticks w)) w))
  else (Ok match find (fun e => Js.same (domain e) dom) (Deployments w) with
           | Some _ => false
           | None => true
           end, with_ticks (S (ticks w)) w).
Proof.
  unfold checkDomainAvailability; run.
  destruct (dbFault env (ticks w)); run; reflexivity.
Qed.

Lemma find_domain_none (dom : option string) (ds : list Deployment) :
  find (fun e => Js.same (domain e) dom) ds = None <->
  forall e, In e ds -> domain e <> dom.
Proof.
  split.
  - intros H e He Hd. apply (find_none _ _ H) in He.
    rewrite (proj2 (same_spec _ _) Hd) in He. discriminate.
  - intros H. destruct (find _ ds) as [x|] eqn:E; [|reflexivity].
    apply find_some in E. destruct E as [Hin Hs]. apply same_spec in Hs.
    now elim (H x Hin).
Qed.

Lemma existsb_domain_false (dom : option string) (ds : list Deployment) :
  existsb (fun e => Js.same (domain e) dom) ds = false <->
  forall e, In e ds -> domain e <> dom.
Proof.
  rewrite <- find_domain_none. split; intros H.
  - destruct (find _ ds) as [x|] eqn:E; [|reflexivity].
    apply find_some in E. destruct E as [Hin Hs].
    assert (Ht : existsb (fun e => Js.same (domain e) dom) ds = true)
      by (apply existsb_exists; now exists x).
    congruence.
  - destruct (existsb _ ds) eqn:E; [|reflexivity].
    apply existsb_exists in E. destruct E as (x & Hin & Hs).
    apply (find_none _ _ H) in Hin. congruence.
Qed.

(** POST /api/deploy of the full server, by cases. *)
Lemma deploy_run (user : ObjectId) (b : DeployBody) (files : list File) (w : World) :
  deploy env user b files w =
  if dbFault env (ticks w)
  then ((domainNotAvailable, []),
        with_dbErrors (S (dbErrors w)) (with_ticks (S (ticks w)) w))
  else match find (fun e => Js.same (domain e) (body_domain b)) (Deployments w) with
       | Some _ => ((domainNotAvailable, []), with_ticks (S (ticks w)) w)
       | None =>
           if negb (Js.truthy (body_projectName b) && Js.truthy (body_domain b))
           then ((deploymentFailed, []),
                 with_ticks (3 + ticks w) (with_nextId (S (nextId w)) w))
           else if dbFault env (3 + ticks w)
           then ((deploymentFailed, []),
                 with_dbErrors (S (dbErrors w))
                   (with_ticks (4 + ticks w) (with_nextId (S (nextId w)) w)))
           else ((res_json (deployStarted
                              (constructed env user b (nextId w) (S (ticks w)))
                              (body_domain b)),
                  [ProcessDeployment
                     (constructed env user b (nextId w) (S (ticks w))) files]),
                 with_history ((nextId w, building) :: history w)
                   (with_Deployments
                      (Deployments w ++
                       [constructed env user b (nextId w) (S (ticks w))])
                      (with_ticks (4 + ticks w) (with_nextId (S (nextId w)) w))))
       end.
Proof.
  unfold deploy, constructed; run. cbn [Nat.add].
  destruct (dbFault env (ticks w)); run; [reflexivity|].
  destruct (find _ (Deployments w)) eqn:Hfind; run; [reflexivity|].
  destruct (negb _); run; [reflexivity|].
  destruct (dbFault env (S (S (S (ticks w))))); run; [reflexivity|].
  assert (Hex : existsb (fun e => Js.same (domain e) (body_domain b)) (Deployments w)
                = false).
  { apply existsb_domain_false. now apply find_domain_none. }
  rewrite Hex. reflexivity.
Qed.

(** POST /api/deploy of the simplified variant, by cases. *)
Lemma deploy_simplified_run (user : ObjectId) (b : DeployBody) (w : World) :
  deploy_simplified env user b w =
  if negb (Js.truthy (body_projectName b) && Js.truthy (body_domain b))
  then ((deploymentFailed, []),
        with_ticks (2 + ticks w) (with_nextId (S (nextId w)) w))
  else if dbFault env (2 + ticks w)
  then ((deploymentFailed, []),
        with_dbErrors (S (dbErrors w))
          (with_ticks (3 + ticks w) (with_nextId (S (nextId w)) w)))
  else if existsb (fun e => Js.same (domain e) (body_domain b)) (Deployments w)
  then ((deploymentFailed, []),
        with_dbErrors (S (dbErrors w))
          (with_ticks (3 + ticks w) (with_nextId (S (nextId w)) w)))
  else ((res_json (deployStarted (constructed env user b (nextId w) (ticks w))
                     (body_domain b)),
         [GoLive (constructed env user b (nextId w) (ticks w)) (body_domain b)]),
        with_history ((nextId w, building) :: history w)
          (with_Deployments
             (Deployments w ++ [constructed env user b (nextId w) (ticks w)])
             (with_ticks (3 + ticks w) (with_nextId (S (nextId w)) w)))).
Proof.
  unfold deploy_simplified, constructed; run. cbn [Nat.add].
  destruct (negb _); run; [reflexivity|].
  destruct (dbFault env (S (S (ticks w)))); run; [reflexivity|].
  destruct (existsb _ (Deployments w)); reflexivity.
Qed.

End Creation.

(** X12. [checkDomainAvailability] never throws.  When it answers [true]
    no stored deployment has the domain; when a stored deployment has it,
    or when the lookup fails, it answers [false].  It changes no stored
    document. *)
Theorem availability_check_is_sound (env : Env) (dom : option string) (w : World) :
  (exists available, fst (checkDomainAvailability env dom w) = Ok available) /\
  (fst (checkDomainAvailability env dom w) = Ok true ->
     dbFault env (ticks w) = false /\
     forall e, In e (Deployments w) -> domain e <> dom) /\
  ((exists e, In e (Deployments w) /\ domain e = dom) ->
     fst (checkDomainAvailability env dom w) = Ok false) /\
  (dbFault env (ticks w) = true ->
     fst (checkDomainAvailability env dom w) = Ok false) /\
  same_store w (snd (checkDomainAvailability env dom w)).
Proof.
  rewrite checkDomainAvailability_run.
  destruct (dbFault env (ticks w)); cbn [fst snd].
  - split; [now eexists|]. split; [discriminate|].
    split; [reflexivity|]. split; [reflexivity|].
    unfold same_store. now repeat split.
  - split; [now eexists|].
    destruct (find _ (Deployments w)) as [x|] eqn:E.
    + split; [discriminate|]. split; [reflexivity|]. split; [discriminate|].
      unfold same_store. now repeat split.
    + split; [intros _; split; [reflexivity | now apply find_domain_none]|].
      split.
      * intros (e & Hin & Hd). rewrite find_domain_none in E. now elim (E e Hin).
      * split; [discriminate|]. unfold same_store. now repeat split.
Qed.

Lemma availability_check_is_sound_witness :
  fst (checkDomainAvailability Sample.env (Some "demo.ntl.cloud"%string)
         Sample.twoOwners) = Ok false /\
  fst (checkDomainAvailability Sample.env (Some "free.ntl.cloud"%string)
         Sample.twoOwners) = Ok true.
Proof.
  split; [|vm_compute; reflexivity].
  apply (proj1 (proj2 (proj2
           (availability_check_is_sound Sample.env (Some "demo.ntl.cloud"%string)
              Sample.twoOwners)))).
  vm_compute. eexists. split; [left; reflexivity | reflexivity].
Defined.

(** X13. A creation request that reaches the handler (valid token, no file
    part) without a project name or without a domain (absent or empty) is
    never answered 200 and stores nothing.  It is not refused as a bad
    request: the document is constructed, its save fails schema validation,
    and the answer is 500 "Deployment failed" (in the full server, unless
    the availability check has already answered 400). *)
Theorem creation_without_name_or_domain_fails (v : Variant) (env : Env)
    (authorization : option string) (A : ObjectId) (b : DeployBody)
    (files : list File) (h : Handler) (w : World) :
  route v env (POST_deploy authorization b files) = Some h ->
  authenticateToken env authorization = inr A ->
  Js.truthy (body_projectName b) = false \/ Js.truthy (body_domain b) = false ->
  files = [] /\
  Deployments (after (h w)) = Deployments w /\
  Users (after (h w)) = Users w /\
  history (after (h w)) = history w /\
  started (h w) = [] /\
  answer (h w) =
    match v with
    | Simplified => deploymentFailed
    | Full =>
        if dbFault env (ticks w) then domainNotAvailable
        else match find (fun e => Js.same (domain e) (body_domain b))
                     (Deployments w) with
             | Some _ => domainNotAvailable
             | None => deploymentFailed
             end
    end.
Proof.
  intros Hr Ha Hbad.
  assert (Hinvalid : negb (Js.truthy (body_projectName b) &&
                           Js.truthy (body_domain b)) = true).
  { apply negb_true_iff, andb_false_iff. exact Hbad. }
  destruct v; simpl in Hr; apply behind_upload_some in Hr;
    destruct Hr as [-> [-> | [refusal Hrefused]]]; try congruence;
    rewrite (guarded_passed _ _ _ _ _ Ha).
  - rewrite deploy_run.
    destruct (dbFault env (ticks w)); [now repeat split|].
    destruct (find _ (Deployments w)); [now repeat split|].
    rewrite Hinvalid. now repeat split.
  - rewrite deploy_simplified_run, Hinvalid. now repeat split.
Qed.

Lemma creation_without_name_or_domain_fails_witness :
  answer (Sample.serve Full Sample.env (POST_deploy Sample.bearer7 Cases.nameless [])
            Sample.twoOwners) = res_status_json 500 (errorBody "Deployment failed") /\
  Deployments (after (Sample.serve Full Sample.env
                        (POST_deploy Sample.bearer7 Cases.nameless [])
                        Sample.twoOwners)) = Deployments Sample.twoOwners.
Proof.
  destruct (creation_without_name_or_domain_fails Full Sample.env Sample.bearer7 7
              Cases.nameless []
              (guarded Sample.env Sample.bearer7
                 (fun user => deploy Sample.env user Cases.nameless []))
              Sample.twoOwners eq_refl eq_refl (or_introl eq_refl))
    as (_ & Hds & _ & _ & _ & Ha).
  split; [|exact Hds].
  etransitivity; [exact Ha | vm_compute; reflexivity].
Defined.

(** X14. A creation answered with 200 has stored exactly the document the
    request describes: its owner is the user of the token, project name,
    domain, repository, build command and output directory are those of the
    body (the output directory is "dist" when the body has none), the branch
    is always "main", the status is building, SSL is on, there is no URL
    and no provider id yet, and the counters are 0, 0 and 100.  The answer
    carries the id of that document, and the background work starts on
    it.  Such a request had no file part. *)
Theorem creation_stores_the_request (v : Variant) (env : Env)
    (authorization : option string) (A : ObjectId) (b : DeployBody)
    (files : list File) (h : Handler) (w : World) :
  route v env (POST_deploy authorization b files) = Some h ->
  authenticateToken env authorization = inr A ->
  statusCode (answer (h w)) = 200 ->
  let doc :=
    constructed env A b (nextId w)
      match v with Full => S (ticks w) | Simplified => ticks w end in
  files = [] /\
  Deployments (after (h w)) = Deployments w ++ [doc] /\
  Users (after (h w)) = Users w /\
  answer (h w) = res_json (deployStarted doc (body_domain b)) /\
  field "deploymentId" (body (answer (h w))) = Some (JObjectId (_id doc)) /\
  started (h w) =
    match v with
    | Full => [ProcessDeployment doc []]
    | Simplified => [GoLive doc (body_domain b)]
    end /\
  (forall e, In e (Deployments w) -> domain e <> domain doc).
Proof.
  intros Hr Ha.
  destruct v; simpl in Hr; apply behind_upload_some in Hr;
    destruct Hr as [-> [-> | [refusal Hrefused]]]; try congruence;
    rewrite (guarded_passed _ _ _ _ _ Ha).
  - rewrite deploy_run.
    destruct (dbFault env (ticks w)); [discriminate|].
    destruct (find _ (Deployments w)) eqn:Hfree; [discriminate|].
    destruct (negb _); [discriminate|].
    destruct (dbFault env (3 + ticks w)); [discriminate|].
    intros _. cbv zeta. repeat split. now apply find_domain_none.
  - rewrite deploy_simplified_run.
    destruct (negb _); [discriminate|].
    destruct (dbFault env (2 + ticks w)); [discriminate|].
    destruct (existsb _ (Deployments w)) eqn:Hfree; [discriminate|].
    intros _. cbv zeta. repeat split. now apply existsb_domain_false.
Qed.

Lemma creation_stores_the_request_witness :
  statusCode (answer (Sample.serve Full Sample.env
      (POST_deploy Sample.bearer8 Cases.own []) (after (Sample.created Full)))) = 200 /\
  map (fun d => (userId d, branch d, outputDir d, status d))
    (Deployments (after (Sample.serve Full Sample.env
       (POST_deploy Sample.bearer8 Cases.own []) (after (Sample.created Full))))) =
    [(7, "main"%string, "dist"%string, building);
     (8, "main"%string, "public"%string, building)].
Proof.
  assert (Hcode : statusCode (answer (guarded Sample.env Sample.bearer8
                    (fun user => deploy Sample.env user Cases.own [])
                    (after (Sample.created Full)))) = 200)
    by (vm_compute; reflexivity).
  split; [exact Hcode|].
  destruct (creation_stores_the_request Full Sample.env Sample.bearer8 8
              Cases.own []
              (guarded Sample.env Sample.bearer8
                 (fun user => deploy Sample.env user Cases.own []))
              (after (Sample.created Full)) eq_refl eq_refl Hcode)
    as (_ & Hds & _).
  change (Sample.serve Full Sample.env
            (POST_deploy Sample.bearer8 Cases.own [])
            (after (Sample.created Full)))
    with (guarded Sample.env Sample.bearer8
            (fun user => deploy Sample.env user Cases.own [])
            (after (Sample.created Full))).
  rewrite Hds. vm_compute. reflexivity.
Defined.

(** * What stays true of the store *)

Section Consistency.

Variable env : Env.

Lemma updateOne_map {A} (f : Deployment -> A) (d : Deployment) (ds : list Deployment) :
  (forall x, f (write_paths d x) = f x) ->
  map f (updateOne d ds) = map f ds.
Proof.
  intros Hf. induction ds as [|x ds IH]; simpl; [reflexivity|].
  destruct (_id x =? _id d)%nat; simpl; [now rewrite Hf | now rewrite IH].
Qed.

Lemma wrote_map {A} (f : Deployment -> A) (i : ObjectId) (l : list Status)
    ds h ds' h' :
  (forall d x, f (write_paths d x) = f x) ->
  wrote i l ds h ds' h' -> map f ds' = map f ds.
Proof.
  intros Hf. induction 1; [reflexivity|]. now rewrite updateOne_map.
Qed.

Lemma wrote_other (i j : ObjectId) (l : list Status) ds h ds' h' :
  wrote i l ds h ds' h' -> j <> i -> findById j ds' = findById j ds.
Proof.
  intros Hw Hne. induction Hw as [|l ds h ds1 h1 d s Hw IH Hid Hst]; [reflexivity|].
  rewrite findById_other_updateOne; [exact IH | congruence].
Qed.

(** A task changes no path of a stored document but the three it assigns. *)
Lemma runTask_fixedPaths (t : Task) (w : World) :
  map fixedPaths (Deployments (snd (runTask env t w))) =
  map fixedPaths (Deployments w).
Proof.
  destruct (runTask_summary env t w) as (l & Hw & _).
  now apply (wrote_map fixedPaths _ _ _ _ _ _ (fun d x => eq_refl) Hw).
Qed.

Lemma fixedPaths_domain (ds ds' : list Deployment) :
  map fixedPaths ds' = map fixedPaths ds -> map domain ds' = map domain ds.
Proof.
  intros H.
  assert (Hd : forall l, map domain l =
                 map (fun p => let '(_, _, _, dm, _, _, _, _, _, _, _, _, _) := p in dm)
                   (map fixedPaths l)).
  { intros l. rewrite map_map. apply map_ext. reflexivity. }
  now rewrite (Hd ds'), (Hd ds), H.
Qed.

Lemma fixedPaths_validate (ds ds' : list Deployment) :
  map fixedPaths ds' = map fixedPaths ds ->
  (forall e, In e ds -> validate e = true) ->
  forall e, In e ds' -> validate e = true.
Proof.
  intros H Hv e He.
  apply (in_map fixedPaths) in He. rewrite H in He.
  apply in_map_iff in He. destruct He as (x & Hx & Hin).
  specialize (Hv x Hin). unfold validate in *.
  unfold fixedPaths in Hx. injection Hx; intros. congruence.
Qed.

(** The timers a task arms carry an attempt count of at most [maxAttempts]. *)
Lemma runTask_attempts (t : Task) (w : World) (d : Deployment) (k : nat) :
  In (CheckStatus d k) (fst (runTask env t w)) -> k <= maxAttempts.
Proof.
  destruct t as [d0 files | d0 k0 | d0 dom];
    unfold runTask, processDeployment, checkStatus, goLive; run.
  - repeat (branch; run); cbn [In]; try tauto.
    all: intros [H | []]; injection H as _ <-; apply Nat.le_0_l.
  - repeat (branch; run); cbn [In]; try tauto.
    all: intros [H | []]; injection H as _ <-;
      match goal with
      | H : (_ <? _)%nat = true |- _ => apply Nat.ltb_lt in H; exact H
      end.
  - repeat (branch; run); cbn [In]; tauto.
Qed.

(** The store after a request. *)
Lemma register_store (e pw : option string) (w : World) :
  store_effect w (after (register env e pw w)).
Proof.
  destruct (Nat.eq_dec (statusCode (answer (register env e pw w))) 201) as [H|H].
  - destruct (register_created env e pw w H)
      as (em & pass & _ & _ & Hem & _ & Hhash & Hfresh & Hus & Hds & _).
    eapply store_user_added;
      [exact Hus | exact Hem | exact Hhash | reflexivity | reflexivity
      | exact Hfresh | exact Hds].
  - revert H. unfold register.
    destruct e as [em|], pw as [pass|]; run;
      try (intros _; apply store_same; reflexivity).
    repeat (branch; run);
      solve [ intros _; apply store_same; reflexivity
            | intros H; now elim H ].
Qed.

Lemma deploy_store (user : ObjectId) (b : DeployBody) (files : list File)
    (w : World) :
  store_effect w (after (deploy env user b files w)).
Proof.
  rewrite deploy_run.
  destruct (dbFault env (ticks w)); [apply store_same; reflexivity|].
  destruct (find _ (Deployments w)) eqn:Hfree; [apply store_same; reflexivity|].
  destruct (negb _) eqn:Hvalid; [apply store_same; reflexivity|].
  destruct (dbFault env (3 + ticks w)); [apply store_same; reflexivity|].
  eapply store_record_added; [reflexivity | | | reflexivity].
  - apply negb_false_iff in Hvalid. exact Hvalid.
  - now apply find_domain_none.
Qed.

Lemma deploy_simplified_store (user : ObjectId) (b : DeployBody) (w : World) :
  store_effect w (after (deploy_simplified env user b w)).
Proof.
  rewrite deploy_simplified_run.
  destruct (negb _) eqn:Hvalid; [apply store_same; reflexivity|].
  destruct (dbFault env (2 + ticks w)); [apply store_same; reflexivity|].
  destruct (existsb _ (Deployments w)) eqn:Hfree; [apply store_same; reflexivity|].
  eapply store_record_added; [reflexivity | | | reflexivity].
  - apply negb_false_iff in Hvalid. exact Hvalid.
  - now apply existsb_domain_false.
Qed.

Lemma deleteDeployment_store (user : ObjectId) (id : Param) (w : World) :
  store_effect w (after (deleteDeployment env user id w)).
Proof.
  destruct (deleteDeployment_keeps env user id w) as (Hds & Hus & _).
  now apply store_same.
Qed.

Lemma same_store_effect (w w' : World) : same_store w w' -> store_effect w w'.
Proof. intros (Hu & Hd & _). now apply store_same. Qed.

Lemma guarded_store (authorization : option string) (h : ObjectId -> Handler)
    (w : World) :
  (forall user, store_effect w (after (h user w))) ->
  store_effect w (after (guarded env authorization h w)).
Proof.
  intros Hh. unfold guarded.
  destruct (authenticateToken env authorization); [|apply Hh].
  apply store_same; reflexivity.
Qed.

Lemma route_store (v : Variant) (r : Request) (h : Handler) (w : World) :
  route v env r = Some h -> store_effect w (after (h w)).
Proof.
  intros Hr.
  destruct r, v; simpl in Hr; try discriminate;
    first [ injection Hr as <-
          | apply behind_upload_some in Hr; destruct Hr as [-> _] ].
  - apply register_store.
  - apply register_store.
  - apply same_store_effect, login_same_store.
  - apply same_store_effect, login_same_store.
  - apply guarded_store; intros; apply deploy_store.
  - apply guarded_store; intros; apply deploy_simplified_store.
  - apply guarded_store; intros; apply same_store_effect, listDeployments_same_store.
  - apply guarded_store; intros; apply same_store_effect, listDeployments_same_store.
  - apply guarded_store; intros; apply same_store_effect, getDeployment_same_store.
  - apply guarded_store; intros; apply deleteDeployment_store.
Qed.

(** No request starts a poll of the monitor. *)
Lemma route_starts_no_poll (v : Variant) (r : Request) (h : Handler) (w : World)
    (d : Deployment) (k : nat) :
  route v env r = Some h -> ~ In (CheckStatus d k) (started (h w)).
Proof.
  intros Hr Hin.
  destruct (route_effect v env r h w Hr)
    as [_ _ _ Hts | doc t _ _ _ _ _ Hts _ Hexp];
    rewrite Hts in Hin; try contradiction.
  destruct Hin as [Ht | []]. subst t. discriminate Hexp.
Qed.

Lemma NoDup_map_snoc {A B} (f : A -> B) (l : list A) (x : A) :
  NoDup (map f l) -> (forall y, In y l -> f y <> f x) -> NoDup (map f (l ++ [x])).
Proof.
  intros Hnd Hfresh. rewrite map_app. simpl.
  apply NoDup_app; [exact Hnd | repeat constructor; now intros [] |].
  intros b Hb [<- | []].
  apply in_map_iff in Hb. destruct Hb as (y & Hy & Hin). now apply (Hfresh y).
Qed.

Lemma Consistent_initial : Consistent initial.
Proof.
  constructor; cbn; try constructor; tauto.
Qed.

Lemma Consistent_request (s : System) (w' : World) (ts : list Task) :
  Consistent s ->
  store_effect (world s) w' ->
  (forall d k, ~ In (CheckStatus d k) ts) ->
  Consistent {| world := w'; pending := pending s ++ ts |}.
Proof.
  intros HC He Hts.
  assert (Hk : forall d k, In (CheckStatus d k) (pending s ++ ts) -> k <= maxAttempts).
  { intros d k Hin. apply in_app_or in Hin. destruct Hin as [Hin | Hin].
    - now apply (attempts_bounded s HC d k).
    - now elim (Hts d k). }
  destruct He as [Hus Hds | u Hus Hem Hpw Hplan Hnone Hfresh Hds
                 | doc Hds Hvalid Hfresh Hus];
    constructor; cbn [world pending]; rewrite ?Hus, ?Hds; try exact Hk;
    try apply (domains_unique s HC); try apply (records_valid s HC);
    try apply (emails_unique s HC); try apply (users_valid s HC).
  - apply NoDup_map_snoc; [apply (emails_unique s HC) | exact Hfresh].
  - intros x Hx. apply in_app_or in Hx. destruct Hx as [Hx | [<- | []]];
      [now apply (users_valid s HC) | now repeat split].
  - apply NoDup_map_snoc; [apply (domains_unique s HC) | exact Hfresh].
  - intros e Hin. apply in_app_or in Hin. destruct Hin as [Hin | [<- | []]];
      [now apply (records_valid s HC) | exact Hvalid].
Qed.

Lemma Consistent_task (s : System) (before after : list Task) (t : Task) :
  Consistent s ->
  pending s = before ++ t :: after ->
  Consistent {| world := snd (runTask env t (world s));
                pending := before ++ fst (runTask env t (world s)) ++ after |}.
Proof.
  intros HC Hp.
  pose proof (runTask_fixedPaths t (world s)) as Hfixed.
  destruct (runTask_summary env t (world s)) as (l & _ & _ & Hus & _).
  constructor; cbn [world pending]; rewrite ?Hus.
  - rewrite (fixedPaths_domain _ _ Hfixed). apply (domains_unique s HC).
  - apply (fixedPaths_validate _ _ Hfixed), (records_valid s HC).
  - apply (emails_unique s HC).
  - apply (users_valid s HC).
  - intros d k Hin. apply in_app_or in Hin. destruct Hin as [Hin | Hin].
    + apply (attempts_bounded s HC d k). rewrite Hp. apply in_or_app. now left.
    + apply in_app_or in Hin. destruct Hin as [Hin | Hin].
      * now apply (runTask_attempts t (world s) d k).
      * apply (attempts_bounded s HC d k). rewrite Hp.
        apply in_or_app. right. now right.
Qed.

End Consistency.

Lemma reachable_Consistent (v : Variant) (env : Env) (s : System) :
  reachable v env s -> Consistent s.
Proof.
  induction 1 as [|s s' _ IH Hstep].
  - apply Consistent_initial.
  - destruct Hstep as [s r h resp ts w' Hr Hrun | s before t after ts w' Hp Hrun].
    + apply Consistent_request; [assumption | |].
      * pose proof (route_store env v r h (world s) Hr) as He.
        rewrite Hrun in He. exact He.
      * intros d k. pose proof (route_starts_no_poll env v r h (world s) d k Hr) as Hn.
        rewrite Hrun in Hn. exact Hn.
    + pose proof (Consistent_task env s before after t IH Hp) as HC.
      rewrite Hrun in HC. exact HC.
Qed.

(** * Invariants of the two collections and of the timers *)

Lemma NoDup_map_eq {A B} (f : A -> B) (l : list A) (a b : A) :
  NoDup (map f l) -> In a l -> In b l -> f a = f b -> a = b.
Proof.
  induction l as [|x l IH]; simpl; intros Hnd Ha Hb Hf; [contradiction|].
  inversion Hnd as [|? ? Hx Hnd']; subst.
  destruct Ha as [<- | Ha], Hb as [<- | Hb]; try reflexivity.
  - elim Hx. rewrite Hf. now apply in_map.
  - elim Hx. rewrite <- Hf. now apply in_map.
  - now apply IH.
Qed.

Lemma reachable_request (v : Variant) (env : Env) (r : Request) (h : Handler)
    (s : System) :
  reachable v env s ->
  route v env r = Some h ->
  reachable v env {| world := after (h (world s));
                     pending := pending s ++ started (h (world s)) |}.
Proof.
  intros Hs Hr. apply reachable_step with (s := s); [exact Hs|].
  exact (step_request v env s r h (answer (h (world s))) (started (h (world s)))
           (after (h (world s))) Hr (result_eta _)).
Qed.

Lemma drain_empty (env : Env) (n : nat) (w : World) :
  drain env n {| world := w; pending := [] |} = {| world := w; pending := [] |}.
Proof. destruct n; reflexivity. Qed.

(** What one poll leaves pending. *)
Lemma checkStatus_rearm (env : Env) (d : Deployment) (k : nat) (w : World) :
  fst (runTask env (CheckStatus d k) w) = [] \/
  (k < maxAttempts /\
   exists d', fst (runTask env (CheckStatus d k) w) = [CheckStatus d' (S k)]).
Proof.
  unfold runTask, checkStatus; run.
  repeat (branch; run); try (left; reflexivity).
  all: right; split;
    [ match goal with
      | H : (_ <? _)%nat = true |- _ => apply Nat.ltb_lt in H; exact H
      end
    | eexists; reflexivity ].
Qed.

Lemma monitor_drains (env : Env) (n k : nat) (d : Deployment) (w : World) :
  k <= maxAttempts -> maxAttempts < k + n ->
  pending (drain env n {| world := w; pending := [CheckStatus d k] |}) = [].
Proof.
  revert k d w. induction n as [|n IH]; intros k d w Hk Hn; [lia|].
  cbn [drain pending world].
  destruct (checkStatus_rearm env d k w) as [Hdone | (Hlt & d' & Hmore)].
  - rewrite Hdone. cbn [app]. now rewrite drain_empty.
  - rewrite Hmore. cbn [app]. apply IH; lia.
Qed.

(** X16. In every state the system can reach, every stored deployment has
    a project name and a domain that are present and not empty and an id
    that was given out before; no two stored deployments share a domain,
    and none share an id.  (Creation validates and inserts under the unique
    index; no later save writes the name, the domain or the id.) *)
Theorem stored_deployments_are_valid_and_distinct (v : Variant) (env : Env)
    (s : System) :
  reachable v env s ->
  (forall e, In e (Deployments (world s)) ->
     Js.truthy (projectName e) = true /\ Js.truthy (domain e) = true /\
     _id e < nextId (world s)) /\
  (forall e1 e2, In e1 (Deployments (world s)) -> In e2 (Deployments (world s)) ->
     domain e1 = domain e2 -> e1 = e2) /\
  (forall e1 e2, In e1 (Deployments (world s)) -> In e2 (Deployments (world s)) ->
     _id e1 = _id e2 -> e1 = e2).
Proof.
  intros Hreach.
  pose proof (reachable_Consistent v env s Hreach) as HC.
  pose proof (reachable_Inv v env s Hreach) as HI.
  split; [|split].
  - intros e He. pose proof (records_valid s HC e He) as Hv.
    unfold validate in Hv. apply andb_true_iff in Hv.
    destruct Hv as [Hp Hd]. repeat split; try assumption.
    now apply (inv_stored_ids s HI).
  - intros e1 e2. apply NoDup_map_eq, (domains_unique s HC).
  - intros e1 e2. apply NoDup_map_eq, (inv_unique s HI).
Qed.

Lemma stored_deployments_are_valid_and_distinct_witness :
  reachable Full Sample.env (Sample.settled Full Sample.env) /\
  map domain (Deployments (world (Sample.settled Full Sample.env))) =
    [Some "demo.ntl.cloud"] /\
  forall e, In e (Deployments (world (Sample.settled Full Sample.env))) ->
    Js.truthy (projectName e) = true /\ Js.truthy (domain e) = true /\
    _id e < nextId (world (Sample.settled Full Sample.env)).
Proof.
  assert (Hreach : reachable Full Sample.env (Sample.settled Full Sample.env))
    by (apply reachable_drain, reachable_justCreated).
  split; [exact Hreach|]. split; [vm_compute; reflexivity|].
  exact (proj1 (stored_deployments_are_valid_and_distinct Full Sample.env
                  (Sample.settled Full Sample.env) Hreach)).
Defined.

(** X17. In every state the system can reach, every stored user has an
    email and a password hash that are not empty, the plan "free" and an
    empty list of deployments (no code path writes [plan] or pushes to
    [deployments]); no two stored users share an email. *)
Theorem stored_users_are_valid_and_distinct (v : Variant) (env : Env)
    (s : System) :
  reachable v env s ->
  (forall u, In u (Users (world s)) ->
     email u <> "" /\ password u <> "" /\ plan u = "free" /\ deployments u = []) /\
  (forall u1 u2, In u1 (Users (world s)) -> In u2 (Users (world s)) ->
     email u1 = email u2 -> u1 = u2).
Proof.
  intros Hreach.
  pose proof (reachable_Consistent v env s Hreach) as HC.
  split; [apply (users_valid s HC)|].
  intros u1 u2. apply NoDup_map_eq, (emails_unique s HC).
Qed.

Lemma stored_users_are_valid_and_distinct_witness :
  map email (Users Sample.registered) = ["ada@example.org"] /\
  forall u, In u (Users Sample.registered) ->
    email u <> "" /\ password u <> "" /\ plan u = "free" /\ deployments u = [].
Proof.
  split; [reflexivity|].
  assert (Hreach : reachable Full Sample.env
                     {| world := Sample.registered; pending := [] |}).
  { exact (reachable_request Full Sample.env
             (POST_register Sample.mail Sample.secret)
             (register Sample.env Sample.mail Sample.secret) initial
             (reachable_initial Full Sample.env) eq_refl). }
  exact (proj1 (stored_users_are_valid_and_distinct Full Sample.env
                  {| world := Sample.registered; pending := [] |} Hreach)).
Defined.

(** X18. In every state the system can reach, at most one background task
    is pending for a deployment; a pending poll of the monitor has an
    attempt count of at most 30, and the status last written to its record
    is [deploying]. *)
Theorem pending_polls_are_bounded (v : Variant) (env : Env) (s : System) :
  reachable v env s ->
  NoDup (map task_id (pending s)) /\
  (forall d k, In (CheckStatus d k) (pending s) ->
     k <= 30 /\
     _id d < nextId (world s) /\
     hd_error (statusHistory (_id d) (history (world s))) = Some deploying).
Proof.
  intros Hreach.
  pose proof (reachable_Consistent v env s Hreach) as HC.
  pose proof (reachable_Inv v env s Hreach) as HI.
  split; [apply (inv_one_task s HI)|].
  intros d k Hin. split; [|split].
  - exact (attempts_bounded s HC d k Hin).
  - exact (task_id_bound s (CheckStatus d k) HI Hin).
  - exact (inv_tasks s HI (CheckStatus d k) Hin).
Qed.

Lemma pending_polls_are_bounded_witness :
  map (fun t => (task_id t, isCheckStatus t))
    (pending (drain Sample.env 1 (Sample.justCreated Full Sample.env))) =
    [(0, true)] /\
  NoDup (map task_id (pending (drain Sample.env 1 (Sample.justCreated Full Sample.env)))).
Proof.
  split; [vm_compute; reflexivity|].
  apply (pending_polls_are_bounded Full Sample.env
           (drain Sample.env 1 (Sample.justCreated Full Sample.env))).
  apply reachable_drain, reachable_justCreated.
Defined.

(** X19. The monitor always stops: whatever the provider and the database
    do, after at most 31 polls of [checkStatus] (attempts 0 to 30) no timer
    is armed any more. *)
Theorem monitor_stops_within_31_polls (env : Env) (d : Deployment) (w : World) :
  pending (drain env 31 {| world := w; pending := [CheckStatus d 0] |}) = [].
Proof.
  apply monitor_drains; unfold maxAttempts; lia.
Qed.

(** X21. A background task writes nothing but [status], [renderServiceId]
    and [deploymentUrl] of its own record: it adds and removes no record,
    every other path of every stored record (owner, name, domain, dates,
    counters, also [updatedAt]) stays as it was, the record of any other
    deployment is untouched, and so are the users and the ids still to be
    given out. *)
Theorem task_writes_three_paths_of_its_record (env : Env) (t : Task) (w : World) :
  map fixedPaths (Deployments (snd (runTask env t w))) =
    map fixedPaths (Deployments w) /\
  (forall j, j <> task_id t ->
     findById j (Deployments (snd (runTask env t w))) = findById j (Deployments w)) /\
  Users (snd (runTask env t w)) = Users w /\
  nextId (snd (runTask env t w)) = nextId w.
Proof.
  split; [apply runTask_fixedPaths|].
  destruct (runTask_summary env t w) as (l & Hw & Hn & Hus & _).
  split; [|split; assumption].
  intros j Hj. exact (wrote_other _ _ _ _ _ _ _ Hw Hj).
Qed.

(** * Creation, the background work, lookup *)

Lemma drain_fixedPaths (env : Env) (n : nat) (s : System) :
  map fixedPaths (Deployments (world (drain env n s))) =
  map fixedPaths (Deployments (world s)).
Proof.
  revert s. induction n as [|n IH]; intros s; [reflexivity|].
  cbn [drain]. destruct (pending s) as [|t rest]; [reflexivity|].
  rewrite IH. cbn [world]. apply runTask_fixedPaths.
Qed.

(** The lookup of an owned record reads only paths that no save writes. *)
Lemma find_owned_fixedPaths (i u : ObjectId) (ds ds' : list Deployment) :
  map fixedPaths ds' = map fixedPaths ds ->
  option_map fixedPaths
    (find (fun e => (_id e =? i)%nat && (userId e =? u)%nat) ds') =
  option_map fixedPaths
    (find (fun e => (_id e =? i)%nat && (userId e =? u)%nat) ds).
Proof.
  revert ds. induction ds' as [|x' ds' IH]; intros [|x ds] H; try discriminate;
    [reflexivity|].
  cbn [map] in H.
  assert (Hx : fixedPaths x' = fixedPaths x) by congruence.
  assert (Hrest : map fixedPaths ds' = map fixedPaths ds) by congruence.
  assert (Hid : _id x' = _id x /\ userId x' = userId x).
  { pose proof Hx as Hx'. unfold fixedPaths in Hx'. injection Hx'; intros.
    now split. }
  destruct Hid as [Hid Hu]. cbn [find]. rewrite Hid, Hu.
  destruct ((_id x =? i)%nat && (userId x =? u)%nat);
    [cbn [option_map]; now rewrite Hx | now apply IH].
Qed.

(** X15. Creation and lookup compose in the full server, whatever progress
    the background work has made in between.  When the stored ids are below
    the next id to be given out and a creation is answered with 200, then
    after any number of steps of the work it started, GET
    /api/deployments/:id by the same user with the id of the answer returns
    (if the lookup is answered) the stored record of that creation: id,
    owner, name, domain, repository, build settings and dates are those of
    the document the request described; status, provider id and URL are
    what the background work has written so far. *)
Theorem creation_then_lookup (env : Env) (A : ObjectId) (b : DeployBody)
    (files : list File) (w : World) (n : nat) :
  (forall e, In e (Deployments w) -> _id e < nextId w) ->
  statusCode (answer (deploy env A b files w)) = 200 ->
  dbFault env
    (ticks (world (drain env n
                     {| world := after (deploy env A b files w);
                        pending := started (deploy env A b files w) |}))) = false ->
  field "deploymentId" (body (answer (deploy env A b files w))) =
    Some (JObjectId (nextId w)) /\
  exists d,
    answer (getDeployment env A (nextId w)
              (world (drain env n
                        {| world := after (deploy env A b files w);
                           pending := started (deploy env A b files w) |}))) =
      res_json (JDocument d) /\
    In d (Deployments
            (world (drain env n
                      {| world := after (deploy env A b files w);
                         pending := started (deploy env A b files w) |}))) /\
    fixedPaths d = fixedPaths (constructed env A b (nextId w) (S (ticks w))).
Proof.
  intros Hids Hok.
  pose proof (drain_fixedPaths env n
                {| world := after (deploy env A b files w);
                   pending := started (deploy env A b files w) |}) as Hfixed.
  revert Hok Hfixed. rewrite deploy_run.
  destruct (dbFault env (ticks w)); [discriminate|].
  destruct (find _ (Deployments w)); [discriminate|].
  destruct (negb _); [discriminate|].
  destruct (dbFault env (3 + ticks w)); [discriminate|].
  cbn [after started answer fst snd world].
  set (doc := constructed env A b (nextId w) (S (ticks w))).
  set (s' := drain env n _).
  cbn [Deployments with_history with_Deployments].
  intros _ Hfixed Hdb. split; [reflexivity|].
  rewrite getDeployment_run, Hdb.
  pose proof (find_owned_fixedPaths (nextId w) A _ _ Hfixed) as Hfind.
  change (nextId w) with (_id doc) in Hfind at 2.
  change A with (userId doc) in Hfind at 2.
  rewrite find_owned_stored in Hfind.
  - destruct (find _ (Deployments (world s'))) as [d|] eqn:E; [|discriminate].
    exists d. split; [reflexivity|].
    split; [exact (proj1 (find_some _ _ E))|].
    cbn [option_map] in Hfind. congruence.
  - intros e He. cbn [_id doc constructed]. specialize (Hids e He). lia.
Qed.

(** User 8 creates the shop deployment; [processDeployment] runs; user 8 asks
    for it. *)
Lemma creation_then_lookup_witness :
  exists d,
    answer (getDeployment Sample.env 8 1
              (world (drain Sample.env 1
                        {| world := after (deploy Sample.env 8 Cases.own []
                                             (after (Sample.created Full)));
                           pending := started (deploy Sample.env 8 Cases.own []
                                                 (after (Sample.created Full))) |}))) =
      res_json (JDocument d) /\
    domain d = Some "shop.example.org" /\
    userId d = 8.
Proof.
  assert (Hids : forall e, In e (Deployments (after (Sample.created Full))) ->
                           _id e < nextId (after (Sample.created Full))).
  { vm_compute. intros e [<- | []]. apply le_n. }
  assert (Hcode : statusCode (answer (deploy Sample.env 8 Cases.own []
                                        (after (Sample.created Full)))) = 200)
    by (vm_compute; reflexivity).
  destruct (creation_then_lookup Sample.env 8 Cases.own []
              (after (Sample.created Full)) 1 Hids Hcode eq_refl)
    as (_ & d & Ha & _ & Hfixed).
  exists d. split; [|split].
  - etransitivity; [|exact Ha].
    vm_compute. reflexivity.
  - unfold fixedPaths in Hfixed. injection Hfixed; intros.
    etransitivity; [eassumption | reflexivity].
  - unfold fixedPaths in Hfixed. injection Hfixed; intros.
    etransitivity; [eassumption | reflexivity].
Defined.

(** * The background process, case by case *)

Section Background.

Variable env : Env.



End Background.

(** X20. A poll that sees the provider report "failed" or "error" sets the
    record to [error] and arms no further timer (when the record is still
    stored and the save is accepted); the URL and the provider id of the
    record are left as the monitor's document has them. *)
Theorem reported_failure_marks_error (env : Env) (d stored : Deployment)
    (k : nat) (w : World) (svc : Service) :
  validate d = true ->
  serviceStatus env (ticks w) (renderServiceId d) = Some svc ->
  statusIs svc "live" || statusIs svc "ready" = false ->
  statusIs svc "failed" || statusIs svc "error" = true ->
  dbFault env (S (ticks w)) = false ->
  findById (_id d) (Deployments w) = Some stored ->
  fst (runTask env (CheckStatus d k) w) = [] /\
  findById (_id d) (Deployments (snd (runTask env (CheckStatus d k) w))) =
    Some (write_paths (set_status error d) stored) /\
  history (snd (runTask env (CheckStatus d k) w)) = (_id d, error) :: history w.
Proof.
  intros Hvalid Hsvc Hlive Hfailed Hdb Hstored.
  assert (Hex : existsb (fun e => (_id e =? _id d)%nat) (Deployments w) = true)
    by (apply existsb_findById; eauto).
  unfold validate in Hvalid.
  unfold runTask, checkStatus; run.
  rewrite Hsvc; run. rewrite Hlive, Hfailed; run.
  rewrite Hvalid; run. rewrite Hdb; run. rewrite Hex; run.
  split; [reflexivity|]. split; [|reflexivity].
  rewrite findById_updateOne_same by reflexivity.
  now rewrite Hstored.
Qed.

Lemma reported_failure_marks_error_witness :
  fst (runTask Cases.buildFails (CheckStatus Cases.polled 0)
         (world Cases.inDeploying)) = [] /\
  option_map status
    (findById 0 (Deployments (snd (runTask Cases.buildFails
                                     (CheckStatus Cases.polled 0)
                                     (world Cases.inDeploying))))) = Some error.
Proof.
  destruct (reported_failure_marks_error Cases.buildFails Cases.polled
              Cases.polled 0 (world Cases.inDeploying)
              (Sample.service (Some "failed"))
              eq_refl eq_refl eq_refl eq_refl eq_refl eq_refl) as (H1 & H2 & _).
  split; [exact H1|].
  change (_id Cases.polled) with 0 in H2. rewrite H2. reflexivity.
Defined.





(** X23. [processDeployment] arms the monitor only after the provider has
    created the site and both saves were accepted: the one poll it arms
    starts at attempt 0 and holds the document in [deploying] with the id
    and the URL the provider answered, and the stored record has these
    three values. *)
Theorem monitor_is_armed_after_the_site_exists (env : Env) (d : Deployment)
    (files : list File) (w : World) (t : Task) :
  In t (fst (runTask env (ProcessDeployment d files) w)) ->
  exists svc tick stored,
    createService env tick (projectName d) (repositoryUrl d) = Some svc /\
    t = CheckStatus
          (set_deploymentUrl (service_url svc)
             (set_renderServiceId (service_id svc) (set_status deploying d))) 0 /\
    fst (runTask env (ProcessDeployment d files) w) = [t] /\
    findById (_id d) (Deployments w) = Some stored /\
    findById (_id d) (Deployments (snd (runTask env (ProcessDeployment d files) w))) =
      Some (set_status deploying
              (set_renderServiceId (service_id svc)
                 (set_deploymentUrl (service_url svc) stored))).
Proof.
  unfold runTask, processDeployment; run.
  repeat (branch; run); cbn [In]; try tauto.
  all: intros [<- | []];
    match goal with
    | H : createService _ ?tk _ _ = Some ?svc |- _ => exists svc, tk
    end;
    match goal with
    | H : existsb _ (Deployments _) = true |- _ =>
        apply existsb_findById in H; destruct H as [stored Hstored]
    end;
    exists stored;
    (split; [assumption|]); (split; [reflexivity|]); (split; [reflexivity|]);
    (split; [exact Hstored|]);
    rewrite !findById_updateOne_same by reflexivity;
    cbn [_id set_status set_renderServiceId set_deploymentUrl] in *;
    rewrite Hstored; reflexivity.
Qed.

Lemma monitor_is_armed_after_the_site_exists_witness :
  exists svc tick stored,
    createService Sample.env tick (projectName (constructed Sample.env 7 Sample.demo 0 1))
      (repositoryUrl (constructed Sample.env 7 Sample.demo 0 1)) = Some svc /\
    CheckStatus Cases.polled 0 =
      CheckStatus
        (set_deploymentUrl (service_url svc)
           (set_renderServiceId (service_id svc)
              (set_status deploying (constructed Sample.env 7 Sample.demo 0 1)))) 0 /\
    fst (runTask Sample.env
           (ProcessDeployment (constructed Sample.env 7 Sample.demo 0 1) [])
           (world (Sample.justCreated Full Sample.env))) = [CheckStatus Cases.polled 0] /\
    findById 0 (Deployments (world (Sample.justCreated Full Sample.env))) = Some stored /\
    findById 0 (Deployments (snd (runTask Sample.env
           (ProcessDeployment (constructed Sample.env 7 Sample.demo 0 1) [])
           (world (Sample.justCreated Full Sample.env))))) =
      Some (set_status deploying
              (set_renderServiceId (service_id svc)
                 (set_deploymentUrl (service_url svc) stored))).
Proof.
  apply (monitor_is_armed_after_the_site_exists Sample.env
           (constructed Sample.env 7 Sample.demo 0 1) []
           (world (Sample.justCreated Full Sample.env))
           (CheckStatus Cases.polled 0)).
  vm_compute. left. reflexivity.
Defined.



(** X26. A custom domain (one in which "ntl.cloud" does not occur) is sent
    to the provider after the site was created and stored.  When that call
    fails, the [catch] of [processDeployment] marks the record [error] and
    the monitor is never armed, although the provider has the site: the
    record keeps the provider's id and URL.  (Stated for a deployment from a
    repository, without uploaded files.) *)
Theorem custom_domain_failure_marks_error (env : Env) (d stored : Deployment)
    (w : World) (svc : Service) :
  validate d = true ->
  Js.includes (Js.interpolate (domain d)) "ntl.cloud" = false ->
  findById (_id d) (Deployments w) = Some stored ->
  dbFault env (ticks w) = false ->
  createService env (1 + ticks w) (projectName d) (repositoryUrl d) = Some svc ->
  dbFault env (2 + ticks w) = false ->
  customDomainFault env (3 + ticks w) = true ->
  dbFault env (4 + ticks w) = false ->
  fst (runTask env (ProcessDeployment d []) w) = [] /\
  findById (_id d) (Deployments (snd (runTask env (ProcessDeployment d []) w))) =
    Some (set_status error
            (set_renderServiceId (service_id svc)
               (set_deploymentUrl (service_url svc) stored))) /\
  statusHistory (_id d) (history (snd (runTask env (ProcessDeployment d []) w))) =
    error :: deploying :: deploying :: statusHistory (_id d) (history w).
Proof.
  intros Hvalid Hcustom Hstored Hdb0 Hsvc Hdb2 Hfault Hdb4.
  assert (Hex : existsb (fun e => (_id e =? _id d)%nat) (Deployments w) = true)
    by (apply existsb_findById; eauto).
  assert (Htruthy : Js.truthy (domain d) = true).
  { unfold validate in Hvalid. apply andb_true_iff in Hvalid. tauto. }
  unfold validate in Hvalid. cbn [Nat.add] in *.
  unfold runTask, processDeployment.
  change (0 <? Datatypes.length (@nil File))%nat with false; run.
  rewrite Hvalid; run. rewrite Hdb0; run. rewrite Hex; run.
  rewrite Hsvc; run. rewrite Hvalid; run. rewrite Hdb2; run.
  rewrite existsb_updateOne, Hex; run.
  rewrite Htruthy, Hcustom; run. rewrite Hfault; run.
  rewrite Hvalid; run. rewrite Hdb4; run.
  rewrite !existsb_updateOne, Hex; run.
  split; [reflexivity|]. split.
  - rewrite !findById_updateOne_same by reflexivity.
    rewrite Hstored. reflexivity.
  - unfold statusHistory. cbn [filter map fst snd]. rewrite !Nat.eqb_refl.
    reflexivity.
Qed.

Lemma custom_domain_failure_marks_error_witness :
  fst (runTask (with_customDomainFault (fun _ => true) Sample.env)
         (ProcessDeployment (constructed Sample.env 8 Cases.own 0 1) [])
         (after (Sample.serve Full Sample.env
                   (POST_deploy Sample.bearer8 Cases.own []) emptyWorld))) = [] /\
  option_map (fun e => (status e, renderServiceId e))
    (findById 0
       (Deployments
          (snd (runTask (with_customDomainFault (fun _ => true) Sample.env)
                  (ProcessDeployment (constructed Sample.env 8 Cases.own 0 1) [])
                  (after (Sample.serve Full Sample.env
                            (POST_deploy Sample.bearer8 Cases.own []) emptyWorld))))))
    = Some (error, Some "srv-demo").
Proof.
  destruct (custom_domain_failure_marks_error
              (with_customDomainFault (fun _ => true) Sample.env)
              (constructed Sample.env 8 Cases.own 0 1)
              (constructed Sample.env 8 Cases.own 0 1)
              (after (Sample.serve Full Sample.env
                        (POST_deploy Sample.bearer8 Cases.own []) emptyWorld))
              (Sample.service None)
              eq_refl eq_refl eq_refl eq_refl eq_refl eq_refl eq_refl eq_refl)
    as (H1 & H2 & _).
  split; [exact H1|].
  change (_id (constructed Sample.env 8 Cases.own 0 1)) with 0 in H2.
  rewrite H2. reflexivity.
Defined.

(** * The upload filter *)

Lemma Array_includes_spec (l : list string) (x : option string) :
  Array_includes l x = true <-> exists y, In y l /\ x = Some y.
Proof.
  unfold Array_includes. rewrite existsb_exists.
  split; intros (y & Hin & Hy); exists y; (split; [exact Hin|]).
  - apply same_spec in Hy. now symmetry.
  - apply same_spec. now symmetry.
Qed.

(** X27. [fileFilter] accepts a file exactly when its [type] is one of the
    listed types or its original name ends, in this very spelling, with
    ".zip", ".html", ".js" or ".css"; every other file is refused with
    'Invalid file type'.  What the simplified server accepts the full
    server accepts too (its list has 'image/webp' in addition). *)
Theorem fileFilter_accepts_listed_types_and_extensions (v : Variant)
    (file : Incoming) :
  (fileFilter v file = true <->
   (exists y, In y (allowedTypes v) /\ incoming_type file = Some y) \/
   (exists front ext, In ext [".zip"; ".html"; ".js"; ".css"] /\
      incoming_originalname file = (front ++ ext)%string)) /\
  (fileFilter Simplified file = true -> fileFilter Full file = true).
Proof.
  split.
  - unfold fileFilter. rewrite !orb_true_iff, Array_includes_spec, !endsWith_spec.
    split.
    + intros [[[[H | [f H]] | [f H]] | [f H]] | [f H]];
        [left; exact H | right; exists f .. ];
        [exists ".zip" | exists ".html" | exists ".js" | exists ".css"];
        (split; [cbn [In]; tauto | exact H]).
    + intros [H | (f & ext & Hext & H)]; [tauto|].
      cbn [In] in Hext.
      destruct Hext as [<- | [<- | [<- | [<- | []]]]]; eauto 8.
  - unfold fileFilter. rewrite !orb_true_iff, !Array_includes_spec.
    intros [[[[(y & Hin & Hy) | H] | H] | H] | H]; try tauto.
    left. left. left. left. exists y. split; [|exact Hy].
    cbn [allowedTypes In] in *. tauto.
Qed.

(** * The simplified variant *)

Section SimplifiedVariant.

Variable env : Env.

Lemma In_updateOne_cases (d e : Deployment) (ds : list Deployment) :
  In e (updateOne d ds) ->
  In e ds \/ exists x, In x ds /\ _id x = _id d /\ e = write_paths d x.
Proof.
  induction ds as [|x ds IH]; simpl; [tauto|].
  destruct (_id x =? _id d)%nat eqn:E.
  - apply Nat.eqb_eq in E. intros [<- | Hin]; [|left; now right].
    right. exists x. repeat split; [now left | exact E].
  - intros [<- | Hin]; [left; now left|].
    destruct (IH Hin) as [H | (y & Hy & Hid & ->)]; [left; now right|].
    right. exists y. repeat split; [now right | exact Hid].
Qed.

(** The timer of the simplified variant, by cases. *)
Lemma goLive_run (d : Deployment) (dom : option string) (w : World) :
  fst (runTask env (GoLive d dom) w) = [] /\
  (Deployments (snd (runTask env (GoLive d dom) w)) = Deployments w \/
   Deployments (snd (runTask env (GoLive d dom) w)) =
     updateOne
       (set_deploymentUrl (Some ("https://" ++ Js.interpolate dom)%string)
          (set_status live d))
       (Deployments w)).
Proof.
  unfold runTask, goLive; run.
  repeat (branch; run); (split; [reflexivity|]); (left; reflexivity) || (right; reflexivity).
Qed.

Lemma register_no_deployment (e pw : option string) (w : World) :
  Deployments (after (register env e pw w)) = Deployments w /\
  started (register env e pw w) = [].
Proof.
  unfold register.
  destruct e as [em|], pw as [pass|]; run; try (split; reflexivity).
  repeat (branch; run); split; reflexivity.
Qed.

Lemma route_simplified_effect (r : Request) (h : Handler) (w : World) :
  route Simplified env r = Some h ->
  simplified_effect env w (after (h w)) (started (h w)).
Proof.
  intros Hr.
  assert (Hread : same_store w (after (h w)) /\ started (h w) = [] ->
                  simplified_effect env w (after (h w)) (started (h w))).
  { intros [(_ & Hds & _) Hts]. now apply simplified_quiet. }
  destruct r; simpl in Hr; try discriminate;
    first [ injection Hr as <-
          | apply behind_upload_some in Hr; destruct Hr as [-> _] ].
  - apply simplified_quiet; apply register_no_deployment.
  - apply Hread, login_same_store.
  - unfold guarded.
    destruct (authenticateToken env authorization) as [refusal|user];
      [now apply simplified_quiet|].
    rewrite deploy_simplified_run.
    destruct (negb _); [now apply simplified_quiet|].
    destruct (dbFault env (2 + ticks w)); [now apply simplified_quiet|].
    destruct (existsb _ (Deployments w)); [now apply simplified_quiet|].
    now apply (simplified_insert env w _ _ user b (ticks w)).
  - apply Hread.
    apply guarded_same_store; intros; apply listDeployments_same_store.
Qed.

Lemma SimplifiedInv_initial : SimplifiedInv initial.
Proof. constructor; cbn; tauto. Qed.

Lemma SimplifiedInv_request (s : System) (w' : World) (ts : list Task) :
  Inv s -> SimplifiedInv s ->
  simplified_effect env (world s) w' ts ->
  SimplifiedInv {| world := w'; pending := pending s ++ ts |}.
Proof.
  intros HI HS [Hds -> | user b t Hds ->].
  - constructor; cbn [world pending]; rewrite ?app_nil_r, ?Hds.
    + apply (simplified_records s HS).
    + apply (simplified_tasks s HS).
  - constructor; cbn [world pending]; rewrite Hds.
    + intros e He. apply in_app_or in He.
      destruct He as [He | [<- | []]]; [now apply (simplified_records s HS)|].
      split; [reflexivity | left; now split].
    + intros t0 Ht. apply in_app_or in Ht. destruct Ht as [Ht | [<- | []]].
      * destruct (simplified_tasks s HS t0 Ht) as (d & -> & Hnone & Hdom).
        exists d. repeat split; try assumption.
        intros e He Hid. apply in_app_or in He.
        destruct He as [He | [<- | []]]; [now apply Hdom|].
        pose proof (task_id_bound s _ HI Ht) as Hlt.
        cbn [task_id _id constructed] in *. lia.
      * exists (constructed env user b (nextId (world s)) t).
        repeat split.
        intros e He Hid. apply in_app_or in He.
        destruct He as [He | [<- | []]]; [|reflexivity].
        pose proof (inv_stored_ids s HI e He) as Hlt.
        cbn [_id constructed] in Hid. lia.
Qed.

Lemma SimplifiedInv_task (s : System) (before after : list Task) (t : Task) :
  SimplifiedInv s ->
  pending s = before ++ t :: after ->
  SimplifiedInv {| world := snd (runTask env t (world s));
                   pending := before ++ fst (runTask env t (world s)) ++ after |}.
Proof.
  intros HS Hp.
  assert (Ht : In t (pending s)) by (rewrite Hp; apply in_or_app; right; now left).
  destruct (simplified_tasks s HS t Ht) as (d & -> & Hnone & Hdom).
  destruct (goLive_run d (domain d) (world s)) as [Hts Hds].
  pose proof (runTask_fixedPaths env (GoLive d (domain d)) (world s)) as Hfixed.
  rewrite Hts. cbn [app].
  constructor; cbn [world pending].
  - intros e He. destruct Hds as [Hds | Hds]; rewrite Hds in He;
      [now apply (simplified_records s HS)|].
    apply In_updateOne_cases in He.
    destruct He as [He | (x & Hx & Hid & ->)];
      [now apply (simplified_records s HS)|].
    split; [exact Hnone|]. right. split; [reflexivity|].
    cbn [write_paths deploymentUrl domain set_status set_renderServiceId
         set_deploymentUrl].
    now rewrite (Hdom x Hx Hid).
  - intros t0 Ht0.
    assert (Hin : In t0 (pending s)).
    { rewrite Hp. apply in_app_or in Ht0. apply in_or_app.
      destruct Ht0 as [H | H]; [now left | right; now right]. }
    destruct (simplified_tasks s HS t0 Hin) as (d0 & -> & Hnone0 & Hdom0).
    exists d0. repeat split; try assumption.
    intros e He Hid.
    apply (in_map fixedPaths) in He. rewrite Hfixed in He.
    apply in_map_iff in He. destruct He as (x & Hx & Hxin).
    unfold fixedPaths in Hx. injection Hx; intros.
    rewrite <- (Hdom0 x Hxin); congruence.
Qed.

End SimplifiedVariant.

Lemma reachable_SimplifiedInv (env : Env) (s : System) :
  reachable Simplified env s -> SimplifiedInv s.
Proof.
  induction 1 as [|s s' Hs IH Hstep].
  - apply SimplifiedInv_initial.
  - pose proof (reachable_Inv Simplified env s Hs) as HI.
    destruct Hstep as [s r h resp ts w' Hr Hrun | s before t after ts w' Hp Hrun].
    + apply (SimplifiedInv_request env); [assumption | assumption |].
      pose proof (route_simplified_effect env r h (world s) Hr) as He.
      rewrite Hrun in He. exact He.
    + pose proof (SimplifiedInv_task env s before after t IH Hp) as HS.
      rewrite Hrun in HS. exact HS.
Qed.

(** X28. In every state the simplified variant can reach, a stored record
    has no provider id and is either [building] without a URL or [live]
    with the URL "https://" followed by its own domain; it is never
    [deploying] or [error].  The only background work pending is the
    15-second timer of a creation. *)
Theorem simplified_records_are_building_or_live (env : Env) (s : System) :
  reachable Simplified env s ->
  (forall e, In e (Deployments (world s)) ->
     renderServiceId e = None /\
     ((status e = building /\ deploymentUrl e = None) \/
      (status e = live /\
       deploymentUrl e = Some ("https://" ++ Js.interpolate (domain e))%string)) /\
     status e <> deploying /\ status e <> error) /\
  (forall t, In t (pending s) -> exists d, t = GoLive d (domain d)).
Proof.
  intros Hreach. pose proof (reachable_SimplifiedInv env s Hreach) as HS.
  split.
  - intros e He. destruct (simplified_records s HS e He) as [Hnone Hcases].
    split; [exact Hnone|]. split; [exact Hcases|].
    destruct Hcases as [[-> _] | [-> _]]; split; discriminate.
  - intros t Ht. destruct (simplified_tasks s HS t Ht) as (d & -> & _).
    now exists d.
Qed.

Lemma simplified_records_are_building_or_live_witness :
  map (fun e => (status e, deploymentUrl e))
    (Deployments (world (Sample.settled Simplified Sample.env))) =
    [(live, Some "https://demo.ntl.cloud")] /\
  forall e, In e (Deployments (world (Sample.settled Simplified Sample.env))) ->
    renderServiceId e = None /\
    ((status e = building /\ deploymentUrl e = None) \/
     (status e = live /\
      deploymentUrl e = Some ("https://" ++ Js.interpolate (domain e))%string)) /\
    status e <> deploying /\ status e <> error.
Proof.
  split; [vm_compute; reflexivity|].
  apply (simplified_records_are_building_or_live Sample.env
           (Sample.settled Simplified Sample.env)).
  apply reachable_drain, reachable_justCreated.
Defined.
